(** * bin/bootstrap.py: the project bootstrap script

    A shallow embedding of [bin/bootstrap.py] and the properties of its
    four steps: helper-file generation, virtualenv creation, manifest
    installation and the temporary-script execution helper.

    A Python [str] is a [string], one [ascii] for each character, and a
    file holds the text written to it; which characters the text encoding
    of the process can write is for the host to say.  The file system is
    a finite map from paths to files; the Python functions that touch the
    operating system are written in a small state-and-exception monad
    that also records the observable events of a run. *)

From Stdlib Require Import Ascii String ZArith.
From stdpp Require Import gmap strings list pretty.



(** ** Python string helpers *)

Module Str.

(** [s.startswith(String c "")] *)
Definition starts_with_char (c : ascii) (s : string) : bool :=
  match s with
  | String d _ => bool_decide (d = c)
  | EmptyString => false
  end.

(** [s.endswith(String c "")] *)
Fixpoint ends_with_char (c : ascii) (s : string) : bool :=
  match s with
  | EmptyString => false
  | String d EmptyString => bool_decide (d = c)
  | String _ s' => ends_with_char c s'
  end.

(** Truthiness of a Python [str]: non-empty. *)
Definition truthy (s : string) : bool :=
  match s with
  | EmptyString => false
  | String _ _ => true
  end.

(** [sep.join(l)] for a one-character separator. *)
Fixpoint join (sep : ascii) (l : list string) : string :=
  match l with
  | [] => ""
  | [x] => x
  | x :: l' => x +:+ String sep (join sep l')
  end.

(** [s.split(String sep "")]: always at least one field. *)
Fixpoint split (sep : ascii) (s : string) : list string :=
  match s with
  | EmptyString => [""]
  | String c s' =>
      if bool_decide (c = sep) then "" :: split sep s'
      else match split sep s' with
           | h :: t => String c h :: t
           | [] => [String c ""]
           end
  end.

(** [bytes.splitlines()]: lines end at "\n", "\r" or "\r\n"; the
    terminators are dropped and a final terminator opens no empty
    line.  [cur] is the line being read, reversed. *)
Fixpoint splitlines_go (cur : list ascii) (s : string) : list string :=
  match s with
  | EmptyString =>
      match cur with
      | [] => []
      | _ => [string_of_list_ascii (rev cur)]
      end
  | String c s' =>
      if bool_decide (c = "010"%char) then
        string_of_list_ascii (rev cur) :: splitlines_go [] s'
      else if bool_decide (c = "013"%char) then
        string_of_list_ascii (rev cur) ::
          match s' with
          | String "010"%char s'' => splitlines_go [] s''
          | _ => splitlines_go [] s'
          end
      else splitlines_go (c :: cur) s'
  end.

Definition splitlines (s : string) : list string := splitlines_go [] s.

(** What reading in text mode makes of the text of a file (universal
    newlines): "\r\n" and a lone "\r" are read as "\n". *)
Fixpoint universal_newlines (s : string) : string :=
  match s with
  | EmptyString => ""
  | String c s' =>
      if bool_decide (c = "013"%char) then
        String "010" match s' with
                     | String "010"%char s'' => universal_newlines s''
                     | _ => universal_newlines s'
                     end
      else String c (universal_newlines s')
  end.

(** [all(p(c) for c in s)] *)
Fixpoint all (p : ascii -> bool) (s : string) : bool :=
  match s with
  | EmptyString => true
  | String c s' => p c && all p s'
  end.

(** [c.isascii()] *)
Definition is_ascii (c : ascii) : bool := Nat.ltb (nat_of_ascii c) 128.

(** The characters [str.strip()] removes: ASCII white space and the
    four separators FS, GS, RS, US. *)
Definition is_space (c : ascii) : bool :=
  let n := nat_of_ascii c in
  Nat.leb 9 n && Nat.leb n 13 || Nat.leb 28 n && Nat.leb n 32.

Fixpoint lstrip (s : string) : string :=
  match s with
  | EmptyString => ""
  | String c s' => if is_space c then lstrip s' else s
  end.

Fixpoint rstrip (s : string) : string :=
  match s with
  | EmptyString => ""
  | String c s' =>
      match rstrip s' with
      | EmptyString => if is_space c then "" else String c ""
      | r => String c r
      end
  end.

(** [s.strip()] *)
Definition strip (s : string) : string := rstrip (lstrip s).

(** The text of a triple-quoted literal, given line by line. *)
Definition lines (l : list string) : string := join "010"%char l.

End Str.

(** ** [posixpath]: the [os.path] functions the script calls *)

Module PosixPath.

Definition sep : ascii := "/"%char.

(** [os.path.isabs(s)] *)
Definition isabs (s : string) : bool := Str.starts_with_char sep s.

(** One step of [os.path.join]: an absolute component restarts the
    path, otherwise it is appended after exactly one separator. *)
Definition join2 (path b : string) : string :=
  if Str.starts_with_char sep b then b
  else if negb (Str.truthy path) || Str.ends_with_char sep path then path +:+ b
  else path +:+ String sep b.

(** [os.path.join(a, *p)] *)
Definition join (a : string) (p : list string) : string := foldl join2 a p.

(** [p[:p.rfind('/') + 1]] *)
Fixpoint upto_last_sep (p : string) : string :=
  match p with
  | EmptyString => ""
  | String c p' =>
      match upto_last_sep p' with
      | EmptyString => if bool_decide (c = sep) then String c "" else ""
      | r => String c r
      end
  end.

(** [head != '/' * len(head)] is [negb (all_sep head)] *)
Fixpoint all_sep (s : string) : bool :=
  match s with
  | EmptyString => true
  | String c s' => bool_decide (c = sep) && all_sep s'
  end.

(** [s.rstrip('/')] *)
Fixpoint rstrip_sep (s : string) : string :=
  match s with
  | EmptyString => ""
  | String c s' =>
      match rstrip_sep s' with
      | EmptyString => if bool_decide (c = sep) then "" else String c ""
      | r => String c r
      end
  end.

(** [os.path.dirname(p)] *)
Definition dirname (p : string) : string :=
  let head := upto_last_sep p in
  if Str.truthy head && negb (all_sep head) then rstrip_sep head else head.

(** The number of leading slashes [normpath] keeps: POSIX gives exactly
    two leading slashes a meaning of their own, three or more are one. *)
Definition initial_slashes (path : string) : nat :=
  match path with
  | String "/" (String "/" (String "/" _)) => 1
  | String "/" (String "/" _) => 2
  | String "/" _ => 1
  | _ => 0
  end.

(** The body of the loop of [normpath] over the components. *)
Definition norm_step (init : nat) (new_comps : list string) (comp : string)
  : list string :=
  if bool_decide (comp = "" ∨ comp = ".") then new_comps
  else if bool_decide (comp ≠ ".."
                       ∨ (init = 0 ∧ new_comps = [])
                       ∨ last new_comps = Some "..")
       then new_comps ++ [comp]
       else removelast new_comps.

Fixpoint slashes (n : nat) : string :=
  match n with
  | O => ""
  | S n' => String sep (slashes n')
  end.

(** [os.path.normpath(path)] *)
Definition normpath (path : string) : string :=
  if negb (Str.truthy path) then "."
  else
    let init := initial_slashes path in
    let comps := foldl (norm_step init) [] (Str.split sep path) in
    let path' := slashes init +:+ Str.join sep comps in
    if Str.truthy path' then path' else ".".

(** [os.path.abspath(path)], in a process whose working directory is
    [cwd]. *)
Definition abspath (cwd path : string) : string :=
  normpath (if isabs path then path else join cwd [path]).

End PosixPath.

(** ** The operating system as the script sees it *)

(** A regular file: its bytes and its permission bits. *)
Record File := mkFile { content : string; mode : N }.

(** The process state the script reads and writes: the file system, the
    environment ([os.environ]), the file-creation mask, and the number of
    child processes started so far (so that two runs of one script need
    not end alike). *)
Record OS := mkOS {
  files : gmap string File;
  environ : gmap string string;
  umask : N;
  spawned : nat
}.

(** The state with another file system, and after one more [Popen]. *)
Definition with_files (fs : gmap string File) (os : OS) : OS :=
  mkOS fs (environ os) (umask os) (spawned os).

Definition tick (os : OS) : OS :=
  mkOS (files os) (environ os) (umask os) (S (spawned os)).

(** How a child process ends: [execve] fails (no interpreter, no execute
    permission, bad format), or the child runs and exits with a status and
    the bytes it wrote to its standard output. *)
Inductive ChildResult :=
| ExecFailed (errno : Z)
| Exited (returncode : Z) (out : string).

(** The [stdout] argument of [subprocess.Popen]: [None] (inherit, nothing
    captured) or [subprocess.PIPE]. *)
Inductive Stdout := Inherit | PIPE.

(** What the script cannot decide by itself.  [child os argv] is the fate
    of the process started with [argv] in state [os]: it may depend on
    everything the child can read.  What children write to the file system
    (virtualenv and pip populate the venv directory) is not modelled: the
    script never tests those paths.

    [encodable c] is whether the text encoding of the process (the one
    [open] takes from the locale) can write the character [c]; it is asked
    for the characters above 127 only, every encoding Python uses for a
    locale being an extension of ASCII.  Under UTF-8 the characters it
    rejects are the lone surrogates that stand for the undecodable bytes
    of a command line, under ASCII all of them.

    [open_error os path] is the [errno] with which [open(path, 'w')]
    fails in state [os] (no such directory, no permission, a read-only
    file system, a directory in the way), [None] when it succeeds: the
    file system of the model has no directories and no owners.

    [root_handlers] is whether the root logger has a handler when [main]
    starts; it has none in a fresh interpreter. *)
Record Host := mkHost {
  file__ : string;                   (* __file__ *)
  cwd : string;                      (* os.getcwd() at import *)
  realpath : string -> string;       (* os.path.realpath *)
  executable : string;               (* sys.executable *)
  exec_prefix : string;              (* sys.exec_prefix *)
  child : OS -> list string -> ChildResult;
  encodable : ascii -> bool;
  open_error : OS -> string -> option Z;
  root_handlers : bool               (* len(logging.root.handlers) != 0 *)
}.

(** The exceptions the script raises or lets through. *)
Inductive Exn :=
| CalledProcessError (returncode : Z) (cmd : string)
| Exception_ (msg : string)
| OSError (errno : Z) (filename : string)
| UnicodeEncodeError (object : string)
| ValueError (level : string).   (* ValueError("Unknown level: %r" % level) *)

Definition ENOENT : Z := 2.

(** What a run lets the outside see, in order. *)
Inductive Event :=
| EvMkstemp (path : string)
| EvWrite (path data : string)
| EvChmod (path : string) (bits : N)
| EvUnlink (path : string)
| EvSpawn (argv : list string) (script : string)
| EvLog (msg : string)
| EvPrint (obj : option string).

Global Instance Event_eq_dec : EqDecision Event.
Proof. solve_decision. Defined.

Global Instance Exn_eq_dec : EqDecision Exn.
Proof. solve_decision. Defined.

(** ** The monad: state, exceptions and a trace *)

Record Res (A : Type) := mkRes {
  outcome : Exn + A;
  final : OS;
  emitted : list Event
}.
Arguments mkRes {A} _ _ _.
Arguments outcome {A} _.
Arguments final {A} _.
Arguments emitted {A} _.

Definition M (A : Type) : Type := OS -> Res A.

Definition ret {A} (x : A) : M A := fun os => mkRes (inr x) os [].

Definition bind {A B} (m : M A) (k : A -> M B) : M B := fun os =>
  let r := m os in
  match outcome r with
  | inl e => mkRes (inl e) (final r) (emitted r)
  | inr x =>
      let r' := k x (final r) in
      mkRes (outcome r') (final r') (emitted r ++ emitted r')
  end.

Definition raise {A} (e : Exn) : M A := fun os => mkRes (inl e) os [].

Definition emit (ev : Event) : M unit := fun os => mkRes (inr tt) os [ev].

Definition get : M OS := fun os => mkRes (inr os) os [].

(** [try: body finally: fin].  [fin] always runs; an exception of [fin]
    replaces whatever [body] returned or raised. *)
Definition try_finally {A} (body : M A) (fin : M unit) : M A := fun os =>
  let r := body os in
  let r' := fin (final r) in
  mkRes (match outcome r' with
         | inl e => inl e
         | inr _ => outcome r
         end)
        (final r') (emitted r ++ emitted r').

Notation "x <- m ;; k" := (bind m (fun x => k))
  (at level 100, m at next level, right associativity).
Notation "m ;;; k" := (bind m (fun _ => k))
  (at level 100, right associativity).

(** [for x in l: body x] *)
Fixpoint for_each {A} (l : list A) (body : A -> M unit) : M unit :=
  match l with
  | [] => ret tt
  | x :: l' => body x ;;; for_each l' body
  end.

(** ** The system calls and library calls of the script *)

Definition nl : string := String "010"%char "".
Definition dquote : string := String "034"%char "".

(** Whether [p] names something in [fs]; the empty path names nothing. *)
Definition exists_in (fs : gmap string File) (p : string) : bool :=
  Str.truthy p && bool_decide (is_Some (fs !! p)).

(** [os.path.exists(p)] *)
Definition path_exists (p : string) : M bool := fun os =>
  mkRes (inr (exists_in (files os) p)) os [].

(** The names [tempfile] draws from, and the first of them that is free:
    [mkstemp] opens with [O_EXCL] and moves on to another name as long as
    the one it tried exists. *)
Definition tmp_name (suffix : string) (n : nat) : string :=
  "/tmp/tmp" +:+ pretty n +:+ suffix.

Global Instance tmp_name_inj suffix : Inj (=) (=) (tmp_name suffix).
Proof.
  assert (Happ : forall a b : string,
            list_ascii_of_string (a +:+ b)
            = (list_ascii_of_string a ++ list_ascii_of_string b)%list).
  { induction a as [|c a IH]; intros b; simpl; [done | by rewrite IH]. }
  intros n m H. unfold tmp_name in H.
  apply (f_equal list_ascii_of_string) in H.
  rewrite !Happ in H.
  apply app_inv_head, app_inv_tail in H.
  apply (inj pretty).
  rewrite <- (string_of_list_ascii_of_string (pretty n)), H.
  apply string_of_list_ascii_of_string.
Qed.

Definition fresh_tmp (suffix : string) (fs : gmap string File) : string :=
  @fresh _ _ (@infinite_fresh _ (search_infinite (tmp_name suffix)))
         (elements (dom fs)).
Global Arguments fresh_tmp : simpl never.

(** [fd, path = tempfile.mkstemp(suffix=...)]: a new empty file, readable
    and writable by its owner only (0o600). *)
Definition mkstemp (suffix : string) : M string := fun os =>
  let path := fresh_tmp suffix (files os) in
  mkRes (inr path) (with_files (<[path := mkFile "" 384]> (files os)) os)
        [EvMkstemp path].

(** Whether the text encoding of the process can write [data]. *)
Definition writable (h : Host) (data : string) : bool :=
  Str.all (fun c => Str.is_ascii c || encodable h c) data.

(** [f.write(data)] on the text file open at [path]: the text is encoded
    at once, and [UnicodeEncodeError] is raised, nothing of [data] being
    written, if the encoding rejects a character of it; otherwise the text
    is appended.  Nothing that was written before is lost when the file is
    closed.  (A descriptor whose file has left the directory writes to
    nothing the script can see.) *)
Definition fwrite (h : Host) (path data : string) : M unit := fun os =>
  if writable h data then
    match files os !! path with
    | Some f =>
        mkRes (inr tt)
              (with_files (<[path := mkFile (content f +:+ data) (mode f)]> (files os)) os)
              [EvWrite path data]
    | None => mkRes (inr tt) os [EvWrite path data]
    end
  else mkRes (inl (UnicodeEncodeError data)) os [].

(** [with open(path) as f: f.read()]: the file is read in text mode. *)
Definition read_file (path : string) : M string := fun os =>
  match files os !! path with
  | Some f => mkRes (inr (Str.universal_newlines (content f))) os []
  | None => mkRes (inl (OSError ENOENT path)) os []
  end.

(** [open(path, 'w')]: the file is created with mode [0o666 & ~umask], or
    truncated if it is there; [OSError] is raised, and nothing done, when
    the file cannot be opened. *)
Definition open_w (h : Host) (path : string) : M unit := fun os =>
  if Str.truthy path then
    match open_error h os path with
    | Some errno => mkRes (inl (OSError errno path)) os []
    | None =>
        let bits := match files os !! path with
                    | Some f => mode f
                    | None => N.ldiff 438 (umask os)
                    end in
        mkRes (inr tt) (with_files (<[path := mkFile "" bits]> (files os)) os) []
    end
  else mkRes (inl (OSError ENOENT path)) os [].

(** [os.chmod(path, bits)] *)
Definition chmod (path : string) (bits : N) : M unit := fun os =>
  match files os !! path with
  | Some f =>
      mkRes (inr tt)
            (with_files (<[path := mkFile (content f) bits]> (files os)) os)
            [EvChmod path bits]
  | None => mkRes (inl (OSError ENOENT path)) os []
  end.

(** [os.unlink(path)] *)
Definition unlink (path : string) : M unit := fun os =>
  match files os !! path with
  | Some _ => mkRes (inr tt) (with_files (delete path (files os)) os) [EvUnlink path]
  | None => mkRes (inl (OSError ENOENT path)) os []
  end.

(** [p = subprocess.Popen(argv, stdout=stdout); output, _ = p.communicate()]
    and then [p.returncode].  [Popen] raises [OSError] when the program
    cannot be executed.  The event records the text of the program file as
    it is when the child starts. *)
Definition popen_communicate (h : Host) (argv : list string) (stdout : Stdout)
  : M (Z * option string) := fun os =>
  let script := match head argv ≫= (fun p => files os !! p) with
                | Some f => content f
                | None => ""
                end in
  match child h os argv with
  | ExecFailed errno =>
      mkRes (inl (OSError errno (default "" (head argv)))) (tick os)
            [EvSpawn argv script]
  | Exited rc out =>
      mkRes (inr (rc, match stdout with PIPE => Some out | Inherit => None end))
            (tick os) [EvSpawn argv script]
  end.

(** [logging.info(msg)]: the event is the record handed to the root
    logger. *)
Definition logging_info (msg : string) : M unit := emit (EvLog msg).

(** [logging._nameToLevel] *)
Definition name_to_level (name : string) : option Z :=
  if bool_decide (name = "CRITICAL") then Some 50%Z
  else if bool_decide (name = "FATAL") then Some 50%Z
  else if bool_decide (name = "ERROR") then Some 40%Z
  else if bool_decide (name = "WARN") then Some 30%Z
  else if bool_decide (name = "WARNING") then Some 30%Z
  else if bool_decide (name = "INFO") then Some 20%Z
  else if bool_decide (name = "DEBUG") then Some 10%Z
  else if bool_decide (name = "NOTSET") then Some 0%Z
  else None.

(** [logging.getLevelName(level)] for a [str]: the number of a level that
    has this name, and ['Level %s' % level] when there is none. *)
Definition getLevelName (level : string) : Z + string :=
  match name_to_level level with
  | Some n => inl n
  | None => inr ("Level " +:+ level)
  end.

(** [logging.basicConfig(level=level)]: nothing is done if the root
    logger has a handler; otherwise one is added and the level is set,
    and [Logger.setLevel] raises [ValueError] for a [str] that is not the
    name of a level. *)
Definition basicConfig (h : Host) (level : Z + string) : M unit :=
  if root_handlers h then ret tt
  else
    match level with
    | inl _ => ret tt
    | inr name =>
        match name_to_level name with
        | Some _ => ret tt
        | None => raise (ValueError name)
        end
    end.

(** [print(obj)] *)
Definition print_ (obj : option string) : M unit := emit (EvPrint obj).

(** ** bin/bootstrap.py *)

Module Bootstrap.

Definition CURRENT_DIR (h : Host) : string :=
  PosixPath.dirname (realpath h (PosixPath.abspath (cwd h) (file__ h))).

Definition CURRENT_PYTHON (h : Host) : string :=
  realpath h (PosixPath.abspath (cwd h) (executable h)).

Definition ENV_SH (h : Host) : string :=
  PosixPath.join (CURRENT_DIR h) ["env.sh"].

Definition VENV_DIR (h : Host) : string :=
  PosixPath.abspath (cwd h) (PosixPath.join (CURRENT_DIR h) [".."; ".venv"]).

(** The literal written to [env.sh], before [.strip()]. *)
Definition env_sh_literal : string := Str.lines [
  "";
  "#!/bin/bash";
  "";
  "PROJECT_DIR=$(realpath $(dirname $BASH_SOURCE)/..)";
  "";
  "# Location of venv directory";
  "VENV_DIR=${PROJECT_DIR}/.venv";
  "";
  "# Run bootstrap.py to create the virtualenv environment";
  "if ! [ -d " +:+ dquote +:+ "${VENV_DIR}" +:+ dquote +:+ " ]; then";
  "    echo " +:+ dquote +:+ "No venv directory found, please run bootstrap.py to create the venv environment, exiting..." +:+ dquote;
  "    exit 1";
  "fi";
  "";
  "# Activate virtualenv if not already";
  "if [ -z " +:+ dquote +:+ "${VIRTUAL_ENV}" +:+ dquote +:+ " ];";
  "then";
  "    echo " +:+ dquote +:+ "No active virtualenv found, activating from: '${VENV_DIR}'" +:+ dquote;
  "    . ${VENV_DIR}/bin/activate";
  "fi";
  "";
  "# Include src dir as well";
  "export PYTHONPATH=${PROJECT_DIR}/src";
  ""
].

(** Create the default env.sh if not exist *)
Definition create_env_file (h : Host) : M unit :=
  let path := PosixPath.join (CURRENT_DIR h) ["env.sh"] in
  (* Only create if does not exist already *)
  found <- path_exists path ;;
  if found then ret tt
  else
    open_w h path ;;;
    fwrite h path (Str.strip env_sh_literal).

(** The literal written to [python.sh], before [.strip()]. *)
Definition python_sh_literal : string := Str.lines [
  "";
  "#!/bin/bash";
  "";
  "# Disable core dump (no more core dump files)";
  "ulimit -c 0";
  "";
  "ENV_SH=$(dirname $BASH_SOURCE)/env.sh";
  "";
  "if ! [ -f ${ENV_SH} ];";
  "then";
  "    echo " +:+ dquote +:+ "Missing env.sh file exiting ..." +:+ dquote;
  "    exit 1";
  "fi";
  "";
  ". ${ENV_SH}";
  "";
  "PYTHON=${VIRTUAL_ENV}/bin/python";
  "";
  "echo ${PYTHON}";
  "";
  "exec ${PYTHON} " +:+ dquote +:+ "$@" +:+ dquote;
  ""
].

(** Create the default python wrapper: python.sh if not exist *)
Definition create_python_wrapper (h : Host) : M unit :=
  let path := PosixPath.join (CURRENT_DIR h) ["python.sh"] in
  (* Only create if does not exist already *)
  found <- path_exists path ;;
  if found then ret tt
  else
    open_w h path ;;;
    fwrite h path (Str.strip python_sh_literal) ;;;
    chmod path 493 (* 0o755 *).

(** The writes of [run_shell_command] into the temporary file. *)
Definition write_script (h : Host) (path : string) (commands : list string)
    (source_sh : option string) (shell : string) : M unit :=
  (if Str.truthy shell then
     fwrite h path "#!" ;;; fwrite h path shell ;;; fwrite h path nl
   else ret tt) ;;;
  (match source_sh with
   | Some src =>
       if Str.truthy src then
         fwrite h path "source " ;;; fwrite h path src ;;; fwrite h path nl
       else ret tt
   | None => ret tt
   end) ;;;
  for_each commands (fun c => fwrite h path c ;;; fwrite h path " ") ;;;
  fwrite h path nl.

Definition run_shell_command (h : Host) (commands : list string)
    (source_sh : option string) (stdout : Stdout) (shell : string)
  : M (option (list string)) :=
  path <- mkstemp ".sh" ;;
  write_script h path commands source_sh shell ;;;
  script_content <- read_file path ;;
  logging_info ("Executing script:" +:+ nl +:+ dquote +:+ dquote +:+ dquote
                +:+ nl +:+ script_content +:+ dquote +:+ dquote +:+ dquote) ;;;
  try_finally
    (chmod path 493 (* 0o755 *) ;;;
     p <- popen_communicate h [path] stdout ;;
     let '(returncode, output) := p in
     (* If return code is not 0 *)
     if bool_decide (returncode ≠ 0%Z) then
       print_ output ;;;
       raise (CalledProcessError returncode script_content)
     else
       match output with
       | Some out => ret (Some (Str.splitlines out))
       | None => ret None
       end)
    (unlink path).

(** The search loop of [setup_venv]: the first path that is given and
    exists replaces the default, and the loop stops there. *)
Fixpoint search_virtualenv (paths : list (option string)) (virtualenv : string)
  : M string :=
  match paths with
  | [] => ret virtualenv
  | p :: paths' =>
      match p with
      | Some p =>
          if Str.truthy p then
            found <- path_exists p ;;
            if found then ret p else search_virtualenv paths' virtualenv
          else search_virtualenv paths' virtualenv
      | None => search_virtualenv paths' virtualenv
      end
  end.

Definition setup_venv (h : Host) (virtualenv_path : option string)
    (python_path : string) : M unit :=
  (* Search virtualenv path: *)
  let paths := [
    (* First we check specified virtualenv *)
    virtualenv_path;
    (* Then we check if specified python executable comes with virtualenv *)
    Some (PosixPath.join (PosixPath.dirname python_path) ["virtualenv"]);
    (* Then we check current python used to run this script has virtualenv *)
    Some (PosixPath.join (exec_prefix h) ["bin"; "virtualenv"])
  ] in
  (* Default to virtualenv available in PATH *)
  virtualenv <- search_virtualenv paths "virtualenv" ;;
  logging_info ("Setting up venv directory at: " +:+ dquote +:+ VENV_DIR h
                +:+ dquote) ;;;
  let commands := [
    virtualenv;
    "--python=" +:+ python_path;
    "--never-download";
    VENV_DIR h
  ] in
  run_shell_command h commands None Inherit "/bin/bash" ;;;
  ret tt.

(** The [requirements_files] argument: one [str], or a list. *)
Inductive Requirements :=
| OneFile (path : string)
| FileList (paths : list string).

(** The installer command line without its manifest. *)
Definition pip_commands (h : Host) (pip_index_url : string)
    (pip_extra_index_url : option string) : list string := [
  PosixPath.join (VENV_DIR h) ["bin"; "pip"];
  "install";
  "--index-url=" +:+ pip_index_url;
  "--extra-index-url=" +:+
    match pip_extra_index_url with
    | Some url => if Str.truthy url then url else ""
    | None => ""
    end;
  "--timeout=120"
].

Definition pip_install (h : Host) (pip_index_url : string)
    (pip_extra_index_url : option string) (requirements_files : Requirements)
  : M unit :=
  let requirements_files :=
    match requirements_files with
    | OneFile path => [path]
    | FileList paths => paths
    end in
  let commands := pip_commands h pip_index_url pip_extra_index_url in
  for_each requirements_files (fun req =>
    found <- path_exists req ;;
    if negb found then
      raise (Exception_ ("Requirement file: " +:+ req +:+ " does not exists."))
    else
      logging_info ("Pip installing requirement file: " +:+ dquote +:+ req
                    +:+ dquote) ;;;
      run_shell_command h (commands ++ ["--requirement=" +:+ req])
                        (Some (ENV_SH h)) Inherit "/bin/bash" ;;;
      ret tt).

(** The result of [parser.parse_args()]. *)
Record Args := mkArgs {
  python : string;
  virtualenv_path : option string;
  pip_index_url : string;
  pip_extra_index_url : string;
  requirements : list string;
  logging_level : string
}.

(** The defaults of the argument parser. *)
Definition default_args (h : Host) : Args := {|
  python := CURRENT_PYTHON h;
  virtualenv_path := None;
  pip_index_url := "https://pypi.org/simple";
  pip_extra_index_url := "";
  requirements :=
    [PosixPath.abspath (cwd h)
       (PosixPath.join (CURRENT_DIR h) [".."; "requirements.txt"])];
  logging_level := "INFO"
|}.

Definition main (h : Host) (args : Args) : M unit :=
  basicConfig h (getLevelName (logging_level args)) ;;;
  (* Create env.sh and python.sh if they don't exist *)
  create_env_file h ;;;
  create_python_wrapper h ;;;
  (* Setup virtual env if not already *)
  env <- (os <- get ;; ret (environ os)) ;;
  (if bool_decide (env !! "VIRTUAL_ENV" = None) then
     setup_venv h (virtualenv_path args) (python args)
   else ret tt) ;;;
  (* Install requirements *)
  pip_install h (pip_index_url args) (Some (pip_extra_index_url args))
              (FileList (requirements args)).

End Bootstrap.

Import Bootstrap.

(** ** Vocabulary of the specification *)

(** The text [run_shell_command] composes: the shebang line, the optional
    [source] line, then the tokens, each followed by one space. *)
Definition script_text (commands : list string) (source_sh : option string)
    (shell : string) : string :=
  (if Str.truthy shell then "#!" +:+ shell +:+ nl else "") +:+
  (match source_sh with
   | Some src => if Str.truthy src then "source " +:+ src +:+ nl else ""
   | None => ""
   end) +:+
  foldr (fun c rest => c +:+ " " +:+ rest) nl commands.

(** The strings [run_shell_command] writes, one for each [f.write]. *)
Definition script_pieces (commands : list string) (source_sh : option string)
    (shell : string) : list string :=
  (if Str.truthy shell then ["#!"; shell; nl] else []) ++
  (match source_sh with
   | Some src => if Str.truthy src then ["source "; src; nl] else []
   | None => []
   end) ++
  flat_map (fun c => [c; " "]) commands ++ [nl].

(** The strings that are written before the first one the encoding
    rejects, and that one; [None] when all are written. *)
Fixpoint first_rejected (h : Host) (pieces : list string)
  : option (list string * string) :=
  match pieces with
  | [] => None
  | x :: rest =>
      if writable h x then
        match first_rejected h rest with
        | Some (pre, bad) => Some (x :: pre, bad)
        | None => None
        end
      else Some ([], x)
  end.

(** The text made of [pieces]. *)
Definition concat_text (pieces : list string) : string :=
  foldr String.append "" pieces.

(** The text of the script as the tool reads it back, in text mode: this
    is what it logs and what [CalledProcessError] carries. *)
Definition script_read (script : string) : string :=
  Str.universal_newlines script.

(** The writes that build it. *)
Definition script_writes (path : string) (commands : list string)
    (source_sh : option string) (shell : string) : list Event :=
  (if Str.truthy shell then
     [EvWrite path "#!"; EvWrite path shell; EvWrite path nl]
   else []) ++
  (match source_sh with
   | Some src =>
       if Str.truthy src then
         [EvWrite path "source "; EvWrite path src; EvWrite path nl]
       else []
   | None => []
   end) ++
  flat_map (fun c => [EvWrite path c; EvWrite path " "]) commands ++
  [EvWrite path nl].

(** The state a child of [run_shell_command] starts in: the script is in
    place and executable. *)
Definition exec_state (path script : string) (os : OS) : OS :=
  with_files (<[path := mkFile script 493]> (files os)) os.

(** The state in which a run of [run_shell_command] ends when a write is
    rejected: the temporary file is there, with what was written. *)
Definition left_behind (path text : string) (os : OS) : OS :=
  with_files (<[path := mkFile text 384]> (files os)) os.

(** The scripts of the children started during a run, in order. *)
Definition spawned_scripts (evs : list Event) : list string :=
  omap (fun ev => match ev with EvSpawn _ s => Some s | _ => None end) evs.

(** The paths deleted during a run, in order. *)
Definition unlinked (evs : list Event) : list string :=
  omap (fun ev => match ev with EvUnlink p => Some p | _ => None end) evs.

(** The objects printed during a run, in order. *)
Definition printed (evs : list Event) : list (option string) :=
  omap (fun ev => match ev with EvPrint o => Some o | _ => None end) evs.

(** Writes on a file that is there: the bytes accumulate. *)
Definition appended (path text : string) (c : string) (m : N) (os : OS) : OS :=
  with_files (<[path := mkFile (c +:+ text) m]> (files os)) os.

(** The line logged before the child starts. *)
Definition executing_line (script : string) : string :=
  "Executing script:" +:+ nl +:+ dquote +:+ dquote +:+ dquote +:+ nl
  +:+ script +:+ dquote +:+ dquote +:+ dquote.

(** What the [try] block of [run_shell_command] does once the script is
    written: make it executable, run it, look at the exit status. *)
Definition child_verdict (h : Host) (path script : string) (stdout : Stdout) (os : OS)
  : Res (option (list string)) :=
  let started := [EvChmod path 493; EvSpawn [path] script] in
  match child h os [path] with
  | ExecFailed errno => mkRes (inl (OSError errno path)) (tick os) started
  | Exited rc out =>
      let output := match stdout with PIPE => Some out | Inherit => None end in
      if bool_decide (rc ≠ 0%Z) then
        mkRes (inl (CalledProcessError rc (script_read script))) (tick os)
              (started ++ [EvPrint output])
      else mkRes (inr (Str.splitlines <$> output)) (tick os) started
  end.

(** The script that installs one manifest. *)
Definition pip_script (h : Host) (url : string) (extra : option string)
    (req : string) : string :=
  script_text (pip_commands h url extra ++ ["--requirement=" +:+ req])
              (Some (ENV_SH h)) "/bin/bash".

(** The message of the exception for a missing manifest. *)
Definition missing_message (req : string) : string :=
  "Requirement file: " +:+ req +:+ " does not exists.".

(** The run of the installer for one manifest, as [pip_install] starts it. *)
Definition install_one (h : Host) (url : string) (extra : option string)
    (req : string) : M (option (list string)) :=
  run_shell_command h (pip_commands h url extra ++ ["--requirement=" +:+ req])
                    (Some (ENV_SH h)) Inherit "/bin/bash".

(** The line logged before a manifest is installed. *)
Definition pip_line (req : string) : string :=
  "Pip installing requirement file: " +:+ dquote +:+ req +:+ dquote.

(** *** A small machine to run the script on

    The script is [/proj/bin/bootstrap.py]; [/proj/a.txt] is the only
    manifest there is; [verdict] decides how the [n]-th child ends. *)
Definition demo_host (verdict : nat -> ChildResult) : Host := {|
  file__ := "/proj/bin/bootstrap.py";
  cwd := "/proj";
  realpath := fun p => p;
  executable := "/usr/bin/python3";
  exec_prefix := "/usr";
  child := fun os _ => verdict (spawned os);
  encodable := fun _ => true;
  open_error := fun _ _ => None;
  root_handlers := false
|}.

(** The same machine in the C locale: text files are ASCII. *)
Definition ascii_host (verdict : nat -> ChildResult) : Host := {|
  file__ := "/proj/bin/bootstrap.py";
  cwd := "/proj";
  realpath := fun p => p;
  executable := "/usr/bin/python3";
  exec_prefix := "/usr";
  child := fun os _ => verdict (spawned os);
  encodable := fun _ => false;
  open_error := fun _ _ => None;
  root_handlers := false
|}.


Definition demo_os : OS := {|
  files := {[ "/proj/a.txt" := mkFile "requests" 420 ]};
  environ := ∅;
  umask := 18;
  spawned := 0
|}.

(** Every child succeeds and prints two lines. *)
Definition all_succeed : nat -> ChildResult :=
  fun _ => Exited 0 ("ok" +:+ nl +:+ "done" +:+ nl).

(** The first child succeeds, the others exit with status 1. *)
Definition second_fails : nat -> ChildResult :=
  fun n => match n with O => Exited 0 "" | S _ => Exited 1 "no such package" end.

(** What C1 claims of a run of [pip_install]: if some manifest of the list
    is missing, no installer is started at all and the exception names the
    first missing manifest. *)
Definition validates_before_installing (h : Host) (url : string)
    (extra : option string) (reqs : list string) (os : OS) : Prop :=
  forall pre req post,
    reqs = pre ++ req :: post ->
    Forall (fun p => exists_in (files os) p = true) pre ->
    exists_in (files os) req = false ->
    let r := pip_install h url extra (FileList reqs) os in
    spawned_scripts (emitted r) = []
    /\ outcome r = inl (Exception_ (missing_message req)).

(** The targets of the two helper files. *)
Definition env_sh_path (h : Host) : string :=
  PosixPath.join (CURRENT_DIR h) ["env.sh"].

Definition python_sh_path (h : Host) : string :=
  PosixPath.join (CURRENT_DIR h) ["python.sh"].

(** The first thing [main] does: the logging level. *)
Definition configure_logging (h : Host) (args : Args) : M unit :=
  basicConfig h (getLevelName (logging_level args)).

(** Whether [main] gets past it: the root logger is configured already,
    or the level is the name of a level. *)
Definition level_accepted (h : Host) (args : Args) : bool :=
  root_handlers h || bool_decide (is_Some (name_to_level (logging_level args))).

(** Step 1 of [main]: both helper files. *)
Definition generate_helpers (h : Host) : M unit :=
  create_env_file h ;;; create_python_wrapper h.

(** The places where [setup_venv] looks for the virtualenv tool, in the
    order it tries them: the explicit path if one is given, [virtualenv]
    next to the target interpreter, [virtualenv] in the [bin] directory of
    the running interpreter's prefix. *)
Definition virtualenv_candidates (h : Host) (virtualenv_path : option string)
    (python_path : string) : list string :=
  match virtualenv_path with Some p => [p] | None => [] end ++
  [PosixPath.join (PosixPath.dirname python_path) ["virtualenv"];
   PosixPath.join (exec_prefix h) ["bin"; "virtualenv"]].

(** The first candidate that exists, or the bare name. *)
Definition resolve_virtualenv (h : Host) (fs : gmap string File)
    (virtualenv_path : option string) (python_path : string) : string :=
  default "virtualenv"
          (List.find (exists_in fs) (virtualenv_candidates h virtualenv_path python_path)).

(** The command [setup_venv] runs with the tool [tool]. *)
Definition venv_script (h : Host) (tool python_path : string) : string :=
  script_text [tool; "--python=" +:+ python_path; "--never-download"; VENV_DIR h]
              None "/bin/bash".

(** The line [setup_venv] logs before it runs the tool. *)
Definition setup_line (h : Host) : string :=
  "Setting up venv directory at: " +:+ dquote +:+ VENV_DIR h +:+ dquote.

(** A machine with two virtualenv tools, running inside a virtual
    environment. *)
Definition demo_tools_os : OS := {|
  files := {[ "/usr/bin/virtualenv" := mkFile "" 493;
              "/usr/local/bin/virtualenv" := mkFile "" 493 ]};
  environ := {[ "VIRTUAL_ENV" := "/home/dev/venv" ]};
  umask := 18;
  spawned := 0
|}.

(** The lines logged during a run, in order. *)
Definition logged (evs : list Event) : list string :=
  omap (fun ev => match ev with EvLog m => Some m | _ => None end) evs.

(** The installation step of [main]. *)
Definition install_requirements (h : Host) (args : Args) : M unit :=
  pip_install h (pip_index_url args) (Some (pip_extra_index_url args))
              (FileList (requirements args)).

(** Whether a separator occurs in [s]. *)
Fixpoint has_sep (s : string) : bool :=
  match s with
  | EmptyString => false
  | String c s' => bool_decide (c = PosixPath.sep) || has_sep s'
  end.

(** A component of a normalised path: a name other than [.] and [..]. *)
Definition clean (c : string) : Prop :=
  has_sep c = false /\ c ≠ "" /\ c ≠ "." /\ c ≠ "..".

(** A normalised absolute path: one or two slashes and clean components
    with single slashes between them. *)
Definition normal_form (n : nat) (cs : list string) : string :=
  PosixPath.slashes n +:+ Str.join PosixPath.sep cs.

(** Where the script file is, links resolved. *)
Definition tool_file (h : Host) : string :=
  realpath h (PosixPath.abspath (cwd h) (file__ h)).

(** The parent of the directory the script is in. *)
Definition project_root (h : Host) : string :=
  PosixPath.dirname (CURRENT_DIR h).

(** The temporary files created during a run, in order. *)
Definition created (evs : list Event) : list string :=
  omap (fun ev => match ev with EvMkstemp p => Some p | _ => None end) evs.

(** The bytes written to [path] during a run, in order. *)
Definition written (path : string) (evs : list Event) : string :=
  foldr (fun ev rest =>
           match ev with
           | EvWrite p data => if bool_decide (p = path) then data +:+ rest else rest
           | _ => rest
           end) "" evs.

(** Whether the character [c] occurs in [s]. *)
Fixpoint has_char (c : ascii) (s : string) : bool :=
  match s with
  | EmptyString => false
  | String d s' => bool_decide (d = c) || has_char c s'
  end.

(** A line without a line break in it. *)
Definition one_line (s : string) : Prop :=
  has_char "010"%char s = false /\ has_char "013"%char s = false.

(** Whether a run has ended with [UnicodeEncodeError]. *)
Definition encode_error {A} (o : Exn + A) : bool :=
  match o with
  | inl (UnicodeEncodeError _) => true
  | _ => false
  end.

(** What a run that started with the files [fs] leaves behind, by its
    events [evs] and its final state [os'].  A run that does not end with
    [UnicodeEncodeError] has deleted every temporary file it has created
    and leaves the files as they were; one that does has deleted all of
    them but the last, a new file, and that one is the one path where the
    files differ. *)
Definition tidy (fs : gmap string File) (left : bool) (os' : OS)
    (evs : list Event) : Prop :=
  if left then
    exists p, created evs = unlinked evs ++ [p]
              /\ fs !! p = None
              /\ forall q, q ≠ p -> files os' !! q = fs !! q
  else created evs = unlinked evs /\ files os' = fs.

Definition tidy_after {A} (fs : gmap string File) (r : Res A) : Prop :=
  tidy fs (encode_error (outcome r)) (final r) (emitted r).

(** The text whose lines are [lines]: each line and a line feed. *)
Definition unlines (lines : list string) : string :=
  foldr (fun l rest => l +:+ nl +:+ rest) "" lines.

(** A text with its last line closed by a line feed. *)
Definition terminated (s : string) : string :=
  if Str.truthy s && negb (Str.ends_with_char "010"%char s) then s +:+ nl else s.

(** What C2 claims of the exception of a child that exits with a status
    other than zero: it carries the script as it was composed. *)
Definition carries_composed_script (h : Host) (commands : list string)
    (source_sh : option string) (stdout : Stdout) (shell : string) (os : OS) : Prop :=
  forall rc out,
    let path := fresh_tmp ".sh" (files os) in
    let script := script_text commands source_sh shell in
    child h (exec_state path script os) [path] = Exited rc out ->
    rc ≠ 0%Z ->
    outcome (run_shell_command h commands source_sh stdout shell os)
    = inl (CalledProcessError rc script).

(** Step 2 of [main] in a process whose environment is [env]: the venv is
    set up unless [VIRTUAL_ENV] is there. *)
Definition setup_step (h : Host) (args : Args) (env : gmap string string) : M unit :=
  if bool_decide (env !! "VIRTUAL_ENV" = None) then
    setup_venv h (virtualenv_path args) (python args)
  else ret tt.

(** What is printed by a run that ends with [o]: children do not have
    their output captured, so the one thing [print] can show is [None],
    and it does so when a child has exited with a non-zero status. *)
Definition printed_for {A} (o : Exn + A) : list (option string) :=
  match o with
  | inl (CalledProcessError _ _) => [None]
  | _ => []
  end.

(** ** The string and path functions on examples

    The values are those Python gives. *)

Example normpath_ex1 : PosixPath.normpath "/a/b/bin/../.venv" = "/a/b/.venv".
Proof. reflexivity. Qed.
Example normpath_ex2 : PosixPath.normpath "//a//./b/../../../c/" = "//c".
Proof. reflexivity. Qed.
Example normpath_ex3 : PosixPath.normpath "a/../../b" = "../b".
Proof. reflexivity. Qed.
Example normpath_ex4 : PosixPath.normpath "///a" = "/a".
Proof. reflexivity. Qed.
Example dirname_ex1 : PosixPath.dirname "/usr/bin/python3" = "/usr/bin".
Proof. reflexivity. Qed.
Example dirname_ex2 : PosixPath.dirname "python3" = "".
Proof. reflexivity. Qed.
Example dirname_ex3 : PosixPath.dirname "//x" = "//".
Proof. reflexivity. Qed.
Example dirname_ex4 : PosixPath.dirname "/a//b" = "/a".
Proof. reflexivity. Qed.
Example join_ex1 : PosixPath.join "/p/bin" [".."; ".venv"] = "/p/bin/../.venv".
Proof. reflexivity. Qed.
Example join_ex2 : PosixPath.join "" ["virtualenv"] = "virtualenv".
Proof. reflexivity. Qed.
Example split_ex : Str.split "/" "//a/b/" = [""; ""; "a"; "b"; ""].
Proof. reflexivity. Qed.
Example splitlines_ex :
  Str.splitlines ("a" +:+ nl +:+ "b" +:+ String "013" nl +:+ nl +:+ "c"
                  +:+ String "013" "")
  = ["a"; "b"; ""; "c"].
Proof. reflexivity. Qed.
Example strip_ex : Str.strip (nl +:+ "  #!/bin/bash" +:+ nl +:+ " x " +:+ nl)
                   = "#!/bin/bash" +:+ nl +:+ " x".
Proof. reflexivity. Qed.

(** A first run on a fresh checkout: both helper files are written, the
    venv is created with the [virtualenv] of the running interpreter's
    directory, the manifest is installed, and [main] returns. *)
Example main_fresh_checkout :
  let h := demo_host all_succeed in
  let args := {| python := "/usr/bin/python3";
                 virtualenv_path := None;
                 pip_index_url := "https://pypi.org/simple";
                 pip_extra_index_url := "";
                 requirements := ["/proj/a.txt"];
                 logging_level := "INFO" |} in
  let os := with_files (<["/usr/bin/virtualenv" := mkFile "" 493]> (files demo_os))
                       demo_os in
  let r := main h args os in
  outcome r = inr tt
  /\ VENV_DIR h = "/proj/.venv"
  /\ spawned_scripts (emitted r)
     = ["#!/bin/bash" +:+ nl
        +:+ "/usr/bin/virtualenv --python=/usr/bin/python3 --never-download /proj/.venv "
        +:+ nl;
        "#!/bin/bash" +:+ nl +:+ "source /proj/bin/env.sh" +:+ nl
        +:+ "/proj/.venv/bin/pip install --index-url=https://pypi.org/simple "
        +:+ "--extra-index-url= --timeout=120 --requirement=/proj/a.txt " +:+ nl]
  /\ (content <$> files (final r) !! "/proj/bin/env.sh")
     = Some (Str.strip env_sh_literal)
  /\ (mode <$> files (final r) !! "/proj/bin/python.sh") = Some 493%N
  /\ (files (final r) !! "/tmp/tmp0.sh") = None.
Proof. vm_compute. repeat split; reflexivity. Qed.

(** ** Facts about the monad and the system calls *)

Section MonadFacts.
Context {A B : Type}.

Lemma bind_inr (m : M A) (k : A -> M B) os x os1 ev1 :
  m os = mkRes (inr x) os1 ev1 ->
  bind m k os = mkRes (outcome (k x os1)) (final (k x os1)) (ev1 ++ emitted (k x os1)).
Proof. intros H. unfold bind. by rewrite H. Qed.

Lemma bind_inl (m : M A) (k : A -> M B) os e os1 ev1 :
  m os = mkRes (inl e) os1 ev1 ->
  bind m k os = mkRes (inl e) os1 ev1.
Proof. intros H. unfold bind. by rewrite H. Qed.

Lemma bind_ok (m : M A) (k : A -> M B) os x os1 ev1 o os2 ev2 :
  m os = mkRes (inr x) os1 ev1 ->
  k x os1 = mkRes o os2 ev2 ->
  bind m k os = mkRes o os2 (ev1 ++ ev2).
Proof. intros H1 H2. unfold bind. rewrite H1. simpl. by rewrite H2. Qed.

Lemma bind_ok_ev (m : M A) (k : A -> M B) os x os1 ev1 o os2 ev2 ev :
  m os = mkRes (inr x) os1 ev1 ->
  k x os1 = mkRes o os2 ev2 ->
  ev = ev1 ++ ev2 ->
  bind m k os = mkRes o os2 ev.
Proof. intros H1 H2 ->. by eapply bind_ok. Qed.

Lemma try_finally_ok (body : M A) (fin : M unit) os o os1 ev1 os2 ev2 :
  body os = mkRes o os1 ev1 ->
  fin os1 = mkRes (inr tt) os2 ev2 ->
  try_finally body fin os = mkRes o os2 (ev1 ++ ev2).
Proof. intros H1 H2. unfold try_finally. rewrite H1. simpl. by rewrite H2. Qed.

Lemma Res_eta (r : Res A) : r = mkRes (outcome r) (final r) (emitted r).
Proof. by destruct r. Qed.

Lemma Res_eq (r : Res A) o os :
  outcome r = o -> final r = os -> r = mkRes o os (emitted r).
Proof. intros <- <-. by destruct r. Qed.
End MonadFacts.

(** One step of a run: the first computation of a [bind] returns. *)
Ltac mstep tac := eapply bind_ok_ev; [tac | cbv beta iota | reflexivity].

Lemma append_cons (x : ascii) (a b : string) :
  String x a +:+ b = String x (a +:+ b).
Proof. reflexivity. Qed.

Lemma append_nil_l (a : string) : "" +:+ a = a.
Proof. reflexivity. Qed.

Lemma append_assoc (a b c : string) : (a +:+ b) +:+ c = a +:+ b +:+ c.
Proof.
  induction a as [|x a IH]; [done|]. by rewrite !append_cons, IH.
Qed.

Lemma append_nil_r (a : string) : a +:+ "" = a.
Proof.
  induction a as [|x a IH]; [done|]. by rewrite append_cons, IH.
Qed.

Lemma with_files_id os : with_files (files os) os = os.
Proof. by destruct os. Qed.

Lemma fresh_tmp_None suffix (fs : gmap string File) : fs !! fresh_tmp suffix fs = None.
Proof.
  apply not_elem_of_dom. rewrite <- elem_of_elements. unfold fresh_tmp.
  apply infinite_is_fresh.
Qed.

Lemma bind_assoc {A B C} (m : M A) (f : A -> M B) (g : B -> M C) os :
  bind (bind m f) g os = bind m (fun x => bind (f x) g) os.
Proof.
  unfold bind. destruct (outcome (m os)) as [e|x]; [done|]. cbn [outcome final emitted].
  destruct (outcome (f x (final (m os)))) as [e|y]; [done|]. cbn [outcome final emitted].
  by rewrite app_assoc.
Qed.

Lemma bind_ext {A B} (m m' : M A) (k k' : A -> M B) os :
  m os = m' os -> (forall x os', k x os' = k' x os') -> bind m k os = bind m' k' os.
Proof. intros Hm Hk. unfold bind. rewrite Hm. destruct (outcome (m' os)); by rewrite ?Hk. Qed.

Lemma bind_same {A B} (m : M A) (k k' : A -> M B) os :
  final (m os) = os -> (forall x, k x os = k' x os) -> bind m k os = bind m k' os.
Proof.
  intros Hf Hk. unfold bind. destruct (outcome (m os)); [done|]. by rewrite Hf, Hk.
Qed.

Lemma ret_bind {A B} (x : A) (k : A -> M B) os : bind (ret x) k os = k x os.
Proof. unfold bind, ret. cbn. symmetry. apply Res_eta. Qed.

Lemma bind_ret {A} (m : M A) os : bind m ret os = m os.
Proof.
  unfold bind, ret. destruct (m os) as [[e|x] os1 evs]; cbn; [done|].
  by rewrite app_nil_r.
Qed.

Lemma for_each_app {A} (l1 l2 : list A) (body : A -> M unit) : forall os,
  for_each (l1 ++ l2) body os = (for_each l1 body ;;; for_each l2 body) os.
Proof.
  induction l1 as [|x l1 IH]; intros os; cbn [app for_each].
  - by rewrite ret_bind.
  - rewrite bind_assoc. apply bind_ext; [done|]. intros _ os'. apply IH.
Qed.

Lemma for_each_one {A} (x : A) (body : A -> M unit) os :
  for_each [x] body os = body x os.
Proof.
  cbn [for_each]. unfold bind, ret. destruct (body x os) as [[e|[]] os1 evs]; cbn; [done|].
  by rewrite app_nil_r.
Qed.

Lemma appended_lookup path text c m os :
  files (appended path text c m os) !! path = Some (mkFile (c +:+ text) m).
Proof. unfold appended. simpl. apply lookup_insert_eq. Qed.

Lemma appended_appended path t1 t2 c m os :
  appended path t2 (c +:+ t1) m (appended path t1 c m os)
  = appended path (t1 +:+ t2) c m os.
Proof.
  unfold appended, with_files. simpl. by rewrite insert_insert_eq, append_assoc.
Qed.

Lemma appended_nil path c m os :
  files os !! path = Some (mkFile c m) -> appended path "" c m os = os.
Proof.
  intros H. unfold appended. rewrite append_nil_r, insert_id by done.
  apply with_files_id.
Qed.

(** *** What can be written *)

Lemma writable_app h (a b : string) :
  writable h (a +:+ b) = writable h a && writable h b.
Proof.
  unfold writable. induction a as [|x a IH]; [done|].
  rewrite append_cons. cbn [Str.all]. by rewrite IH, andb_assoc.
Qed.

Lemma concat_text_app (l1 l2 : list string) :
  concat_text (l1 ++ l2) = concat_text l1 +:+ concat_text l2.
Proof.
  induction l1 as [|x l1 IH]; [done|]. cbn [app concat_text foldr].
  fold (concat_text (l1 ++ l2)) (concat_text l1). by rewrite IH, append_assoc.
Qed.

Lemma first_rejected_None h pieces :
  first_rejected h pieces = None <-> writable h (concat_text pieces) = true.
Proof.
  induction pieces as [|x l IH]; [done|]. cbn [first_rejected concat_text foldr].
  fold (concat_text l). rewrite writable_app.
  destruct (writable h x); cbn [andb]; [|done].
  destruct (first_rejected h l) as [[pre bad]|].
  - split; [done|]. intros H. by apply IH in H.
  - split; [|done]. intros _. by apply IH.
Qed.

Lemma first_rejected_Some h pieces pre bad :
  first_rejected h pieces = Some (pre, bad) ->
  writable h bad = false /\ writable h (concat_text pre) = true
  /\ exists post, pieces = pre ++ bad :: post.
Proof.
  revert pre. induction pieces as [|x l IH]; intros pre; [done|].
  cbn [first_rejected]. destruct (writable h x) eqn:Hx.
  - destruct (first_rejected h l) as [[pre' bad']|]; [|done].
    intros [= <- <-]. destruct (IH pre' eq_refl) as (Hb & Hp & post & ->).
    split; [done|]. split; [|by exists post].
    cbn [concat_text foldr]. fold (concat_text pre'). by rewrite writable_app, Hx.
  - intros [= <- <-]. split; [done|]. split; [done|]. by exists l.
Qed.

Lemma script_pieces_text commands source_sh shell :
  concat_text (script_pieces commands source_sh shell)
  = script_text commands source_sh shell.
Proof.
  unfold script_pieces, script_text. rewrite !concat_text_app. f_equal; [|f_equal].
  - destruct (Str.truthy shell); [|done]. cbn. by rewrite append_nil_r.
  - destruct source_sh as [src|]; [|done]. destruct (Str.truthy src); [|done].
    cbn. by rewrite append_nil_r.
  - induction commands as [|x l IH]; [cbn; by rewrite append_nil_r|].
    cbn [flat_map app foldr]. rewrite <- IH.
    change (concat_text (x :: " " :: ?t)) with (x +:+ " " +:+ concat_text t).
    by rewrite !append_assoc.
Qed.

Lemma script_pieces_writes path commands source_sh shell :
  map (EvWrite path) (script_pieces commands source_sh shell)
  = script_writes path commands source_sh shell.
Proof.
  unfold script_pieces, script_writes. rewrite !map_app. f_equal; [|f_equal; [|f_equal]].
  - by destruct (Str.truthy shell).
  - destruct source_sh as [src|]; [|done]. by destruct (Str.truthy src).
  - induction commands as [|x l IH]; [done|]. cbn [flat_map app map]. by rewrite IH.
Qed.

(** *** The writes of [run_shell_command] *)

Lemma fwrite_appended h path data os c m :
  files os !! path = Some (mkFile c m) ->
  fwrite h path data os
  = if writable h data then mkRes (inr tt) (appended path data c m os) [EvWrite path data]
    else mkRes (inl (UnicodeEncodeError data)) os [].
Proof. intros H. unfold fwrite. by rewrite H. Qed.

(** Writing the pieces one after the other stops at the first one the
    encoding rejects; what was written before is in the file. *)
Lemma for_each_fwrite h path pieces : forall os c m,
  files os !! path = Some (mkFile c m) ->
  for_each pieces (fwrite h path) os
  = match first_rejected h pieces with
    | None =>
        mkRes (inr tt) (appended path (concat_text pieces) c m os)
              (map (EvWrite path) pieces)
    | Some (pre, bad) =>
        mkRes (inl (UnicodeEncodeError bad)) (appended path (concat_text pre) c m os)
              (map (EvWrite path) pre)
    end.
Proof.
  induction pieces as [|x l IH]; intros os c m Hc.
  - cbn. unfold ret. by rewrite appended_nil.
  - cbn [for_each first_rejected]. unfold bind at 1.
    rewrite (fwrite_appended _ _ _ _ _ _ Hc).
    destruct (writable h x); cbn [outcome final emitted].
    + rewrite (IH _ (c +:+ x) m) by apply appended_lookup.
      destruct (first_rejected h l) as [[pre bad]|]; cbn [outcome final emitted];
        by rewrite appended_appended.
    + by rewrite appended_nil.
Qed.

Lemma write_script_pieces h path commands source_sh shell os :
  write_script h path commands source_sh shell os
  = for_each (script_pieces commands source_sh shell) (fwrite h path) os.
Proof.
  unfold write_script, script_pieces. rewrite for_each_app.
  apply bind_ext.
  { destruct (Str.truthy shell); [|done]. cbn [for_each].
    apply bind_ext; [done|]. intros _ os1. apply bind_ext; [done|]. intros _ os2.
    symmetry. apply (for_each_one _ (fwrite h path)). }
  intros _ os1. rewrite for_each_app. apply bind_ext.
  { destruct source_sh as [src|]; [|done]. destruct (Str.truthy src); [|done].
    cbn [for_each].
    apply bind_ext; [done|]. intros _ os2. apply bind_ext; [done|]. intros _ os3.
    symmetry. apply (for_each_one _ (fwrite h path)). }
  intros _ os2. rewrite for_each_app.
  apply bind_ext; [|intros _ os3; symmetry; apply for_each_one].
  clear. revert os2. induction commands as [|x l IH]; intros os; [done|].
  cbn [for_each flat_map app]. rewrite bind_assoc.
  apply bind_ext; [done|]. intros _ os1. apply bind_ext; [done|]. intros _ os2. apply IH.
Qed.

(** The writes of the script: all of them, or those before the first
    string the encoding rejects. *)
Lemma write_script_eq h path commands source_sh shell os c m :
  files os !! path = Some (mkFile c m) ->
  write_script h path commands source_sh shell os
  = match first_rejected h (script_pieces commands source_sh shell) with
    | None =>
        mkRes (inr tt) (appended path (script_text commands source_sh shell) c m os)
              (script_writes path commands source_sh shell)
    | Some (pre, bad) =>
        mkRes (inl (UnicodeEncodeError bad)) (appended path (concat_text pre) c m os)
              (map (EvWrite path) pre)
    end.
Proof.
  intros H. rewrite write_script_pieces, (for_each_fwrite _ _ _ _ _ _ H).
  by rewrite script_pieces_text, script_pieces_writes.
Qed.

Lemma mkstemp_eq suffix os :
  mkstemp suffix os
  = mkRes (inr (fresh_tmp suffix (files os)))
          (with_files (<[fresh_tmp suffix (files os) := mkFile "" 384]> (files os)) os)
          [EvMkstemp (fresh_tmp suffix (files os))].
Proof. reflexivity. Qed.

Lemma unlink_present path os f :
  files os !! path = Some f ->
  unlink path os = mkRes (inr tt) (with_files (delete path (files os)) os) [EvUnlink path].
Proof. intros H. unfold unlink. by rewrite H. Qed.

Lemma chmod_present path bits os f :
  files os !! path = Some f ->
  chmod path bits os
  = mkRes (inr tt) (with_files (<[path := mkFile (content f) bits]> (files os)) os)
          [EvChmod path bits].
Proof. intros H. unfold chmod. by rewrite H. Qed.

Lemma popen_failed h path stdout os f errno :
  files os !! path = Some f ->
  child h os [path] = ExecFailed errno ->
  popen_communicate h [path] stdout os
  = mkRes (inl (OSError errno path)) (tick os) [EvSpawn [path] (content f)].
Proof. intros H Hc. unfold popen_communicate. simpl. by rewrite H, Hc. Qed.

Lemma popen_exited h path stdout os f rc out :
  files os !! path = Some f ->
  child h os [path] = Exited rc out ->
  popen_communicate h [path] stdout os
  = mkRes (inr (rc, match stdout with PIPE => Some out | Inherit => None end))
          (tick os) [EvSpawn [path] (content f)].
Proof. intros H Hc. unfold popen_communicate. simpl. by rewrite H, Hc. Qed.

Lemma try_block_eq h path script stdout os bits :
  files os !! path = Some (mkFile script bits) ->
  (chmod path 493 ;;;
   p <- popen_communicate h [path] stdout ;;
   let '(returncode, output) := p in
   if bool_decide (returncode ≠ 0%Z) then
     print_ output ;;; raise (CalledProcessError returncode (script_read script))
   else
     match output with
     | Some out => ret (Some (Str.splitlines out))
     | None => ret None
     end) os
  = child_verdict h path script stdout (exec_state path script os).
Proof.
  intros H. unfold child_verdict.
  assert (Hl : files (exec_state path script os) !! path = Some (mkFile script 493))
    by apply lookup_insert_eq.
  destruct (child h (exec_state path script os) [path]) as [errno|rc out] eqn:Hc.
  - mstep ltac:(erewrite chmod_present by exact H; reflexivity).
    apply bind_inl. erewrite popen_failed by eassumption. reflexivity.
  - case_bool_decide as Hrc.
    + mstep ltac:(erewrite chmod_present by exact H; reflexivity).
      mstep ltac:(erewrite popen_exited by eassumption; reflexivity).
      rewrite bool_decide_true by done.
      mstep ltac:(reflexivity). reflexivity.
    + mstep ltac:(erewrite chmod_present by exact H; reflexivity).
      mstep ltac:(erewrite popen_exited by eassumption; reflexivity).
      subst rc.
      destruct stdout; reflexivity.
Qed.

(** A run of [run_shell_command]: if the encoding rejects one of the
    strings of the script, the run ends there, before the [try] block,
    and the temporary file stays; otherwise the script is logged as it is
    read back, run, and deleted. *)
Lemma run_shell_command_eq h commands source_sh stdout shell os :
  let path := fresh_tmp ".sh" (files os) in
  let script := script_text commands source_sh shell in
  run_shell_command h commands source_sh stdout shell os
  = match first_rejected h (script_pieces commands source_sh shell) with
    | Some (pre, bad) =>
        mkRes (inl (UnicodeEncodeError bad)) (left_behind path (concat_text pre) os)
              (EvMkstemp path :: map (EvWrite path) pre)
    | None =>
        let r := child_verdict h path script stdout (exec_state path script os) in
        mkRes (outcome r) (tick os)
              (EvMkstemp path :: script_writes path commands source_sh shell
               ++ [EvLog (executing_line (script_read script))] ++ emitted r
               ++ [EvUnlink path])
    end.
Proof.
  intros path script. unfold run_shell_command.
  pose proof (fresh_tmp_None ".sh" (files os)) as Hfresh. fold path in Hfresh.
  set (os1 := with_files (<[path := mkFile "" 384]> (files os)) os).
  assert (H1 : files os1 !! path = Some (mkFile "" 384)) by apply lookup_insert_eq.
  pose proof (write_script_eq h path commands source_sh shell os1 "" 384 H1) as Hw.
  destruct (first_rejected h (script_pieces commands source_sh shell)) as [[pre bad]|].
  - mstep ltac:(apply mkstemp_eq). fold path os1.
    apply bind_inl. rewrite Hw. f_equal.
    unfold appended, left_behind, os1, with_files. simpl. by rewrite insert_insert_eq.
  - mstep ltac:(apply mkstemp_eq). fold path os1. clearbody path.
    mstep ltac:(exact Hw).
    fold script.
    set (os2 := appended path script "" 384 os1).
    assert (H2 : files os2 !! path = Some (mkFile script 384)) by apply appended_lookup.
    mstep ltac:(unfold read_file; by rewrite H2).
    mstep ltac:(reflexivity).
    assert (Hexec : exec_state path script os2 = exec_state path script os).
    { unfold exec_state, os2, appended, os1, with_files. simpl.
      by rewrite !insert_insert_eq. }
    eapply try_finally_ok.
    + cbn [content]. fold (script_read script).
      rewrite (try_block_eq _ _ _ _ _ _ H2), Hexec. apply Res_eta.
    + assert (Hfin : final (child_verdict h path script stdout (exec_state path script os))
                     = tick (exec_state path script os)).
      { unfold child_verdict. destruct (child _ _ _); [done|]. by case_bool_decide. }
      rewrite Hfin. erewrite unlink_present by apply lookup_insert_eq.
      f_equal. unfold exec_state, tick, with_files. simpl.
      by rewrite delete_insert_id.
Qed.

(** *** What a run of [run_shell_command] shows *)

Lemma spawned_scripts_app (l1 l2 : list Event) :
  spawned_scripts (l1 ++ l2) = spawned_scripts l1 ++ spawned_scripts l2.
Proof. apply omap_app. Qed.

Lemma spawned_scripts_writes path commands source_sh shell :
  spawned_scripts (script_writes path commands source_sh shell) = [].
Proof.
  unfold script_writes. rewrite !spawned_scripts_app.
  assert (Hc : spawned_scripts
                 (flat_map (fun c => [EvWrite path c; EvWrite path " "]) commands) = []).
  { induction commands as [|c l IH]; [done|]. simpl. apply IH. }
  rewrite Hc. destruct (Str.truthy shell), source_sh as [src|];
    try destruct (Str.truthy src); reflexivity.
Qed.

Lemma child_verdict_spawned h path script stdout os :
  spawned_scripts (emitted (child_verdict h path script stdout os)) = [script].
Proof.
  unfold child_verdict. destruct (child _ _ _); [done|]. by case_bool_decide.
Qed.

(** Writes are no other events. *)
Lemma writes_quiet path (l : list string) :
  spawned_scripts (map (EvWrite path) l) = []
  /\ unlinked (map (EvWrite path) l) = []
  /\ printed (map (EvWrite path) l) = []
  /\ logged (map (EvWrite path) l) = []
  /\ created (map (EvWrite path) l) = [].
Proof. induction l as [|x l IH]; [done|]. exact IH. Qed.

(** The two kinds of runs, by whether the script can be written. *)
Lemma run_shell_command_ok h commands source_sh stdout shell os :
  let path := fresh_tmp ".sh" (files os) in
  let script := script_text commands source_sh shell in
  let r := child_verdict h path script stdout (exec_state path script os) in
  writable h script = true ->
  run_shell_command h commands source_sh stdout shell os
  = mkRes (outcome r) (tick os)
      (EvMkstemp path :: script_writes path commands source_sh shell
       ++ [EvLog (executing_line (script_read script))] ++ emitted r ++ [EvUnlink path]).
Proof.
  intros path script r Hw. rewrite run_shell_command_eq.
  unfold script in Hw. rewrite <- script_pieces_text in Hw. apply first_rejected_None in Hw.
  by rewrite Hw.
Qed.

Lemma run_shell_command_rejected h commands source_sh stdout shell os :
  let path := fresh_tmp ".sh" (files os) in
  writable h (script_text commands source_sh shell) = false ->
  exists pre bad,
    writable h bad = false
    /\ run_shell_command h commands source_sh stdout shell os
       = mkRes (inl (UnicodeEncodeError bad)) (left_behind path (concat_text pre) os)
               (EvMkstemp path :: map (EvWrite path) pre).
Proof.
  intros path Hw. rewrite run_shell_command_eq. fold path.
  destruct (first_rejected h (script_pieces commands source_sh shell))
    as [[pre bad]|] eqn:Hf.
  - exists pre, bad. split; [|done]. by apply first_rejected_Some in Hf as [? _].
  - apply first_rejected_None in Hf. rewrite script_pieces_text in Hf. congruence.
Qed.

(** A run that returns has written its script and started it. *)
Lemma run_shell_command_returned h commands source_sh stdout shell os x :
  outcome (run_shell_command h commands source_sh stdout shell os) = inr x ->
  writable h (script_text commands source_sh shell) = true
  /\ final (run_shell_command h commands source_sh stdout shell os) = tick os.
Proof.
  destruct (writable h (script_text commands source_sh shell)) eqn:Hw.
  - rewrite run_shell_command_ok by done. done.
  - destruct (run_shell_command_rejected h commands source_sh stdout shell os Hw)
      as (pre & bad & _ & ->). done.
Qed.

Lemma run_shell_command_final h commands source_sh stdout shell os :
  writable h (script_text commands source_sh shell) = true ->
  final (run_shell_command h commands source_sh stdout shell os) = tick os.
Proof. intros Hw. by rewrite run_shell_command_ok. Qed.

Lemma run_shell_command_spawned h commands source_sh stdout shell os :
  let script := script_text commands source_sh shell in
  spawned_scripts (emitted (run_shell_command h commands source_sh stdout shell os))
  = if writable h script then [script] else [].
Proof.
  intros script. destruct (writable h script) eqn:Hw.
  - rewrite run_shell_command_ok by done. cbn [emitted].
    change (EvMkstemp ?p :: ?l) with ([EvMkstemp p] ++ l).
    rewrite !spawned_scripts_app, spawned_scripts_writes, child_verdict_spawned.
    reflexivity.
  - destruct (run_shell_command_rejected h commands source_sh stdout shell os Hw)
      as (pre & bad & _ & ->). cbn [emitted].
    change (EvMkstemp ?p :: ?l) with ([EvMkstemp p] ++ l).
    rewrite spawned_scripts_app. by destruct (writes_quiet (fresh_tmp ".sh" (files os)) pre) as [-> _].
Qed.

(** The tool neither reads nor changes the environment of the process. *)
Lemma run_shell_command_environ h commands source_sh stdout shell os :
  environ (final (run_shell_command h commands source_sh stdout shell os)) = environ os.
Proof.
  rewrite run_shell_command_eq.
  by destruct (first_rejected h (script_pieces commands source_sh shell)) as [[pre bad]|].
Qed.

(** *** Manifest installation *)

Section PipInstall.
Context (h : Host) (url : string) (extra : option string).

Lemma pip_install_nil os :
  pip_install h url extra (FileList []) os = mkRes (inr tt) os [].
Proof. reflexivity. Qed.

Lemma pip_install_missing req rest os :
  exists_in (files os) req = false ->
  pip_install h url extra (FileList (req :: rest)) os
  = mkRes (inl (Exception_ (missing_message req))) os [].
Proof.
  intros H. unfold pip_install. cbn [for_each].
  apply bind_inl. mstep ltac:(reflexivity). by rewrite H.
Qed.

Lemma pip_install_failed req rest os e :
  exists_in (files os) req = true ->
  outcome (install_one h url extra req os) = inl e ->
  pip_install h url extra (FileList (req :: rest)) os
  = mkRes (inl e) (final (install_one h url extra req os))
          (EvLog (pip_line req) :: emitted (install_one h url extra req os)).
Proof.
  intros H He. unfold pip_install. cbn [for_each].
  apply bind_inl. mstep ltac:(reflexivity). rewrite H. cbn [negb].
  mstep ltac:(reflexivity).
  apply bind_inl. fold (install_one h url extra req os).
  by rewrite (Res_eta (install_one _ _ _ _ _)), He.
Qed.

Lemma install_one_returned req os x :
  outcome (install_one h url extra req os) = inr x ->
  writable h (pip_script h url extra req) = true
  /\ final (install_one h url extra req os) = tick os.
Proof. apply run_shell_command_returned. Qed.

Lemma pip_install_passed req rest os x :
  exists_in (files os) req = true ->
  outcome (install_one h url extra req os) = inr x ->
  pip_install h url extra (FileList (req :: rest)) os
  = let r := pip_install h url extra (FileList rest) (tick os) in
    mkRes (outcome r) (final r)
          (EvLog (pip_line req) :: emitted (install_one h url extra req os)
           ++ emitted r).
Proof.
  intros H Hx. destruct (install_one_returned _ _ _ Hx) as [_ Hf].
  unfold pip_install. cbn [for_each].
  eapply bind_ok_ev; [| apply Res_eta |].
  - mstep ltac:(reflexivity). rewrite H. cbn [negb].
    mstep ltac:(reflexivity).
    mstep ltac:(fold (install_one h url extra req os);
                rewrite (Res_eta (install_one _ _ _ _ _)), Hx, Hf; reflexivity).
    reflexivity.
  - simpl. by rewrite app_nil_r.
Qed.

Lemma install_one_spawned req os :
  spawned_scripts (emitted (install_one h url extra req os))
  = if writable h (pip_script h url extra req) then [pip_script h url extra req] else [].
Proof. apply run_shell_command_spawned. Qed.

(** The three ways the loop can treat its next manifest. *)
Lemma pip_install_cons req rest os :
  let r := pip_install h url extra (FileList (req :: rest)) os in
  (exists_in (files os) req = false
   /\ r = mkRes (inl (Exception_ (missing_message req))) os [])
  \/ (exists_in (files os) req = true
      /\ exists e, outcome (install_one h url extra req os) = inl e
      /\ outcome r = inl e /\ final r = final (install_one h url extra req os)
      /\ spawned_scripts (emitted r)
         = spawned_scripts (emitted (install_one h url extra req os)))
  \/ (exists_in (files os) req = true
      /\ exists x, outcome (install_one h url extra req os) = inr x
      /\ let r' := pip_install h url extra (FileList rest) (tick os) in
         outcome r = outcome r' /\ final r = final r'
         /\ spawned_scripts (emitted r)
            = pip_script h url extra req :: spawned_scripts (emitted r')).
Proof.
  intros r. subst r.
  destruct (exists_in (files os) req) eqn:Hex.
  - right. destruct (outcome (install_one h url extra req os)) as [e|x] eqn:Ho.
    + left. split; [done|]. exists e. split; [done|].
      rewrite (pip_install_failed _ _ _ e) by done. cbn [outcome final emitted].
      repeat split.
    + right. split; [done|]. exists x. split; [done|].
      destruct (install_one_returned _ _ _ Ho) as [Hw _].
      rewrite (pip_install_passed _ _ _ x) by done. cbn [outcome final emitted].
      repeat split. change (EvLog ?m :: ?l) with ([EvLog m] ++ l).
      by rewrite !spawned_scripts_app, install_one_spawned, Hw.
  - left. split; [done|]. by apply pip_install_missing.
Qed.

(** A run that returns leaves the files as they were. *)
Lemma pip_install_files reqs : forall os,
  outcome (pip_install h url extra (FileList reqs) os) = inr tt ->
  files (final (pip_install h url extra (FileList reqs) os)) = files os.
Proof.
  induction reqs as [|req rest IH]; intros os; [done|].
  destruct (pip_install_cons req rest os)
    as [[_ ->]|[(_ & e & _ & -> & _)|(_ & x & _ & -> & -> & _)]];
    [done|done|]. intros Ho. by rewrite IH.
Qed.


(** The installers started are those of the first [k] manifests, in the
    order of the list. *)
Lemma pip_install_prefix reqs : forall os,
  exists k, k <= length reqs
    /\ spawned_scripts (emitted (pip_install h url extra (FileList reqs) os))
       = map (pip_script h url extra) (take k reqs).
Proof.
  induction reqs as [|req rest IH]; intros os.
  - exists 0. by split.
  - destruct (pip_install_cons req rest os)
      as [[_ ->]|[(_ & e & _ & _ & _ & ->)|(_ & x & _ & _ & _ & ->)]].
    + exists 0. split; [lia | done].
    + rewrite install_one_spawned. destruct (writable h _).
      * exists 1. split; [simpl; lia | by destruct rest].
      * exists 0. split; [lia | done].
    + destruct (IH (tick os)) as (k & Hk & ->).
      exists (S k). split; [simpl; lia | done].
Qed.

(** If the manifests of [pre] are installed and the installer of the
    next one raises, that exception ends the run, after the installers
    of [pre] and what the installer of this one has started, and no
    other. *)
Lemma pip_install_stops pre req post e : forall os,
  exists_in (files os) req = true ->
  outcome (pip_install h url extra (FileList pre) os) = inr tt ->
  outcome (install_one h url extra req
             (final (pip_install h url extra (FileList pre) os))) = inl e ->
  let r := pip_install h url extra (FileList (pre ++ req :: post)) os in
  outcome r = inl e
  /\ spawned_scripts (emitted r)
     = map (pip_script h url extra) pre
       ++ if writable h (pip_script h url extra req)
          then [pip_script h url extra req] else [].
Proof.
  induction pre as [|p pre IH]; intros os Hreq Hpre He; cbv zeta.
  - rewrite pip_install_nil in He. cbn [final app] in *.
    destruct (pip_install_cons req post os)
      as [[Hm _]|[(_ & e' & He' & -> & _ & ->)|(_ & x & Hx & _)]];
      [congruence | | congruence].
    split; [congruence | by rewrite install_one_spawned].
  - simpl app.
    destruct (pip_install_cons p pre os)
      as [[_ Hr]|[(_ & e' & _ & Hr & _)|(Hp & x & Hx & Ho & Hf & _)]];
      [rewrite Hr in Hpre; done | congruence |].
    rewrite Ho in Hpre. rewrite Hf in He.
    destruct (IH (tick os) Hreq Hpre He) as [IHo IHs].
    destruct (pip_install_cons p (pre ++ req :: post) os)
      as [[Hm _]|[(_ & e' & He' & _)|(_ & x' & _ & -> & _ & ->)]];
      [congruence | congruence |].
    split; [done | simpl; by f_equal].
Qed.

End PipInstall.

(** ** The command execution helper *)

Lemma unlinked_app (l1 l2 : list Event) :
  unlinked (l1 ++ l2) = unlinked l1 ++ unlinked l2.
Proof. apply omap_app. Qed.

Lemma printed_app (l1 l2 : list Event) :
  printed (l1 ++ l2) = printed l1 ++ printed l2.
Proof. apply omap_app. Qed.

Lemma unlinked_writes path commands source_sh shell :
  unlinked (script_writes path commands source_sh shell) = [].
Proof.
  unfold script_writes. rewrite !unlinked_app.
  assert (Hc : unlinked
                 (flat_map (fun c => [EvWrite path c; EvWrite path " "]) commands) = []).
  { induction commands as [|c l IH]; [done|]. simpl. apply IH. }
  rewrite Hc. destruct (Str.truthy shell), source_sh as [src|];
    try destruct (Str.truthy src); reflexivity.
Qed.

Lemma printed_writes path commands source_sh shell :
  printed (script_writes path commands source_sh shell) = [].
Proof.
  unfold script_writes. rewrite !printed_app.
  assert (Hc : printed
                 (flat_map (fun c => [EvWrite path c; EvWrite path " "]) commands) = []).
  { induction commands as [|c l IH]; [done|]. simpl. apply IH. }
  rewrite Hc. destruct (Str.truthy shell), source_sh as [src|];
    try destruct (Str.truthy src); reflexivity.
Qed.


(** *** The lines of an output *)

Lemma ends_with_char_app c (a b : string) :
  Str.ends_with_char c (a +:+ b)
  = if Str.truthy b then Str.ends_with_char c b else Str.ends_with_char c a.
Proof.
  induction a as [|x a IH]; [by destruct b|].
  rewrite append_cons. destruct b as [|y b]; [by rewrite append_nil_r|].
  cbn [Str.truthy] in *. cbn [Str.ends_with_char].
  destruct a as [|x' a]; [done|]. by rewrite append_cons in *.
Qed.

Lemma terminated_line (p t : string) :
  terminated (p +:+ nl +:+ t) = p +:+ nl +:+ terminated t.
Proof.
  unfold terminated.
  assert (Ht : Str.truthy (p +:+ nl +:+ t) = true) by (by destruct p).
  rewrite Ht, ends_with_char_app, ends_with_char_app. cbn [andb].
  destruct t as [|x t]; cbn [Str.truthy andb].
  - by rewrite !append_nil_r.
  - destruct (Str.ends_with_char _ (String x t)); cbn [negb]; [done|].
    by rewrite !append_assoc.
Qed.

Lemma string_of_list_snoc (l : list ascii) c (t : string) :
  string_of_list_ascii (l ++ [c]) +:+ t = string_of_list_ascii l +:+ String c t.
Proof. induction l as [|x l IH]; [done|]. simpl. by rewrite !append_cons, IH. Qed.

(** Put together again, the lines are the output as text mode would read
    it, its last line closed. *)
Lemma splitlines_go_unlines n : forall s cur,
  String.length s <= n ->
  Forall (fun c => c ≠ "010"%char) cur ->
  unlines (Str.splitlines_go cur s)
  = terminated (string_of_list_ascii (rev cur) +:+ Str.universal_newlines s).
Proof.
  induction n as [|n IH]; intros s cur Hlen Hcur.
  - destruct s; [|simpl in Hlen; lia]. cbn [Str.splitlines_go Str.universal_newlines].
    rewrite append_nil_r. destruct Hcur as [|c cur Hc _]; [done|].
    cbn [unlines foldr rev]. unfold terminated.
    assert (Ha : string_of_list_ascii (rev cur ++ [c])
                 = string_of_list_ascii (rev cur) +:+ String c "").
    { rewrite <- (string_of_list_snoc _ _ ""). by rewrite append_nil_r. }
    rewrite Ha, ends_with_char_app. cbn [Str.truthy Str.ends_with_char].
    rewrite bool_decide_false by done.
    assert (Ht : Str.truthy (string_of_list_ascii (rev cur) +:+ String c "") = true)
      by (by destruct (string_of_list_ascii (rev cur))).
    rewrite Ht. cbn [andb negb]. by rewrite append_nil_r.
  - destruct s as [|c s].
    { apply (IH "" cur); [simpl; lia | done]. }
    cbn [Str.splitlines_go Str.universal_newlines].
    case_bool_decide as Hnl.
    + subst c. rewrite bool_decide_false by done.
      cbn [unlines foldr]. fold (unlines (Str.splitlines_go [] s)).
      rewrite (IH s []); [|simpl in Hlen; lia | done].
      cbn [rev string_of_list_ascii]. rewrite append_nil_l.
      change (String "010" ?t) with (nl +:+ t). by rewrite terminated_line.
    + case_bool_decide as Hcr.
      * cbn [unlines foldr].
        change (String "010" ?t) with (nl +:+ t). rewrite terminated_line.
        do 2 f_equal.
        assert (Hgo : forall t, String.length t <= n ->
                  unlines (Str.splitlines_go [] t)
                  = terminated (Str.universal_newlines t)).
        { intros t Ht. rewrite (IH t []) by done. reflexivity. }
        simpl in Hlen.
        destruct s as [|d s]; [apply Hgo; simpl; lia|].
        simpl in Hlen. destruct (decide (d = "010"%char)) as [->|Hd].
        -- apply Hgo. lia.
        -- destruct d as [[] [] [] [] [] [] [] []]; try done;
             apply Hgo; simpl; lia.
      * rewrite (IH s (c :: cur)); [|simpl in Hlen; lia | by constructor].
        cbn [rev]. by rewrite string_of_list_snoc.
Qed.

Lemma splitlines_unlines (out : string) :
  unlines (Str.splitlines out) = terminated (Str.universal_newlines out).
Proof. apply (splitlines_go_unlines (String.length out)); [lia | done]. Qed.

Lemma has_char_of_list c (l : list ascii) :
  has_char c (string_of_list_ascii l) = bool_decide (c ∈ l).
Proof.
  induction l as [|d l IH]; [done|]. simpl. rewrite IH.
  destruct (bool_decide_reflect (d = c)) as [->|Hd]; simpl.
  - symmetry. apply bool_decide_eq_true. by left.
  - apply bool_decide_ext. split; [by right|].
    intros [?|?]%elem_of_cons; congruence.
Qed.

Lemma one_line_rev (cur : list ascii) :
  "010"%char ∉ cur -> "013"%char ∉ cur ->
  one_line (string_of_list_ascii (rev cur)).
Proof.
  intros Hn Hr.
  split; rewrite has_char_of_list; apply bool_decide_eq_false;
    rewrite list_elem_of_In, <- in_rev, <- list_elem_of_In; done.
Qed.

Lemma splitlines_go_one_line n : forall s cur,
  String.length s <= n ->
  "010"%char ∉ cur -> "013"%char ∉ cur ->
  Forall one_line (Str.splitlines_go cur s).
Proof.
  induction n as [|n IH]; intros s cur Hlen Hn Hr.
  - destruct s; [|simpl in Hlen; lia]. simpl.
    destruct cur; constructor; [by apply one_line_rev | constructor].
  - destruct s as [|c s]; simpl in *.
    { destruct cur; constructor; [by apply one_line_rev | constructor]. }
    assert (Hcur : one_line (string_of_list_ascii (rev cur)))
      by by apply one_line_rev.
    assert (Hnil : forall c' : ascii, c' ∉ ([] : list ascii))
      by (intros c' H; inversion H).
    case_bool_decide as Hc10.
    + constructor; [done|]. apply IH; [lia | done..].
    + case_bool_decide as Hc13.
      * constructor; [done|].
        destruct s as [|d s]; [apply IH; [simpl; lia | done..]|].
        assert (Hs : Forall one_line (Str.splitlines_go [] s))
          by (apply IH; [simpl in *; lia | done..]).
        assert (Hds : Forall one_line (Str.splitlines_go [] (String d s)))
          by (apply IH; [simpl in *; lia | done..]).
        destruct d as [[] [] [] [] [] [] [] []]; done.
      * apply IH; [lia | |]; rewrite not_elem_of_cons; done.
Qed.

Lemma universal_newlines_plain (s : string) :
  has_char "013"%char s = false -> Str.universal_newlines s = s.
Proof.
  induction s as [|c s IH]; [done|]. cbn [has_char Str.universal_newlines].
  intros [Hc Hs]%orb_false_iff. rewrite Hc. by rewrite IH.
Qed.

Lemma printed_run path commands source_sh shell line (evs : list Event) :
  printed (EvMkstemp path :: script_writes path commands source_sh shell
           ++ [EvLog line] ++ evs ++ [EvUnlink path])
  = printed evs.
Proof.
  change (EvMkstemp ?p :: ?l) with ([EvMkstemp p] ++ l).
  rewrite !printed_app, printed_writes. simpl. by rewrite app_nil_r.
Qed.

(** C2, as claimed, fails: the exception of a command with a carriage
    return in a token does not carry the script as it was composed; the
    tool reads the script back in text mode, and what it has read, with a
    line feed in the place of the carriage return, is what the exception
    carries. *)
Lemma exception_carries_script_as_read :
  let h := demo_host (fun _ => Exited 1 "") in
  let commands := ["printf"; String "013" ""] in
  let r := run_shell_command h commands None Inherit "/bin/bash" demo_os in
  script_text commands None "/bin/bash"
  = "#!/bin/bash" +:+ nl +:+ "printf " +:+ String "013" " " +:+ nl
  /\ outcome r
     = inl (CalledProcessError 1 ("#!/bin/bash" +:+ nl +:+ "printf " +:+ nl +:+ " " +:+ nl))
  /\ ~ carries_composed_script h commands None Inherit "/bin/bash" demo_os.
Proof.
  intros h commands r.
  assert (Ho : outcome r
               = inl (CalledProcessError 1 ("#!/bin/bash" +:+ nl +:+ "printf " +:+ nl
                                            +:+ " " +:+ nl)))
    by (vm_compute; reflexivity).
  split; [reflexivity|]. split; [exact Ho|].
  intros Hclaim. specialize (Hclaim 1%Z "" eq_refl). cbv zeta in Hclaim.
  fold r in Hclaim. rewrite Ho in Hclaim.
  assert (H1 : (1 ≠ 0)%Z) by done. specialize (Hclaim H1).
  vm_compute in Hclaim. discriminate.
Qed.

(** C2, amended: when the script can be written and its child exits with
    status zero, the call returns the captured output split into lines, or
    nothing when the output was not captured, and prints nothing; when the
    child exits with another status the call prints the captured output
    and then raises [CalledProcessError] with that status and the text of
    the script as it is read back from the temporary file, which is the
    composed text when that has no carriage return.  An exception is
    raised exactly when the status is not zero.  The lines returned are
    those of the output: none has a line break in it, and put together
    again, each with a line feed, they are the output as text mode reads
    it, its last line closed. *)
Theorem run_shell_command_result h commands source_sh stdout shell os rc out :
  let path := fresh_tmp ".sh" (files os) in
  let script := script_text commands source_sh shell in
  let output := match stdout with PIPE => Some out | Inherit => None end in
  let r := run_shell_command h commands source_sh stdout shell os in
  writable h script = true ->
  child h (exec_state path script os) [path] = Exited rc out ->
  (rc = 0%Z ->
     outcome r = inr (match stdout with
                      | PIPE => Some (Str.splitlines out)
                      | Inherit => None
                      end)
     /\ printed (emitted r) = [])
  /\ (rc ≠ 0%Z ->
        outcome r = inl (CalledProcessError rc (script_read script))
        /\ printed (emitted r) = [output]
        /\ exists before, emitted r = before ++ [EvPrint output; EvUnlink path])
  /\ ((exists e, outcome r = inl e) <-> rc ≠ 0%Z)
  /\ (has_char "013"%char script = false -> script_read script = script)
  /\ Forall one_line (Str.splitlines out)
  /\ unlines (Str.splitlines out) = terminated (Str.universal_newlines out).
Proof.
  intros path script output r Hw Hc. subst r.
  rewrite run_shell_command_ok by done. fold path script.
  unfold child_verdict. rewrite Hc. fold output. cbn [outcome emitted].
  assert (Hlines : (has_char "013"%char script = false -> script_read script = script)
                   /\ Forall one_line (Str.splitlines out)
                   /\ unlines (Str.splitlines out)
                      = terminated (Str.universal_newlines out)).
  { split; [apply universal_newlines_plain|]. split; [|apply splitlines_unlines].
    apply (splitlines_go_one_line (String.length out)); [lia | |];
      intros Hin; inversion Hin. }
  case_bool_decide as Hrc; cbn [outcome emitted]; rewrite printed_run.
  - split; [intros ?; contradiction|].
    split; [|split; [split; [done | eauto] | exact Hlines]].
    intros _. split; [done|]. split; [done|].
    eexists (EvMkstemp path :: script_writes path commands source_sh shell
             ++ [EvLog (executing_line (script_read script)); EvChmod path 493;
                 EvSpawn [path] script]).
    simpl. f_equal. rewrite <- !app_assoc. reflexivity.
  - split; [|split; [intros ?; contradiction|]].
    + intros _. split; [by destruct stdout | done].
    + split; [|exact Hlines].
      split; [intros [e He]; discriminate | intros ?; contradiction].
Qed.

Lemma run_shell_command_result_witness :
  let good := demo_host all_succeed in
  let bad := demo_host second_fails in
  let os1 := tick demo_os in
  let commands := ["pip"; "check"] in
  let script := script_text commands None "/bin/bash" in
  (writable good script = true
   /\ child good (exec_state (fresh_tmp ".sh" (files demo_os)) script demo_os)
            [fresh_tmp ".sh" (files demo_os)] = Exited 0 ("ok" +:+ nl +:+ "done" +:+ nl)
   /\ outcome (run_shell_command good commands None PIPE "/bin/bash" demo_os)
      = inr (Some ["ok"; "done"]))
  /\ (writable bad script = true
      /\ child bad (exec_state (fresh_tmp ".sh" (files os1)) script os1)
               [fresh_tmp ".sh" (files os1)] = Exited 1 "no such package"
      /\ outcome (run_shell_command bad commands None PIPE "/bin/bash" os1)
         = inl (CalledProcessError 1 script)).
Proof.
  intros good bad os1 commands script.
  split; (split; [reflexivity|]; split; [reflexivity|]).
  - apply (run_shell_command_result good commands None PIPE "/bin/bash"
             demo_os 0 ("ok" +:+ nl +:+ "done" +:+ nl)); reflexivity.
  - apply (run_shell_command_result bad commands None PIPE "/bin/bash"
             os1 1 "no such package"); [reflexivity | reflexivity | discriminate].
Defined.

Lemma created_app (l1 l2 : list Event) : created (l1 ++ l2) = created l1 ++ created l2.
Proof. apply omap_app. Qed.

Lemma created_writes path commands source_sh shell :
  created (script_writes path commands source_sh shell) = [].
Proof.
  unfold script_writes. rewrite !created_app.
  assert (Hc : created
                 (flat_map (fun c => [EvWrite path c; EvWrite path " "]) commands) = []).
  { induction commands as [|c l IH]; [done|]. simpl. apply IH. }
  rewrite Hc. destruct (Str.truthy shell), source_sh as [src|];
    try destruct (Str.truthy src); reflexivity.
Qed.




(** C3: the temporary file is not deleted on every exit path.  The
    clean-up is the [finally] of a [try] that starts after the script has
    been written, so a write that raises leaves the file behind.  In a
    process whose locale makes text files ASCII, the command [echo café]
    ends with [UnicodeEncodeError] at the second token: the temporary file
    has been created, nothing has been deleted, and the file is there
    afterwards with the shebang line and the first token. *)
Theorem temporary_script_left_behind :
  let h := ascii_host all_succeed in
  let token := "caf" +:+ String "233" "" in
  let r := run_shell_command h ["echo"; token] None Inherit "/bin/bash" demo_os in
  let path := fresh_tmp ".sh" (files demo_os) in
  outcome r = inl (UnicodeEncodeError token)
  /\ created (emitted r) = [path]
  /\ unlinked (emitted r) = []
  /\ spawned_scripts (emitted r) = []
  /\ files (final r) !! path = Some (mkFile ("#!/bin/bash" +:+ nl +:+ "echo ") 384).
Proof. vm_compute. repeat split. Qed.

(** ** Manifest installation: the claims *)

(** C9: with an empty list of manifests [pip_install] returns at once: no
    exception, no child process, no event at all, and the state is the one
    it started in. *)
Theorem pip_install_empty h url extra os :
  pip_install h url extra (FileList []) os = mkRes (inr tt) os [].
Proof. reflexivity. Qed.

Lemma script_text_token (pre : list string) (tok : string) (post : list string)
    source_sh shell :
  exists before after,
    script_text (pre ++ tok :: post) source_sh shell
    = before +:+ tok +:+ " " +:+ after.
Proof.
  unfold script_text.
  set (hd := if Str.truthy shell then _ else _).
  set (src := match source_sh with Some _ => _ | None => _ end).
  exists (hd +:+ src +:+ foldr (fun c rest => c +:+ " " +:+ rest) "" pre),
         (foldr (fun c rest => c +:+ " " +:+ rest) nl post).
  rewrite !append_assoc. do 2 f_equal.
  induction pre as [|c pre IH]; [done|].
  simpl. by rewrite IH, !append_assoc.
Qed.

Lemma pip_commands_eq h url extra :
  pip_commands h url extra
  = [PosixPath.join (VENV_DIR h) ["bin"; "pip"];
     "install";
     "--index-url=" +:+ url;
     "--extra-index-url=" +:+ default "" extra;
     "--timeout=120"].
Proof. unfold pip_commands. by destruct extra as [[|c u]|]. Qed.

(** C10: the installer command always carries the extra-index flag: its
    fourth token is ["--extra-index-url="] followed by the extra URL, and
    when that argument is left out, is [None] or is empty the token is the
    bare ["--extra-index-url="].  Every installer script that [pip_install]
    starts is composed from that command and so contains the token. *)
Theorem extra_index_flag_always h url extra reqs os :
  let flag := "--extra-index-url=" +:+ default "" extra in
  pip_commands h url extra !! 3 = Some flag
  /\ pip_commands h url None !! 3 = Some "--extra-index-url="
  /\ pip_commands h url (Some "") !! 3 = Some "--extra-index-url="
  /\ Forall (fun script =>
               (exists req, req ∈ reqs
                  /\ script = script_text (pip_commands h url extra
                                           ++ ["--requirement=" +:+ req])
                                          (Some (ENV_SH h)) "/bin/bash")
               /\ exists before after,
                    script = before +:+ flag +:+ " " +:+ after)
            (spawned_scripts
               (emitted (pip_install h url extra (FileList reqs) os))).
Proof.
  intros flag. rewrite !pip_commands_eq.
  split; [done|]. split; [done|]. split; [done|].
  destruct (pip_install_prefix h url extra reqs os) as (k & _ & ->).
  apply Forall_forall. intros script Hin.
  apply list_elem_of_fmap in Hin as (req & -> & Hreq).
  split.
  - exists req. split; [|by rewrite <- pip_commands_eq]. eapply subseteq_take, Hreq.
  - unfold pip_script. rewrite pip_commands_eq.
    apply (script_text_token [_; _; _] flag).
Qed.

(** C1, as claimed, fails: with [/proj/a.txt] present and [/proj/b.txt]
    missing, the installer of [/proj/a.txt] has run before the exception
    that names [/proj/b.txt] is raised. *)
Lemma pip_install_installs_before_missing :
  let h := demo_host all_succeed in
  let r := pip_install h "https://pypi.org/simple" None
                       (FileList ["/proj/a.txt"; "/proj/b.txt"]) demo_os in
  outcome r = inl (Exception_ "Requirement file: /proj/b.txt does not exists.")
  /\ spawned_scripts (emitted r)
     = [pip_script h "https://pypi.org/simple" None "/proj/a.txt"]
  /\ ~ validates_before_installing h "https://pypi.org/simple" None
         ["/proj/a.txt"; "/proj/b.txt"] demo_os.
Proof.
  intros h r.
  assert (Ho : outcome r
               = inl (Exception_ "Requirement file: /proj/b.txt does not exists."))
    by (vm_compute; reflexivity).
  assert (Hs : spawned_scripts (emitted r)
               = [pip_script h "https://pypi.org/simple" None "/proj/a.txt"])
    by (vm_compute; reflexivity).
  split; [done|]. split; [done|].
  intros Hclaim.
  assert (Ha : Forall (fun p => exists_in (files demo_os) p = true) ["/proj/a.txt"])
    by (repeat constructor).
  assert (Hb : exists_in (files demo_os) "/proj/b.txt" = false) by reflexivity.
  destruct (Hclaim ["/proj/a.txt"] "/proj/b.txt" [] eq_refl Ha Hb) as [Hnone _].
  fold r in Hnone. rewrite Hs in Hnone. discriminate.
Qed.

(** C1, amended: the manifests are checked one at a time, each just before
    its own installation.  If the manifests before the first missing one
    are installed without error, the run ends with the exception that
    names the missing one; the installers of the manifests before it have
    been started, in order, and no other. *)
Theorem pip_install_first_missing h url extra pre req post os :
  Forall (fun p => exists_in (files os) p = true) pre ->
  exists_in (files os) req = false ->
  outcome (pip_install h url extra (FileList pre) os) = inr tt ->
  let r := pip_install h url extra (FileList (pre ++ req :: post)) os in
  outcome r = inl (Exception_ (missing_message req))
  /\ spawned_scripts (emitted r) = map (pip_script h url extra) pre.
Proof.
  intros _. revert os.
  induction pre as [|p pre IH]; intros os Hreq Hpre; cbv zeta.
  - cbn [app]. by rewrite pip_install_missing.
  - simpl app.
    destruct (pip_install_cons h url extra p pre os)
      as [[_ Hr]|[(_ & e' & _ & Hr & _)|(Hp & x & Hx & Ho & Hf & _)]];
      [rewrite Hr in Hpre; done | congruence |].
    rewrite Ho in Hpre.
    destruct (IH (tick os) Hreq Hpre) as [IHo IHs].
    destruct (pip_install_cons h url extra p (pre ++ req :: post) os)
      as [[Hm _]|[(_ & e' & He' & _)|(_ & x' & _ & -> & _ & ->)]];
      [congruence | congruence |].
    split; [done | simpl; by f_equal].
Qed.

Lemma pip_install_first_missing_witness :
  let h := demo_host all_succeed in
  Forall (fun p => exists_in (files demo_os) p = true) ["/proj/a.txt"]
  /\ exists_in (files demo_os) "/proj/b.txt" = false
  /\ outcome (pip_install h "u" None (FileList ["/proj/a.txt"]) demo_os) = inr tt
  /\ outcome (pip_install h "u" None
                (FileList (["/proj/a.txt"] ++ "/proj/b.txt" :: ["/proj/c.txt"])) demo_os)
     = inl (Exception_ (missing_message "/proj/b.txt")).
Proof.
  intros h.
  assert (Ha : Forall (fun p => exists_in (files demo_os) p = true) ["/proj/a.txt"])
    by (repeat constructor).
  assert (Hb : exists_in (files demo_os) "/proj/b.txt" = false) by reflexivity.
  assert (Hpre : outcome (pip_install h "u" None (FileList ["/proj/a.txt"]) demo_os)
                 = inr tt)
    by (vm_compute; reflexivity).
  split; [done|]. split; [done|]. split; [done|].
  destruct (pip_install_first_missing h "u" None ["/proj/a.txt"] "/proj/b.txt"
              ["/proj/c.txt"] demo_os Ha Hb Hpre) as [Ho _].
  exact Ho.
Defined.

Section InOrder.
Context (h : Host) (url : string) (extra : option string).

Lemma pip_install_all reqs : forall os,
  outcome (pip_install h url extra (FileList reqs) os) = inr tt ->
  spawned_scripts (emitted (pip_install h url extra (FileList reqs) os))
  = map (pip_script h url extra) reqs.
Proof.
  induction reqs as [|req rest IH]; intros os Hok; [done|].
  destruct (pip_install_cons h url extra req rest os)
    as [[_ Hr]|[(_ & e & _ & Hr & _)|(_ & x & _ & Ho & _ & ->)]];
    [rewrite Hr in Hok; done | congruence |].
  rewrite Ho in Hok. simpl. f_equal. by apply IH.
Qed.

Lemma pip_install_raises reqs : forall os e,
  Forall (fun p => exists_in (files os) p = true) reqs ->
  outcome (pip_install h url extra (FileList reqs) os) = inl e ->
  exists pre req post,
    reqs = pre ++ req :: post
    /\ outcome (pip_install h url extra (FileList pre) os) = inr tt
    /\ outcome (install_one h url extra req
                  (final (pip_install h url extra (FileList pre) os))) = inl e.
Proof.
  induction reqs as [|req rest IH]; intros os e Hall He; [done|].
  apply Forall_cons in Hall as [Hreq Hrest].
  destruct (pip_install_cons h url extra req rest os)
    as [[Hm _]|[(_ & e' & He' & Hr & _)|(_ & x & Hx & Ho & _)]];
    [congruence | |].
  - exists [], req, rest. repeat split. rewrite pip_install_nil. cbn [final]. congruence.
  - rewrite Ho in He.
    destruct (IH (tick os) e Hrest He) as (pre & q & post & -> & Hpre & Hq).
    exists (req :: pre), q, post. split; [done|].
    destruct (pip_install_cons h url extra req pre os)
      as [[Hm _]|[(_ & e' & He' & _)|(_ & x' & _ & -> & -> & _)]];
      [congruence | congruence | done].
Qed.
End InOrder.

(** C7: when the list of manifests is not empty and every manifest exists,
    [pip_install] starts the installers in the order of the list, at least
    the first one if its script can be written; it starts all of them when
    it returns; and when the installer of a manifest raises, the manifests
    before it having been installed, that exception ends the run and no
    installer of a later manifest is started: the children of the run are
    the installers of the manifests before it and its own, which is
    missing only when the encoding has rejected its script.  An exception
    of the run is always that of one of its installers. *)
Theorem pip_install_in_order h url extra reqs os :
  reqs ≠ [] ->
  Forall (fun p => exists_in (files os) p = true) reqs ->
  let run := fun l => pip_install h url extra (FileList l) os in
  let started := spawned_scripts (emitted (run reqs)) in
  (exists k, k <= length reqs
     /\ started = map (pip_script h url extra) (take k reqs)
     /\ (forall req rest, reqs = req :: rest ->
           writable h (pip_script h url extra req) = true -> 1 <= k))
  /\ (outcome (run reqs) = inr tt -> started = map (pip_script h url extra) reqs)
  /\ (forall pre req post e,
        reqs = pre ++ req :: post ->
        outcome (run pre) = inr tt ->
        outcome (install_one h url extra req (final (run pre))) = inl e ->
        outcome (run reqs) = inl e
        /\ started = map (pip_script h url extra) pre
                     ++ if writable h (pip_script h url extra req)
                        then [pip_script h url extra req] else [])
  /\ (forall e,
        outcome (run reqs) = inl e ->
        exists pre req post,
          reqs = pre ++ req :: post
          /\ outcome (run pre) = inr tt
          /\ outcome (install_one h url extra req (final (run pre))) = inl e).
Proof.
  intros Hne Hall run started. subst run started. cbv beta.
  split; [|split; [|split]].
  - destruct reqs as [|req rest]; [done|].
    apply Forall_cons in Hall as [Hreq _].
    destruct (pip_install_cons h url extra req rest os)
      as [[Hm _]|[(_ & e & _ & _ & _ & ->)|(_ & x & _ & _ & _ & ->)]];
      [congruence | |].
    + rewrite install_one_spawned.
      destruct (writable h (pip_script h url extra req)) eqn:Hw.
      * exists 1. split; [simpl; lia|]. split; [by destruct rest | done].
      * exists 0. split; [lia|]. split; [done|]. intros ? ? [= <- <-]. congruence.
    + destruct (pip_install_prefix h url extra rest (tick os)) as (k & Hk & ->).
      exists (S k). split; [simpl; lia|]. split; [done | intros; lia].
  - apply pip_install_all.
  - intros pre req post e -> Hpre He.
    apply pip_install_stops; [|done..].
    rewrite Forall_app, Forall_cons in Hall. tauto.
  - intros e He. by apply pip_install_raises.
Qed.

Lemma pip_install_in_order_witness :
  let h := demo_host second_fails in
  let reqs := ["/proj/a.txt"; "/proj/a.txt"; "/proj/a.txt"] in
  reqs ≠ []
  /\ Forall (fun p => exists_in (files demo_os) p = true) reqs
  /\ outcome (pip_install h "u" None (FileList ["/proj/a.txt"]) demo_os) = inr tt
  /\ outcome (install_one h "u" None "/proj/a.txt"
                (final (pip_install h "u" None (FileList ["/proj/a.txt"]) demo_os)))
     = inl (CalledProcessError 1 (pip_script h "u" None "/proj/a.txt"))
  /\ outcome (pip_install h "u" None (FileList reqs) demo_os)
     = inl (CalledProcessError 1 (pip_script h "u" None "/proj/a.txt"))
  /\ spawned_scripts (emitted (pip_install h "u" None (FileList reqs) demo_os))
     = map (pip_script h "u" None) (["/proj/a.txt"] ++ ["/proj/a.txt"]).
Proof.
  intros h reqs.
  assert (Hne : reqs ≠ []) by discriminate.
  assert (Hall : Forall (fun p => exists_in (files demo_os) p = true) reqs)
    by (repeat constructor).
  assert (Hpre : outcome (pip_install h "u" None (FileList ["/proj/a.txt"]) demo_os)
                 = inr tt) by (vm_compute; reflexivity).
  assert (He : outcome (install_one h "u" None "/proj/a.txt"
                 (final (pip_install h "u" None (FileList ["/proj/a.txt"]) demo_os)))
               = inl (CalledProcessError 1 (pip_script h "u" None "/proj/a.txt")))
    by (vm_compute; reflexivity).
  split; [done|]. split; [done|]. split; [done|]. split; [done|].
  destruct (pip_install_in_order h "u" None reqs demo_os Hne Hall)
    as (_ & _ & Hstop & _).
  exact (Hstop ["/proj/a.txt"] "/proj/a.txt" ["/proj/a.txt"] _ eq_refl Hpre He).
Defined.

(** ** Helper-file generation *)

Lemma truthy_app_r (a b : string) : Str.truthy b = true -> Str.truthy (a +:+ b) = true.
Proof. by destruct a, b. Qed.

Lemma join2_truthy (a b : string) :
  Str.truthy b = true -> Str.truthy (PosixPath.join2 a b) = true.
Proof.
  intros Hb. unfold PosixPath.join2.
  destruct (Str.starts_with_char _ b); [done|].
  destruct (_ || _); [by apply truthy_app_r | by destruct a].
Qed.

Section Helpers.
Context (h : Host).

Lemma create_env_file_present os :
  exists_in (files os) (env_sh_path h) = true ->
  create_env_file h os = mkRes (inr tt) os [].
Proof.
  intros H. unfold create_env_file. fold (env_sh_path h).
  mstep ltac:(reflexivity). by rewrite H.
Qed.

Lemma create_python_wrapper_present os :
  exists_in (files os) (python_sh_path h) = true ->
  create_python_wrapper h os = mkRes (inr tt) os [].
Proof.
  intros H. unfold create_python_wrapper. fold (python_sh_path h).
  mstep ltac:(reflexivity). by rewrite H.
Qed.

Lemma env_sh_literal_writable : writable h (Str.strip env_sh_literal) = true.
Proof. vm_compute. reflexivity. Qed.

Lemma python_sh_literal_writable : writable h (Str.strip python_sh_literal) = true.
Proof. vm_compute. reflexivity. Qed.

Lemma exists_in_false (fs : gmap string File) p :
  Str.truthy p = true -> exists_in fs p = false <-> fs !! p = None.
Proof.
  intros Ht. unfold exists_in. rewrite Ht. cbn [andb].
  rewrite bool_decide_eq_false, eq_None_not_Some. done.
Qed.

Lemma exists_in_true (fs : gmap string File) p :
  exists_in fs p = true -> is_Some (fs !! p).
Proof.
  unfold exists_in. intros [_ H]%andb_true_iff. by apply bool_decide_eq_true in H.
Qed.

Lemma env_sh_path_truthy : Str.truthy (env_sh_path h) = true.
Proof. by apply join2_truthy. Qed.

Lemma python_sh_path_truthy : Str.truthy (python_sh_path h) = true.
Proof. by apply join2_truthy. Qed.

(** [open(path, 'w')] and the write of a text the encoding accepts, for a
    file that is not there. *)
Lemma open_write_absent path data os :
  Str.truthy path = true -> files os !! path = None ->
  writable h data = true ->
  (open_w h path ;;; fwrite h path data) os
  = match open_error h os path with
    | Some errno => mkRes (inl (OSError errno path)) os []
    | None =>
        mkRes (inr tt)
              (with_files (<[path := mkFile data (N.ldiff 438 (umask os))]> (files os)) os)
              [EvWrite path data]
    end.
Proof.
  intros Ht Hnone Hw. unfold bind at 1. unfold open_w. rewrite Ht, Hnone.
  destruct (open_error h os path) as [errno|]; [done|]. cbn [outcome final emitted].
  erewrite fwrite_appended by apply lookup_insert_eq. rewrite Hw.
  cbn [outcome final emitted app]. f_equal.
  unfold appended, with_files. cbn [files environ umask spawned].
  by rewrite insert_insert_eq.
Qed.

Lemma create_env_file_absent os :
  exists_in (files os) (env_sh_path h) = false ->
  create_env_file h os
  = match open_error h os (env_sh_path h) with
    | Some errno => mkRes (inl (OSError errno (env_sh_path h))) os []
    | None =>
        mkRes (inr tt)
          (with_files (<[env_sh_path h := mkFile (Str.strip env_sh_literal)
                                                 (N.ldiff 438 (umask os))]> (files os)) os)
          [EvWrite (env_sh_path h) (Str.strip env_sh_literal)]
    end.
Proof.
  intros H. unfold create_env_file. fold (env_sh_path h).
  rewrite <- (open_write_absent _ (Str.strip env_sh_literal) os
                env_sh_path_truthy
                (proj1 (exists_in_false _ _ env_sh_path_truthy) H)
                env_sh_literal_writable).
  unfold bind at 1. unfold path_exists. cbn [outcome final emitted]. rewrite H.
  cbn [app]. symmetry. apply Res_eta.
Qed.

Lemma create_python_wrapper_absent os :
  exists_in (files os) (python_sh_path h) = false ->
  create_python_wrapper h os
  = match open_error h os (python_sh_path h) with
    | Some errno => mkRes (inl (OSError errno (python_sh_path h))) os []
    | None =>
        mkRes (inr tt)
          (with_files (<[python_sh_path h := mkFile (Str.strip python_sh_literal) 493]>
                         (files os)) os)
          [EvWrite (python_sh_path h) (Str.strip python_sh_literal);
           EvChmod (python_sh_path h) 493]
    end.
Proof.
  intros H. unfold create_python_wrapper. fold (python_sh_path h).
  unfold bind at 1. unfold path_exists. cbn [outcome final emitted]. rewrite H.
  cbn [app].
  pose proof (open_write_absent _ (Str.strip python_sh_literal) os
                python_sh_path_truthy
                (proj1 (exists_in_false _ _ python_sh_path_truthy) H)
                python_sh_literal_writable) as Hw.
  rewrite <- bind_assoc, <- Res_eta. unfold bind at 1. rewrite Hw.
  destruct (open_error h os (python_sh_path h)) as [errno|]; [done|].
  cbn [outcome final emitted].
  erewrite chmod_present by apply lookup_insert_eq.
  cbn [outcome final emitted content files with_files app]. by rewrite insert_insert_eq.
Qed.

Lemma exists_in_insert (fs : gmap string File) p f :
  Str.truthy p = true -> exists_in (<[p := f]> fs) p = true.
Proof.
  intros Ht. unfold exists_in. rewrite Ht, lookup_insert_eq. cbn [andb].
  apply bool_decide_eq_true. eauto.
Qed.

Lemma exists_in_insert_mono (fs : gmap string File) p q f :
  exists_in fs q = true -> exists_in (<[p := f]> fs) q = true.
Proof.
  unfold exists_in. intros [Ht H]%andb_true_iff. rewrite Ht. cbn [andb].
  apply bool_decide_eq_true. apply bool_decide_eq_true in H.
  destruct (decide (p = q)) as [->|Hne];
    [rewrite lookup_insert_eq; eauto | by rewrite lookup_insert_ne].
Qed.

(** After either function has returned, its file is there. *)
Lemma create_env_file_creates os :
  outcome (create_env_file h os) = inr tt ->
  exists_in (files (final (create_env_file h os))) (env_sh_path h) = true.
Proof.
  destruct (exists_in (files os) (env_sh_path h)) eqn:Hex.
  - by rewrite create_env_file_present.
  - rewrite create_env_file_absent by done.
    destruct (open_error h os (env_sh_path h)); [done|]. intros _.
    apply exists_in_insert, env_sh_path_truthy.
Qed.

Lemma create_python_wrapper_creates os :
  outcome (create_python_wrapper h os) = inr tt ->
  exists_in (files (final (create_python_wrapper h os))) (python_sh_path h) = true.
Proof.
  destruct (exists_in (files os) (python_sh_path h)) eqn:Hex.
  - by rewrite create_python_wrapper_present.
  - rewrite create_python_wrapper_absent by done.
    destruct (open_error h os (python_sh_path h)); [done|]. intros _.
    apply exists_in_insert, python_sh_path_truthy.
Qed.

(** Neither function takes a file away. *)
Lemma create_env_file_keeps os q :
  exists_in (files os) q = true ->
  exists_in (files (final (create_env_file h os))) q = true.
Proof.
  intros Hq. destruct (exists_in (files os) (env_sh_path h)) eqn:Hex.
  - by rewrite create_env_file_present.
  - rewrite create_env_file_absent by done.
    destruct (open_error h os (env_sh_path h)); [done|]. by apply exists_in_insert_mono.
Qed.

Lemma create_python_wrapper_keeps os q :
  exists_in (files os) q = true ->
  exists_in (files (final (create_python_wrapper h os))) q = true.
Proof.
  intros Hq. destruct (exists_in (files os) (python_sh_path h)) eqn:Hex.
  - by rewrite create_python_wrapper_present.
  - rewrite create_python_wrapper_absent by done.
    destruct (open_error h os (python_sh_path h)); [done|]. by apply exists_in_insert_mono.
Qed.

(** The one way either function fails: its file is not there and cannot
    be opened; nothing has been done then. *)
Lemma create_env_file_raises os e :
  outcome (create_env_file h os) = inl e ->
  create_env_file h os = mkRes (inl e) os []
  /\ exists_in (files os) (env_sh_path h) = false
  /\ exists errno, open_error h os (env_sh_path h) = Some errno
                   /\ e = OSError errno (env_sh_path h).
Proof.
  destruct (exists_in (files os) (env_sh_path h)) eqn:Hex.
  - by rewrite create_env_file_present.
  - rewrite create_env_file_absent by done.
    destruct (open_error h os (env_sh_path h)) as [errno|]; [|done].
    intros [= <-]. eauto.
Qed.

Lemma create_python_wrapper_raises os e :
  outcome (create_python_wrapper h os) = inl e ->
  create_python_wrapper h os = mkRes (inl e) os []
  /\ exists_in (files os) (python_sh_path h) = false
  /\ exists errno, open_error h os (python_sh_path h) = Some errno
                   /\ e = OSError errno (python_sh_path h).
Proof.
  destruct (exists_in (files os) (python_sh_path h)) eqn:Hex.
  - by rewrite create_python_wrapper_present.
  - rewrite create_python_wrapper_absent by done.
    destruct (open_error h os (python_sh_path h)) as [errno|]; [|done].
    intros [= <-]. eauto.
Qed.

Lemma generate_helpers_eq os :
  generate_helpers h os
  = let r1 := create_env_file h os in
    match outcome r1 with
    | inl e => mkRes (inl e) (final r1) (emitted r1)
    | inr _ =>
        let r2 := create_python_wrapper h (final r1) in
        mkRes (outcome r2) (final r2) (emitted r1 ++ emitted r2)
    end.
Proof. reflexivity. Qed.

(** Generation that returns has run both functions to their end. *)
Lemma generate_helpers_returned os :
  outcome (generate_helpers h os) = inr tt ->
  let r1 := create_env_file h os in
  let r2 := create_python_wrapper h (final r1) in
  outcome r1 = inr tt /\ outcome r2 = inr tt
  /\ generate_helpers h os = mkRes (inr tt) (final r2) (emitted r1 ++ emitted r2).
Proof.
  rewrite generate_helpers_eq. cbv zeta.
  destruct (outcome (create_env_file h os)) as [e|[]] eqn:H1; [done|].
  cbn [outcome]. intros H2. rewrite H2. done.
Qed.
End Helpers.

(** C6: helper-file generation is idempotent.  When a file is already at
    the target of a helper, [create_env_file], resp.
    [create_python_wrapper], writes nothing and leaves the state as it is,
    whatever the file holds.  Run a second time, each function does
    nothing and ends as it did the first time: it returns if it had
    returned, and if it had raised (its file could not be opened, and then
    nothing was done) it raises again.  So does the generation of both
    files, and the contents of the two files after the second run are
    those after the first. *)
Theorem helper_generation_idempotent h os :
  (exists_in (files os) (env_sh_path h) = true ->
   create_env_file h os = mkRes (inr tt) os [])
  /\ (exists_in (files os) (python_sh_path h) = true ->
      create_python_wrapper h os = mkRes (inr tt) os [])
  /\ (let r1 := create_env_file h os in
      create_env_file h (final r1) = mkRes (outcome r1) (final r1) []
      /\ (forall e, outcome r1 = inl e -> r1 = mkRes (inl e) os []))
  /\ (let r1 := create_python_wrapper h os in
      create_python_wrapper h (final r1) = mkRes (outcome r1) (final r1) []
      /\ (forall e, outcome r1 = inl e -> r1 = mkRes (inl e) os []))
  /\ (let r1 := generate_helpers h os in
      let r2 := generate_helpers h (final r1) in
      r2 = mkRes (outcome r1) (final r1) []
      /\ files (final r2) !! env_sh_path h = files (final r1) !! env_sh_path h
      /\ files (final r2) !! python_sh_path h = files (final r1) !! python_sh_path h).
Proof.
  assert (Henv : forall o, let r1 := create_env_file h o in
            create_env_file h (final r1) = mkRes (outcome r1) (final r1) []).
  { intros o r1. subst r1. destruct (outcome (create_env_file h o)) as [e|[]] eqn:Ho.
    - destruct (create_env_file_raises h o e Ho) as [Hr _]. rewrite Hr. cbn [final].
      exact Hr.
    - by apply create_env_file_present, create_env_file_creates. }
  assert (Hpy : forall o, let r1 := create_python_wrapper h o in
            create_python_wrapper h (final r1) = mkRes (outcome r1) (final r1) []).
  { intros o r1. subst r1.
    destruct (outcome (create_python_wrapper h o)) as [e|[]] eqn:Ho.
    - destruct (create_python_wrapper_raises h o e Ho) as [Hr _]. rewrite Hr. cbn [final].
      exact Hr.
    - by apply create_python_wrapper_present, create_python_wrapper_creates. }
  split; [apply create_env_file_present|].
  split; [apply create_python_wrapper_present|].
  split; [|split].
  - split; [apply Henv|]. intros e He. by apply create_env_file_raises in He as [-> _].
  - split; [apply Hpy|]. intros e He. by apply create_python_wrapper_raises in He as [-> _].
  - intros r1 r2. subst r1 r2.
    assert (Hagain : generate_helpers h (final (generate_helpers h os))
                     = mkRes (outcome (generate_helpers h os))
                             (final (generate_helpers h os)) []).
    { rewrite (generate_helpers_eq h os). cbv zeta.
      destruct (outcome (create_env_file h os)) as [e|[]] eqn:H1; cbn [outcome final].
      - destruct (create_env_file_raises h os e H1) as [Hr _].
        rewrite generate_helpers_eq. cbv zeta. rewrite Hr. cbn [outcome final emitted].
        rewrite Hr. done.
      - set (os1 := final (create_env_file h os)) in *.
        assert (He : exists_in (files os1) (env_sh_path h) = true)
          by by apply create_env_file_creates.
        set (os2 := final (create_python_wrapper h os1)).
        assert (He2 : exists_in (files os2) (env_sh_path h) = true)
          by by apply create_python_wrapper_keeps.
        rewrite generate_helpers_eq. cbv zeta.
        rewrite (create_env_file_present h os2 He2). cbn [outcome final emitted].
        pose proof (Hpy os1) as H2. cbv zeta in H2. fold os2 in H2. by rewrite H2. }
    rewrite Hagain. done.
Qed.

Lemma helper_generation_idempotent_witness :
  let h := demo_host all_succeed in
  let os1 := final (generate_helpers h demo_os) in
  outcome (generate_helpers h demo_os) = inr tt
  /\ exists_in (files os1) (env_sh_path h) = true
  /\ exists_in (files os1) (python_sh_path h) = true
  /\ create_env_file h os1 = mkRes (inr tt) os1 []
  /\ create_python_wrapper h os1 = mkRes (inr tt) os1 []
  /\ generate_helpers h os1 = mkRes (inr tt) os1 [].
Proof.
  intros h os1.
  assert (Ho : outcome (generate_helpers h demo_os) = inr tt) by (vm_compute; reflexivity).
  assert (He : exists_in (files os1) (env_sh_path h) = true) by (vm_compute; reflexivity).
  assert (Hp : exists_in (files os1) (python_sh_path h) = true) by (vm_compute; reflexivity).
  destruct (helper_generation_idempotent h os1) as (H1 & H2 & _).
  destruct (helper_generation_idempotent h demo_os) as (_ & _ & _ & _ & Hagain & _).
  cbv zeta in Hagain. rewrite Ho in Hagain.
  split; [exact Ho|]. split; [exact He|]. split; [exact Hp|].
  split; [exact (H1 He)|]. split; [exact (H2 Hp) | exact Hagain].
Defined.

(** ** Virtual-environment setup *)

Lemma search_virtualenv_eq paths : forall dflt os,
  search_virtualenv paths dflt os
  = mkRes (inr (default dflt (List.find (exists_in (files os)) (omap id paths)))) os [].
Proof.
  induction paths as [|[p|] paths IH]; intros dflt os; [done| |apply IH].
  change (omap id (Some p :: paths)) with (p :: omap id paths).
  cbn [search_virtualenv List.find].
  destruct (Str.truthy p) eqn:Ht.
  - mstep ltac:(reflexivity).
    destruct (exists_in (files os) p); [done | apply IH].
  - rewrite IH. unfold exists_in at 2. by rewrite Ht.
Qed.

Lemma setup_venv_eq h virtualenv_path python_path os :
  let tool := resolve_virtualenv h (files os) virtualenv_path python_path in
  let r := run_shell_command h [tool; "--python=" +:+ python_path;
                                "--never-download"; VENV_DIR h]
                             None Inherit "/bin/bash" os in
  setup_venv h virtualenv_path python_path os
  = mkRes (match outcome r with inl e => inl e | inr _ => inr tt end)
          (final r)
          (EvLog (setup_line h) :: emitted r).
Proof.
  intros tool r. unfold setup_venv.
  mstep ltac:(apply search_virtualenv_eq).
  assert (Htool : default "virtualenv"
            (List.find (exists_in (files os))
               (omap id [virtualenv_path;
                         Some (PosixPath.join (PosixPath.dirname python_path) ["virtualenv"]);
                         Some (PosixPath.join (exec_prefix h) ["bin"; "virtualenv"])]))
          = tool) by by destruct virtualenv_path.
  rewrite Htool. fold r.
  mstep ltac:(reflexivity).
  destruct (outcome r) as [e|x] eqn:Ho.
  - apply bind_inl. by apply Res_eq.
  - eapply bind_ok_ev; [by apply Res_eq | reflexivity |].
    by rewrite app_nil_r.
Qed.

(** C4: the virtualenv tool that [setup_venv] uses is a function of its
    arguments, the prefix of the running interpreter and the files that
    exist: the search returns the first existing candidate among the
    explicit path (if given), the sibling of the target interpreter and the
    one under the interpreter prefix, in this order, and the bare name
    [virtualenv] when none exists.  The search raises nothing and changes
    nothing, and the one command [setup_venv] runs is that of this tool
    (it runs none when the encoding of the process cannot write the
    command to the temporary file). *)
Theorem virtualenv_resolution_order h virtualenv_path python_path os :
  let fs := files os in
  let explicit := match virtualenv_path with
                  | Some p => exists_in fs p
                  | None => false
                  end in
  let sibling := PosixPath.join (PosixPath.dirname python_path) ["virtualenv"] in
  let in_prefix := PosixPath.join (exec_prefix h) ["bin"; "virtualenv"] in
  let tool := resolve_virtualenv h fs virtualenv_path python_path in
  search_virtualenv [virtualenv_path; Some sibling; Some in_prefix] "virtualenv" os
  = mkRes (inr tool) os []
  /\ spawned_scripts (emitted (setup_venv h virtualenv_path python_path os))
     = (if writable h (venv_script h tool python_path)
        then [venv_script h tool python_path] else [])
  /\ (forall p, virtualenv_path = Some p -> exists_in fs p = true -> tool = p)
  /\ (explicit = false -> exists_in fs sibling = true -> tool = sibling)
  /\ (explicit = false -> exists_in fs sibling = false ->
      exists_in fs in_prefix = true -> tool = in_prefix)
  /\ (explicit = false -> exists_in fs sibling = false ->
      exists_in fs in_prefix = false -> tool = "virtualenv")
  /\ (forall os',
        Forall (fun p => exists_in (files os') p = exists_in fs p)
               (virtualenv_candidates h virtualenv_path python_path) ->
        resolve_virtualenv h (files os') virtualenv_path python_path = tool).
Proof.
  intros fs explicit sibling in_prefix tool.
  split; [|split; [|split; [|split; [|split; [|split]]]]].
  - rewrite search_virtualenv_eq. subst tool. by destruct virtualenv_path.
  - rewrite setup_venv_eq. cbn [emitted].
    change (EvLog ?m :: ?l) with ([EvLog m] ++ l).
    rewrite spawned_scripts_app. apply run_shell_command_spawned.
  - intros p -> Hp. subst tool.
    unfold resolve_virtualenv, virtualenv_candidates. cbn [app List.find].
    fold fs. by rewrite Hp.
  - intros He Hs. subst tool explicit.
    unfold resolve_virtualenv, virtualenv_candidates.
    destruct virtualenv_path as [p|]; cbn [app List.find]; fold fs sibling;
      [rewrite He|]; by rewrite Hs.
  - intros He Hs Hp. subst tool explicit.
    unfold resolve_virtualenv, virtualenv_candidates.
    destruct virtualenv_path as [p|]; cbn [app List.find]; fold fs sibling in_prefix;
      [rewrite He|]; by rewrite Hs, Hp.
  - intros He Hs Hp. subst tool explicit.
    unfold resolve_virtualenv, virtualenv_candidates.
    destruct virtualenv_path as [p|]; cbn [app List.find]; fold fs sibling in_prefix;
      [rewrite He|]; by rewrite Hs, Hp.
  - intros os' Hsame. subst tool. unfold resolve_virtualenv. f_equal.
    induction Hsame as [|p l Hp _ IH]; [done|].
    simpl. by rewrite Hp, IH.
Qed.

Lemma virtualenv_resolution_order_witness :
  let h := demo_host all_succeed in
  let fs := files demo_tools_os in
  (exists_in fs "/opt/virtualenv" = false
   /\ exists_in fs "/usr/local/bin/virtualenv" = true
   /\ resolve_virtualenv h fs (Some "/opt/virtualenv") "/usr/local/bin/python3"
      = "/usr/local/bin/virtualenv")
  /\ (exists_in fs "/usr/bin/virtualenv" = true
      /\ resolve_virtualenv h fs (Some "/usr/bin/virtualenv") "/usr/local/bin/python3"
         = "/usr/bin/virtualenv").
Proof.
  intros h fs.
  assert (H1 : exists_in fs "/opt/virtualenv" = false) by (vm_compute; reflexivity).
  assert (H2 : exists_in fs "/usr/local/bin/virtualenv" = true)
    by (vm_compute; reflexivity).
  assert (H3 : exists_in fs "/usr/bin/virtualenv" = true) by (vm_compute; reflexivity).
  split; (split; [done|]).
  - split; [done|].
    destruct (virtualenv_resolution_order h (Some "/opt/virtualenv")
                "/usr/local/bin/python3" demo_tools_os)
      as (_ & _ & _ & Hsib & _).
    exact (Hsib H1 H2).
  - destruct (virtualenv_resolution_order h (Some "/usr/bin/virtualenv")
                "/usr/local/bin/python3" demo_tools_os)
      as (_ & _ & Hexp & _).
    exact (Hexp _ eq_refl H3).
Defined.

(** ** The orchestrator *)

Lemma logged_app (l1 l2 : list Event) : logged (l1 ++ l2) = logged l1 ++ logged l2.
Proof. apply omap_app. Qed.

Lemma logged_writes path commands source_sh shell :
  logged (script_writes path commands source_sh shell) = [].
Proof.
  unfold script_writes. rewrite !logged_app.
  assert (Hc : logged
                 (flat_map (fun c => [EvWrite path c; EvWrite path " "]) commands) = []).
  { induction commands as [|c l IH]; [done|]. simpl. apply IH. }
  rewrite Hc. destruct (Str.truthy shell), source_sh as [src|];
    try destruct (Str.truthy src); reflexivity.
Qed.

Lemma run_shell_command_logged h commands source_sh stdout shell os :
  let script := script_text commands source_sh shell in
  logged (emitted (run_shell_command h commands source_sh stdout shell os))
  = if writable h script then [executing_line (script_read script)] else [].
Proof.
  intros script. destruct (writable h script) eqn:Hw.
  - rewrite run_shell_command_ok by done. cbn [emitted].
    change (EvMkstemp ?p :: ?l) with ([EvMkstemp p] ++ l).
    rewrite !logged_app, logged_writes.
    assert (Hv : forall p s so o, logged (emitted (child_verdict h p s so o)) = []).
    { intros. unfold child_verdict. destruct (child _ _ _); [done|]. by case_bool_decide. }
    by rewrite Hv.
  - destruct (run_shell_command_rejected h commands source_sh stdout shell os Hw)
      as (pre & bad & _ & ->). cbn [emitted].
    change (EvMkstemp ?p :: ?l) with ([EvMkstemp p] ++ l).
    rewrite logged_app. by destruct (writes_quiet (fresh_tmp ".sh" (files os)) pre)
      as (_ & _ & _ & -> & _).
Qed.

(** Only two kinds of lines are logged while manifests are installed. *)
Lemma pip_install_logged h url extra reqs : forall os,
  Forall (fun m => (exists req, m = pip_line req) \/ (exists s, m = executing_line s))
         (logged (emitted (pip_install h url extra (FileList reqs) os))).
Proof.
  induction reqs as [|req rest IH]; intros os; [by constructor|].
  assert (Hone : Forall (fun m => (exists req, m = pip_line req)
                                  \/ (exists s, m = executing_line s))
                   (logged (EvLog (pip_line req)
                            :: emitted (install_one h url extra req os)))).
  { change (EvLog ?m :: ?l) with ([EvLog m] ++ l).
    rewrite logged_app. unfold install_one. rewrite run_shell_command_logged.
    apply Forall_cons. split; [left; eauto|].
    destruct (writable h _); [|constructor].
    apply Forall_cons. split; [right; eauto | constructor]. }
  destruct (exists_in (files os) req) eqn:Hex.
  - destruct (outcome (install_one h url extra req os)) as [e|x] eqn:Ho.
    + by rewrite (pip_install_failed _ _ _ _ _ _ e).
    + rewrite (pip_install_passed _ _ _ _ _ _ x) by done. cbn [emitted].
      rewrite app_comm_cons, logged_app. apply Forall_app. split; [done | apply IH].
  - rewrite pip_install_missing by done. constructor.
Qed.

Lemma setup_line_not_pip h req : setup_line h ≠ pip_line req.
Proof. unfold setup_line, pip_line. rewrite !append_cons. discriminate. Qed.

Lemma setup_line_not_executing h s : setup_line h ≠ executing_line s.
Proof. unfold setup_line, executing_line. rewrite !append_cons. discriminate. Qed.

(** [setup_venv] always announces itself. *)
Lemma setup_venv_logged h virtualenv_path python_path os :
  exists rest,
    emitted (setup_venv h virtualenv_path python_path os) = EvLog (setup_line h) :: rest.
Proof. rewrite setup_venv_eq. cbn [emitted]. eauto. Qed.

Section Main.
Context (h : Host) (args : Args).

(** What either helper function does to the state: nothing but to its
    own file; its events are writes and mode changes. *)
Lemma create_env_file_effect os :
  let r := create_env_file h os in
  environ (final r) = environ os
  /\ (forall p, p ≠ env_sh_path h -> files (final r) !! p = files os !! p)
  /\ Forall (fun ev => (exists p d, ev = EvWrite p d) \/ exists p b, ev = EvChmod p b)
            (emitted r).
Proof.
  destruct (exists_in (files os) (env_sh_path h)) eqn:Hex.
  - rewrite create_env_file_present by done. done.
  - rewrite create_env_file_absent by done.
    destruct (open_error h os (env_sh_path h)); [done|]. cbn [final emitted].
    split; [done|]. split; [intros p Hp; by apply lookup_insert_ne|].
    repeat (apply Forall_cons; split; [first [left; by eauto | right; by eauto]|]).
    by apply Forall_nil.
Qed.

Lemma create_python_wrapper_effect os :
  let r := create_python_wrapper h os in
  environ (final r) = environ os
  /\ (forall p, p ≠ python_sh_path h -> files (final r) !! p = files os !! p)
  /\ Forall (fun ev => (exists p d, ev = EvWrite p d) \/ exists p b, ev = EvChmod p b)
            (emitted r).
Proof.
  destruct (exists_in (files os) (python_sh_path h)) eqn:Hex.
  - rewrite create_python_wrapper_present by done. done.
  - rewrite create_python_wrapper_absent by done.
    destruct (open_error h os (python_sh_path h)); [done|]. cbn [final emitted].
    split; [done|]. split; [intros p Hp; by apply lookup_insert_ne|].
    repeat (apply Forall_cons; split; [first [left; by eauto | right; by eauto]|]).
    by apply Forall_nil.
Qed.

Lemma generate_helpers_effect os :
  let r := generate_helpers h os in
  environ (final r) = environ os
  /\ (forall p, p ≠ env_sh_path h -> p ≠ python_sh_path h ->
                files (final r) !! p = files os !! p)
  /\ Forall (fun ev => (exists p d, ev = EvWrite p d) \/ exists p b, ev = EvChmod p b)
            (emitted r).
Proof.
  rewrite generate_helpers_eq. cbv zeta.
  destruct (create_env_file_effect os) as (He1 & Hf1 & Hq1).
  destruct (create_python_wrapper_effect (final (create_env_file h os)))
    as (He2 & Hf2 & Hq2).
  destruct (outcome (create_env_file h os)); cbn [final emitted].
  - split; [done|]. split; [|done]. intros p Hp _. by apply Hf1.
  - split; [by rewrite He2|]. split; [|by apply Forall_app].
    intros p Hp1 Hp2. by rewrite Hf2, Hf1.
Qed.

(** Events that are writes and mode changes are no other events. *)
Lemma quiet_events (evs : list Event) :
  Forall (fun ev => (exists p d, ev = EvWrite p d) \/ exists p b, ev = EvChmod p b) evs ->
  created evs = [] /\ unlinked evs = [] /\ spawned_scripts evs = []
  /\ printed evs = [] /\ logged evs = [].
Proof.
  induction 1 as [|ev evs [(p & d & ->)|(p & b & ->)] _ IH]; [done|..];
    simpl; apply IH.
Qed.

Lemma generate_helpers_environ os :
  environ (final (generate_helpers h os)) = environ os.
Proof. by destruct (generate_helpers_effect os) as [? _]. Qed.

(** The events of helper generation are writes and mode changes. *)
Lemma generate_helpers_quiet os :
  spawned_scripts (emitted (generate_helpers h os)) = []
  /\ logged (emitted (generate_helpers h os)) = [].
Proof.
  destruct (generate_helpers_effect os) as (_ & _ & Hq).
  by destruct (quiet_events _ Hq) as (_ & _ & ? & _ & ?).
Qed.

(** The first step of [main] does nothing, or raises. *)
Lemma name_to_level_Level (name : string) : name_to_level ("Level " +:+ name) = None.
Proof.
  unfold name_to_level. rewrite !append_cons.
  by rewrite !bool_decide_false by discriminate.
Qed.

Lemma configure_logging_eq os :
  configure_logging h args os
  = mkRes (if level_accepted h args then inr tt
           else inl (ValueError ("Level " +:+ logging_level args))) os [].
Proof.
  unfold configure_logging, basicConfig, getLevelName, level_accepted.
  destruct (root_handlers h); [done|]. cbn [orb].
  destruct (name_to_level (logging_level args)) as [n|] eqn:Hn.
  - by rewrite bool_decide_true by eauto.
  - rewrite name_to_level_Level. rewrite bool_decide_false; [done|]. by intros [? ?].
Qed.

(** [main] is its four steps in a row; the third is skipped inside a
    virtual environment. *)
Lemma main_eq os :
  main h args os
  = (configure_logging h args ;;;
     generate_helpers h ;;;
     (if bool_decide (environ os !! "VIRTUAL_ENV" = None) then
        setup_venv h (virtualenv_path args) (python args)
      else ret tt) ;;;
     install_requirements h args) os.
Proof.
  unfold main. fold (configure_logging h args).
  apply bind_same; [by rewrite configure_logging_eq|]. intros _.
  pose proof (generate_helpers_environ os) as Henv.
  rewrite generate_helpers_eq in Henv. cbv zeta in Henv.
  unfold generate_helpers, install_requirements, bind.
  destruct (outcome (create_env_file h os)); [reflexivity|].
  cbn [outcome final emitted] in *.
  destruct (outcome (create_python_wrapper h _)); [reflexivity|].
  cbn [outcome final emitted get ret app] in *. rewrite Henv.
  set (step2 := (if bool_decide (environ os !! "VIRTUAL_ENV" = None)
                 then setup_venv h (virtualenv_path args) (python args)
                 else ret tt) _).
  destruct (outcome step2); cbn [outcome final emitted]; by rewrite <- ?app_assoc.
Qed.

(** A run of [main], step by step: the first step that raises ends it. *)
Lemma main_result os :
  let g := generate_helpers h os in
  let r2 := setup_step h args (environ os) (final g) in
  let r3 := install_requirements h args (final r2) in
  main h args os
  = if level_accepted h args then
      match outcome g with
      | inl e => mkRes (inl e) (final g) (emitted g)
      | inr _ =>
          match outcome r2 with
          | inl e => mkRes (inl e) (final r2) (emitted g ++ emitted r2)
          | inr _ => mkRes (outcome r3) (final r3) (emitted g ++ emitted r2 ++ emitted r3)
          end
      end
    else mkRes (inl (ValueError ("Level " +:+ logging_level args))) os [].
Proof.
  intros g r2 r3. rewrite main_eq.
  unfold bind at 1. rewrite configure_logging_eq.
  destruct (level_accepted h args); [|done]. cbn [outcome final emitted app].
  rewrite <- Res_eta. unfold bind at 1. fold g.
  destruct (outcome g); [done|]. cbn [outcome final emitted].
  unfold bind. fold (setup_step h args (environ os)). fold r2.
  destruct (outcome r2); [done|]. reflexivity.
Qed.

(** The children of the venv step. *)
Lemma setup_step_spawned env os :
  let tool := resolve_virtualenv h (files os) (virtualenv_path args) (python args) in
  spawned_scripts (emitted (setup_step h args env os))
  = if bool_decide (env !! "VIRTUAL_ENV" = None)
    then if writable h (venv_script h tool (python args))
         then [venv_script h tool (python args)] else []
    else [].
Proof.
  intros tool. unfold setup_step. case_bool_decide; [|done].
  rewrite setup_venv_eq. cbn [emitted].
  change (EvLog ?m :: ?l) with ([EvLog m] ++ l).
  rewrite spawned_scripts_app. apply run_shell_command_spawned.
Qed.
End Main.

(** C5: when [VIRTUAL_ENV] is in the environment, a run of [main] is the
    configuration of the logger, the generation of the helper files and
    the installation of the manifests, and nothing else: [setup_venv] is
    not run, its line is not logged, and every child process started is
    the installer of one of the manifests, in the order of the list. *)
Theorem no_venv_creation_inside_venv h args os v :
  environ os !! "VIRTUAL_ENV" = Some v ->
  let r := main h args os in
  let installers :=
    map (pip_script h (pip_index_url args) (Some (pip_extra_index_url args)))
        (requirements args) in
  r = (configure_logging h args ;;; generate_helpers h ;;; install_requirements h args) os
  /\ (exists k, k <= length installers /\ spawned_scripts (emitted r) = take k installers)
  /\ setup_line h ∉ logged (emitted r).
Proof.
  intros Hv r installers. subst r.
  assert (Hr : main h args os
               = (configure_logging h args ;;; generate_helpers h ;;;
                  install_requirements h args) os).
  { rewrite main_eq. rewrite bool_decide_false by congruence.
    apply bind_ext; [done|]. intros _ os1. apply bind_ext; [done|]. intros _ os2.
    exact (ret_bind tt (fun _ => install_requirements h args) os2). }
  split; [done|]. rewrite Hr.
  assert (Hnone : (exists k, k <= length installers /\ [] = take k installers)
                  /\ setup_line h ∉ []).
  { split; [exists 0; split; [lia | done] | by intros ?%elem_of_nil]. }
  assert (He : emitted ((configure_logging h args ;;; generate_helpers h ;;;
                         install_requirements h args) os)
               = if level_accepted h args
                 then emitted ((generate_helpers h ;;; install_requirements h args) os)
                 else []).
  { unfold bind at 1. rewrite configure_logging_eq. by destruct (level_accepted h args). }
  rewrite He. destruct (level_accepted h args); [|done].
  assert (He2 : emitted ((generate_helpers h ;;; install_requirements h args) os)
                = emitted (generate_helpers h os)
                  ++ match outcome (generate_helpers h os) with
                     | inl _ => []
                     | inr _ => emitted (install_requirements h args
                                           (final (generate_helpers h os)))
                     end).
  { unfold bind. destruct (outcome (generate_helpers h os)); cbn [emitted];
      by rewrite ?app_nil_r. }
  rewrite He2. destruct (generate_helpers_quiet h os) as [Hs Hl].
  rewrite spawned_scripts_app, logged_app, Hs, Hl. cbn [app].
  destruct (outcome (generate_helpers h os)); [done|].
  remember (final (generate_helpers h os)) as os1 eqn:Hos1.
  split.
  - unfold install_requirements, installers.
    destruct (pip_install_prefix h (pip_index_url args)
                (Some (pip_extra_index_url args)) (requirements args) os1)
      as (k & Hk & ->).
    exists k. split; [by rewrite length_map | by rewrite fmap_take].
  - intros Hin.
    pose proof (pip_install_logged h (pip_index_url args)
                  (Some (pip_extra_index_url args)) (requirements args) os1) as Hall.
    rewrite Forall_forall in Hall.
    destruct (Hall _ Hin) as [[req Hreq]|[s Hs']].
    + by apply setup_line_not_pip in Hreq.
    + by apply setup_line_not_executing in Hs'.
Qed.

Lemma no_venv_creation_inside_venv_witness :
  let h := demo_host all_succeed in
  environ demo_tools_os !! "VIRTUAL_ENV" = Some "/home/dev/venv"
  /\ main h (default_args h) demo_tools_os
     = (configure_logging h (default_args h) ;;; generate_helpers h ;;;
        install_requirements h (default_args h)) demo_tools_os.
Proof.
  intros h.
  assert (Hv : environ demo_tools_os !! "VIRTUAL_ENV" = Some "/home/dev/venv")
    by (vm_compute; reflexivity).
  split; [done|].
  destruct (no_venv_creation_inside_venv h (default_args h) demo_tools_os _ Hv)
    as [Hr _].
  exact Hr.
Defined.

(** ** Paths as lists of components *)

Module PathFacts.
Import PosixPath.

Lemma split_nonempty s : Str.split sep s ≠ [].
Proof. destruct s as [|x s]; simpl; repeat case_match; done. Qed.

Lemma split_no_sep c : has_sep c = false -> Str.split sep c = [c].
Proof.
  induction c as [|x c IH]; [done|]. simpl.
  intros [Hx Hc]%orb_false_iff. rewrite Hx, (IH Hc). done.
Qed.

Lemma split_app_sep a b :
  Str.split sep (a +:+ String sep b) = Str.split sep a ++ Str.split sep b.
Proof.
  induction a as [|x a IH]; [reflexivity|].
  rewrite append_cons. simpl. rewrite IH.
  destruct (bool_decide (x = sep)); [done|].
  pose proof (split_nonempty a). by destruct (Str.split sep a).
Qed.

Lemma join_cons c cs :
  cs ≠ [] -> Str.join sep (c :: cs) = c +:+ String sep (Str.join sep cs).
Proof. by destruct cs. Qed.

Lemma split_join cs :
  cs ≠ [] -> Forall (fun c => has_sep c = false) cs ->
  Str.split sep (Str.join sep cs) = cs.
Proof.
  induction cs as [|c cs IH]; [done|]. intros _ [Hc Hcs]%Forall_cons.
  destruct cs as [|c' cs]; [by apply split_no_sep|].
  rewrite join_cons, split_app_sep, split_no_sep, IH by done. done.
Qed.

Lemma join_app l1 l2 :
  l1 ≠ [] -> l2 ≠ [] ->
  Str.join sep (l1 ++ l2) = Str.join sep l1 +:+ String sep (Str.join sep l2).
Proof.
  induction l1 as [|c l1 IH]; [done|]. intros _ H2.
  destruct l1 as [|c' l1].
  - simpl app. by rewrite join_cons.
  - rewrite <- app_comm_cons, !join_cons, IH, append_assoc by (done || by destruct l1).
    done.
Qed.

Lemma split_components s : Forall (fun c => has_sep c = false) (Str.split sep s).
Proof.
  induction s as [|x s IH]; [by repeat constructor|]. simpl.
  destruct (bool_decide (x = sep)) eqn:Hx; [by constructor|].
  destruct (Str.split sep s) as [|c l]; [repeat constructor; simpl; by rewrite Hx|].
  apply Forall_cons in IH as [Hc Hl]. constructor; [|done]. simpl. by rewrite Hx.
Qed.

(** *** Ends of strings *)

Lemma truthy_app a b : Str.truthy (a +:+ b) = Str.truthy a || Str.truthy b.
Proof. by destruct a, b. Qed.

Lemma ends_with_app c a b :
  Str.ends_with_char c (a +:+ b)
  = if Str.truthy b then Str.ends_with_char c b else Str.ends_with_char c a.
Proof.
  induction a as [|x a IH].
  - rewrite append_nil_l. by destruct b.
  - rewrite append_cons. cbn [Str.ends_with_char]. rewrite IH.
    destruct b as [|y b]; [by rewrite append_nil_r|].
    by destruct a.
Qed.

Lemma has_sep_ends c : has_sep c = false -> Str.ends_with_char sep c = false.
Proof.
  induction c as [|x c IH]; [done|]. simpl.
  intros [Hx Hc]%orb_false_iff. destruct c; [done | by apply IH].
Qed.

Lemma has_sep_starts c : has_sep c = false -> Str.starts_with_char sep c = false.
Proof. destruct c as [|x c]; [done|]. simpl. by intros [Hx _]%orb_false_iff. Qed.

Lemma has_sep_all c : has_sep c = false -> c ≠ "" -> all_sep c = false.
Proof.
  destruct c as [|x c]; [done|]. simpl. intros [Hx _]%orb_false_iff _.
  by rewrite Hx.
Qed.

Lemma all_sep_app a b : all_sep (a +:+ b) = all_sep a && all_sep b.
Proof.
  induction a as [|x a IH]; [done|]. rewrite append_cons. simpl.
  rewrite IH. by rewrite andb_assoc.
Qed.

Lemma all_sep_slashes n : all_sep (slashes n) = true.
Proof. induction n as [|n IH]; [done|]. simpl. by rewrite IH. Qed.

Lemma ends_with_slashes n : n ≠ 0 -> Str.ends_with_char sep (slashes n) = true.
Proof.
  induction n as [|n IH]; [done|]. intros _. simpl.
  destruct n as [|n]; [done|]. by apply IH.
Qed.

Lemma upto_last_sep_ends a :
  Str.ends_with_char sep a = true -> upto_last_sep a = a.
Proof.
  induction a as [|x a IH]; [done|]. simpl.
  destruct a as [|y a].
  - intros ->%bool_decide_eq_true. done.
  - intros H. rewrite (IH H). done.
Qed.

Lemma upto_last_sep_no_sep c : has_sep c = false -> upto_last_sep c = "".
Proof.
  induction c as [|x c IH]; [done|]. simpl.
  intros [Hx Hc]%orb_false_iff. by rewrite (IH Hc), Hx.
Qed.

Lemma upto_last_sep_app a c :
  has_sep c = false -> upto_last_sep (a +:+ c) = upto_last_sep a.
Proof.
  intros Hc. induction a as [|x a IH].
  - rewrite append_nil_l. by apply upto_last_sep_no_sep.
  - rewrite append_cons. simpl. by rewrite IH.
Qed.

Lemma rstrip_sep_snoc a : rstrip_sep (a +:+ String sep "") = rstrip_sep a.
Proof.
  induction a as [|x a IH]; [done|]. rewrite append_cons. simpl. by rewrite IH.
Qed.

Lemma rstrip_sep_id a : Str.ends_with_char sep a = false -> rstrip_sep a = a.
Proof.
  induction a as [|x a IH]; [done|]. simpl.
  destruct a as [|y a].
  - intros ->. done.
  - intros H. rewrite (IH H). done.
Qed.

(** *** Normalised paths *)

Lemma clean_no_sep cs :
  Forall clean cs -> Forall (fun c => has_sep c = false) cs.
Proof. intros H. eapply Forall_impl; [done|]. by intros c [? _]. Qed.

Lemma join_truthy cs : cs ≠ [] -> Forall clean cs -> Str.truthy (Str.join sep cs) = true.
Proof.
  destruct cs as [|c cs]; [done|]. intros _ [(_ & Hc & _) _]%Forall_cons.
  destruct cs; [by destruct c | rewrite join_cons by done; by destruct c].
Qed.

Lemma join_starts cs :
  Forall clean cs -> Str.starts_with_char sep (Str.join sep cs) = false.
Proof.
  destruct cs as [|c cs]; [done|]. intros [(Hc & Hne & _) _]%Forall_cons.
  pose proof (has_sep_starts c Hc) as Hs.
  destruct cs; [done|]. rewrite join_cons by done. by destruct c.
Qed.

Lemma join_ends cs :
  cs ≠ [] -> Forall clean cs -> Str.ends_with_char sep (Str.join sep cs) = false.
Proof.
  induction cs as [|c cs IH]; [done|]. intros _ [(Hc & _) Hcs]%Forall_cons.
  destruct cs as [|c' cs]; [by apply has_sep_ends|].
  rewrite join_cons, ends_with_app by done. cbn [Str.truthy Str.ends_with_char].
  pose proof (join_truthy (c' :: cs) ltac:(done) Hcs) as Ht.
  destruct (Str.join sep (c' :: cs)) eqn:Hj; [done|]. by apply IH.
Qed.

Lemma join_all_sep cs :
  cs ≠ [] -> Forall clean cs -> all_sep (Str.join sep cs) = false.
Proof.
  destruct cs as [|c cs]; [done|]. intros _ [(Hc & Hne & _) _]%Forall_cons.
  pose proof (has_sep_all c Hc Hne) as Ha.
  destruct cs; [done|]. rewrite join_cons, all_sep_app by done. by rewrite Ha.
Qed.

Lemma join_snoc cs c :
  cs ≠ [] -> Str.join sep (cs ++ [c]) = Str.join sep cs +:+ String sep c.
Proof. intros H. by rewrite join_app. Qed.

Lemma normal_form_ends n cs :
  n ≠ 0 -> Forall clean cs ->
  Str.ends_with_char sep (normal_form n cs) = bool_decide (cs = []).
Proof.
  intros Hn Hcs. unfold normal_form. rewrite ends_with_app.
  destruct cs as [|c cs]; [by apply ends_with_slashes|].
  rewrite join_truthy by done. by apply join_ends.
Qed.

Lemma normal_form_truthy n cs : n ≠ 0 -> Str.truthy (normal_form n cs) = true.
Proof. by destruct n. Qed.

Lemma normal_form_isabs n cs : n ≠ 0 -> isabs (normal_form n cs) = true.
Proof. by destruct n. Qed.

(** [os.path.dirname] drops the last component. *)
Lemma dirname_normal_form n cs :
  n ≠ 0 -> Forall clean cs ->
  dirname (normal_form n cs) = normal_form n (removelast cs).
Proof.
  intros Hn Hcs. unfold dirname.
  destruct cs as [|c cs _] using rev_ind.
  - unfold normal_form. cbn [Str.join removelast]. rewrite append_nil_r.
    rewrite upto_last_sep_ends by by apply ends_with_slashes.
    by rewrite all_sep_slashes, andb_false_r.
  - apply Forall_app in Hcs as [Hcs [(Hc & _) _]%Forall_cons].
    rewrite removelast_last.
    destruct cs as [|c' cs'].
    + unfold normal_form. cbn [app Str.join]. rewrite append_nil_r.
      rewrite upto_last_sep_app by done.
      rewrite upto_last_sep_ends by by apply ends_with_slashes.
      by rewrite all_sep_slashes, andb_false_r.
    + set (cs := c' :: cs') in *.
      assert (Hne : cs ≠ []) by done. clearbody cs.
      unfold normal_form. rewrite join_snoc by done.
      change (String sep c) with (String sep "" +:+ c).
      rewrite <- !append_assoc, upto_last_sep_app by done.
      rewrite upto_last_sep_ends by (rewrite ends_with_app; done).
      rewrite truthy_app, all_sep_app, all_sep_app, join_all_sep by done.
      rewrite andb_false_r, orb_true_r. cbn [andb negb].
      rewrite rstrip_sep_snoc. apply rstrip_sep_id.
      rewrite ends_with_app, join_truthy by done. by apply join_ends.
Qed.


(** *** [normpath] on absolute paths *)

Lemma norm_step_skip n acc : norm_step n acc "" = acc.
Proof. unfold norm_step. by rewrite bool_decide_true by auto. Qed.

Lemma norm_step_clean_comp n acc c : clean c -> norm_step n acc c = acc ++ [c].
Proof.
  intros (_ & H1 & H2 & H3). unfold norm_step.
  rewrite bool_decide_false by (intros [?|?]; done).
  by rewrite bool_decide_true by auto.
Qed.

Lemma last_clean acc : Forall clean acc -> last acc ≠ Some "..".
Proof.
  intros Hacc Hl. apply last_Some in Hl as (l' & ->).
  apply Forall_app in Hacc as [_ [(_ & _ & _ & H) _]%Forall_cons]. done.
Qed.

Lemma norm_step_dotdot n acc :
  n ≠ 0 -> Forall clean acc -> norm_step n acc ".." = removelast acc.
Proof.
  intros Hn Hacc. unfold norm_step.
  rewrite bool_decide_false by (intros [?|?]; done).
  rewrite bool_decide_false; [done|].
  intros [?|[[? _]|?]]; [done | done | by eapply last_clean].
Qed.

Lemma removelast_clean acc : Forall clean acc -> Forall clean (removelast acc).
Proof.
  destruct acc as [|c acc _] using rev_ind; [done|].
  rewrite removelast_last. by intros [? _]%Forall_app.
Qed.

Lemma norm_step_preserves n acc c :
  n ≠ 0 -> Forall clean acc -> has_sep c = false -> Forall clean (norm_step n acc c).
Proof.
  intros Hn Hacc Hc. unfold norm_step.
  case_bool_decide as H1; [done|].
  case_bool_decide as H2.
  - apply Forall_app. split; [done|]. repeat constructor; [done|..].
    + intros ->. apply H1. by left.
    + intros ->. apply H1. by right.
    + intros ->. destruct H2 as [?|[[? _]|?]]; [done | done | by eapply last_clean].
  - by apply removelast_clean.
Qed.

Lemma foldl_norm_preserves n l : forall acc,
  n ≠ 0 -> Forall clean acc -> Forall (fun c => has_sep c = false) l ->
  Forall clean (foldl (norm_step n) acc l).
Proof.
  induction l as [|c l IH]; intros acc Hn Hacc Hl; [done|].
  apply Forall_cons in Hl as [Hc Hl]. simpl.
  apply IH; [done | by apply norm_step_preserves | done].
Qed.

Lemma foldl_norm_clean n cs : forall acc,
  Forall clean cs -> foldl (norm_step n) acc cs = acc ++ cs.
Proof.
  induction cs as [|c cs IH]; intros acc Hcs; [by rewrite app_nil_r|].
  apply Forall_cons in Hcs as [Hc Hcs]. simpl.
  rewrite norm_step_clean_comp, IH by done. by rewrite <- app_assoc.
Qed.

Lemma initial_slashes_prefix n t :
  n = 1 \/ n = 2 -> Str.starts_with_char sep t = false ->
  initial_slashes (slashes n +:+ t) = n.
Proof.
  intros [-> | ->] Ht; (destruct t as [|x t]; [done|]);
    simpl in Ht; apply bool_decide_eq_false in Ht;
    cbn [slashes]; rewrite !append_cons, append_nil_l;
    destruct x as [[] [] [] [] [] [] [] []]; done.
Qed.

Lemma initial_slashes_isabs s :
  isabs s = true -> initial_slashes s = 1 \/ initial_slashes s = 2.
Proof.
  destruct s as [|x s]; [done|]. simpl. intros ->%bool_decide_eq_true.
  unfold initial_slashes, sep. repeat case_match; auto.
Qed.

Lemma split_slashes n t :
  Str.split sep (slashes n +:+ t) = replicate n "" ++ Str.split sep t.
Proof.
  induction n as [|n IH]; [done|].
  cbn [slashes replicate]. rewrite append_cons.
  change (String sep (slashes n +:+ t)) with ("" +:+ String sep (slashes n +:+ t)).
  by rewrite split_app_sep, IH.
Qed.

Lemma foldl_norm_empties n k l acc :
  foldl (norm_step n) acc (replicate k "" ++ l) = foldl (norm_step n) acc l.
Proof.
  induction k as [|k IH]; [done|]. simpl. by rewrite norm_step_skip.
Qed.

(** [normpath] works on the components between the slashes. *)
Lemma normpath_components n l :
  n = 1 \/ n = 2 ->
  Forall (fun c => has_sep c = false) l ->
  Str.starts_with_char sep (Str.join sep l) = false ->
  normpath (slashes n +:+ Str.join sep l)
  = slashes n +:+ Str.join sep (foldl (norm_step n) [] l).
Proof.
  intros Hn Hl Hstart. unfold normpath.
  assert (Ht : forall t, Str.truthy (slashes n +:+ t) = true)
    by (intros t; by destruct Hn as [-> | ->]).
  rewrite Ht. cbn [negb]. cbv zeta.
  rewrite initial_slashes_prefix, split_slashes, foldl_norm_empties, Ht by done.
  do 2 f_equal.
  destruct l as [|c l]; [cbn [Str.join Str.split foldl]; by rewrite norm_step_skip|].
  by rewrite split_join.
Qed.

(** A fixed point of [normpath] that is absolute is in normal form. *)
Lemma normalised_normal_form s :
  isabs s = true -> normpath s = s ->
  exists n cs, (n = 1 \/ n = 2) /\ Forall clean cs /\ s = normal_form n cs.
Proof.
  intros Habs Hnorm.
  exists (initial_slashes s),
         (foldl (norm_step (initial_slashes s)) [] (Str.split sep s)).
  pose proof (initial_slashes_isabs s Habs) as Hn.
  split; [done|]. split.
  - apply foldl_norm_preserves; [by destruct Hn as [-> | ->] | done |].
    apply split_components.
  - rewrite <- Hnorm at 1. unfold normpath, normal_form.
    assert (Hs : Str.truthy s = true) by by destruct s.
    rewrite Hs. cbn [negb]. cbv zeta.
    assert (Ht : forall t, Str.truthy (slashes (initial_slashes s) +:+ t) = true)
      by (intros t; by destruct Hn as [-> | ->]).
    by rewrite Ht.
Qed.

(** [join(d, '..', '.venv')] on a normal form. *)
Lemma join_venv_normal_form n cs :
  n ≠ 0 -> Forall clean cs ->
  join (normal_form n cs) [".."; ".venv"] = normal_form n (cs ++ [".."; ".venv"]).
Proof.
  intros Hn Hcs. unfold join. cbn [foldl]. unfold join2.
  cbn [Str.starts_with_char]. rewrite !bool_decide_false by done.
  rewrite normal_form_truthy, normal_form_ends by done. cbn [negb orb].
  assert (Hdd : forall a, Str.ends_with_char sep (a +:+ "..") = false)
    by (intros a; by rewrite ends_with_app).
  assert (Hsdd : forall a, Str.ends_with_char sep (a +:+ String sep "..") = false)
    by (intros a; by rewrite ends_with_app).
  destruct cs as [|c cs].
  - rewrite bool_decide_true by done.
    rewrite truthy_app, Hdd, orb_true_r. cbn [negb orb].
    unfold normal_form. cbn [app Str.join]. by rewrite append_nil_r, !append_assoc.
  - rewrite bool_decide_false by done.
    rewrite truthy_app, Hsdd, orb_true_r. cbn [negb orb].
    unfold normal_form. rewrite join_app by done. cbn [Str.join].
    by rewrite !append_assoc.
Qed.

Lemma starts_with_app c a b :
  Str.truthy a = true ->
  Str.starts_with_char c (a +:+ b) = Str.starts_with_char c a.
Proof. by destruct a. Qed.

Lemma clean_venv : clean ".venv".
Proof. by repeat split. Qed.

(** [join(d, '.venv')] on a normal form. *)
Lemma join_child_normal_form n cs :
  n ≠ 0 -> Forall clean cs ->
  join (normal_form n cs) [".venv"] = normal_form n (cs ++ [".venv"]).
Proof.
  intros Hn Hcs. unfold join. cbn [foldl]. unfold join2.
  cbn [Str.starts_with_char]. rewrite bool_decide_false by done.
  rewrite normal_form_truthy, normal_form_ends by done. cbn [negb orb].
  destruct cs as [|c cs].
  - rewrite bool_decide_true by done.
    unfold normal_form. cbn [app Str.join]. by rewrite append_nil_r.
  - rewrite bool_decide_false by done.
    unfold normal_form. rewrite join_app by done. cbn [Str.join].
    by rewrite !append_assoc.
Qed.

(** [abspath(join(d, '..', '.venv'))] replaces the last component of [d]. *)
Lemma abspath_venv_normal_form n cs wd :
  n = 1 \/ n = 2 -> Forall clean cs ->
  abspath wd (join (normal_form n cs) [".."; ".venv"])
  = normal_form n (removelast cs ++ [".venv"]).
Proof.
  intros Hn Hcs.
  assert (Hn0 : n ≠ 0) by (destruct Hn as [-> | ->]; done).
  rewrite join_venv_normal_form by done.
  unfold abspath. rewrite normal_form_isabs by done.
  unfold normal_form. rewrite normpath_components; [|done| |].
  - rewrite foldl_app, (foldl_norm_clean n cs []) by done. cbn [foldl app].
    rewrite norm_step_dotdot by done.
    by rewrite (norm_step_clean_comp _ _ ".venv") by apply clean_venv.
  - apply Forall_app. split; [by apply clean_no_sep | by repeat constructor].
  - destruct cs as [|c cs]; [done|].
    rewrite join_app, starts_with_app by (done || by apply join_truthy).
    by apply join_starts.
Qed.

End PathFacts.

(** ** The venv directory *)

Section VenvDir.
Import PosixPath PathFacts.
Context (h : Host).

Lemma venv_dir_in_root :
  isabs (tool_file h) = true -> normpath (tool_file h) = tool_file h ->
  VENV_DIR h = join (project_root h) [".venv"].
Proof.
  intros Habs Hnorm.
  destruct (normalised_normal_form _ Habs Hnorm) as (n & rs & Hn & Hrs & Hfile).
  assert (Hn0 : n ≠ 0) by (destruct Hn as [-> | ->]; done).
  assert (Hdir : CURRENT_DIR h = normal_form n (removelast rs)).
  { unfold CURRENT_DIR. fold (tool_file h). rewrite Hfile.
    by apply dirname_normal_form. }
  pose proof (removelast_clean _ Hrs) as Hcs.
  unfold VENV_DIR, project_root. rewrite Hdir.
  rewrite abspath_venv_normal_form, dirname_normal_form by done.
  rewrite join_child_normal_form; [done | done | by apply removelast_clean].
Qed.

(** The children of [main]: at most one run of the virtualenv tool, then
    installers of the first manifests. *)
Lemma main_spawned args os :
  let url := pip_index_url args in
  let extra := Some (pip_extra_index_url args) in
  exists tools k,
    spawned_scripts (emitted (main h args os))
    = map (fun tool => venv_script h tool (python args)) tools
      ++ map (pip_script h url extra) (take k (requirements args)).
Proof.
  intros url extra. rewrite main_result. cbv zeta.
  assert (Hnone : exists (tools : list string) k,
            @nil string = map (fun tool => venv_script h tool (python args)) tools
                          ++ map (pip_script h url extra) (take k (requirements args))).
  { exists [], 0. by rewrite take_0. }
  destruct (level_accepted h args); [|exact Hnone].
  destruct (generate_helpers_quiet h os) as [Hq _].
  set (os1 := final (generate_helpers h os)) in *.
  destruct (outcome (generate_helpers h os)); cbn [emitted]; [by rewrite Hq|].
  pose proof (setup_step_spawned h args (environ os) os1) as Hs2. cbv zeta in Hs2.
  set (tool := resolve_virtualenv h (files os1) (virtualenv_path args) (python args)) in *.
  assert (Htools : exists tools,
            spawned_scripts (emitted (setup_step h args (environ os) os1))
            = map (fun tool => venv_script h tool (python args)) tools).
  { rewrite Hs2. case_bool_decide; [|by exists []].
    destruct (writable h _); [by exists [tool] | by exists []]. }
  destruct Htools as [tools Htools].
  destruct (outcome (setup_step h args (environ os) os1)); cbn [emitted];
    rewrite !spawned_scripts_app, Hq, Htools; cbn [app].
  - exists tools, 0. by rewrite take_0, app_nil_r.
  - destruct (pip_install_prefix h url extra (requirements args)
                (final (setup_step h args (environ os) os1))) as (k & _ & Hk).
    exists tools, k. unfold install_requirements. fold url extra. by rewrite Hk.
Qed.
End VenvDir.

(** C8: the venv directory is [.venv] in the parent of the directory the
    script is in, provided [realpath] returns what it must, an absolute
    normalised path.  The arguments of [setup_venv], [pip_install] and
    [main] have no part in it: the virtualenv command always has this
    directory as its target, the installer is always [bin/pip] in it, and
    every child of [main] is one of these two commands.  ([setup_venv]
    starts its command unless the encoding of the process cannot write
    it to the temporary file.) *)
Theorem venv_dir_fixed h :
  PosixPath.isabs (tool_file h) = true ->
  PosixPath.normpath (tool_file h) = tool_file h ->
  let venv := PosixPath.join (project_root h) [".venv"] in
  let pip := PosixPath.join venv ["bin"; "pip"] in
  VENV_DIR h = venv
  /\ (forall virtualenv_path python_path os,
        exists tool,
          let script :=
            script_text [tool; "--python=" +:+ python_path; "--never-download"; venv]
                        None "/bin/bash" in
          spawned_scripts (emitted (setup_venv h virtualenv_path python_path os))
          = if writable h script then [script] else [])
  /\ (forall url extra, head (pip_commands h url extra) = Some pip)
  /\ (forall url extra reqs os,
        Forall (fun script =>
                  exists req,
                    script = script_text
                               [pip; "install"; "--index-url=" +:+ url;
                                "--extra-index-url=" +:+ default "" extra;
                                "--timeout=120"; "--requirement=" +:+ req]
                               (Some (ENV_SH h)) "/bin/bash")
               (spawned_scripts
                  (emitted (pip_install h url extra (FileList reqs) os))))
  /\ (forall args os,
        Forall (fun script =>
                  (exists tool,
                     script = script_text
                                [tool; "--python=" +:+ python args;
                                 "--never-download"; venv]
                                None "/bin/bash")
                  \/ (exists req,
                        script = script_text
                                   [pip; "install";
                                    "--index-url=" +:+ pip_index_url args;
                                    "--extra-index-url=" +:+ pip_extra_index_url args;
                                    "--timeout=120"; "--requirement=" +:+ req]
                                   (Some (ENV_SH h)) "/bin/bash"))
               (spawned_scripts (emitted (main h args os)))).
Proof.
  intros Habs Hnorm venv pip.
  pose proof (venv_dir_in_root h Habs Hnorm) as Hvenv. fold venv in Hvenv.
  assert (Hpip : forall url extra req,
            pip_script h url extra req
            = script_text [pip; "install"; "--index-url=" +:+ url;
                           "--extra-index-url=" +:+ default "" extra;
                           "--timeout=120"; "--requirement=" +:+ req]
                          (Some (ENV_SH h)) "/bin/bash").
  { intros. unfold pip_script. by rewrite pip_commands_eq, Hvenv. }
  split; [done|]. split; [|split; [|split]].
  - intros vp pp os. exists (resolve_virtualenv h (files os) vp pp). cbv zeta.
    rewrite setup_venv_eq. cbn [emitted].
    change (EvLog ?m :: ?l) with ([EvLog m] ++ l).
    rewrite spawned_scripts_app, run_shell_command_spawned, Hvenv. reflexivity.
  - intros url extra. by rewrite pip_commands_eq, Hvenv.
  - intros url extra reqs os.
    destruct (pip_install_prefix h url extra reqs os) as (k & _ & ->).
    apply Forall_forall. intros script (req & -> & _)%list_elem_of_fmap. eauto.
  - intros args os.
    destruct (main_spawned h args os) as (tools & k & ->).
    apply Forall_app. split; apply Forall_forall.
    + intros script (tool & -> & _)%list_elem_of_fmap. left. exists tool.
      unfold venv_script. by rewrite Hvenv.
    + intros script (req & -> & _)%list_elem_of_fmap. right. exists req.
      rewrite Hpip. reflexivity.
Qed.

Lemma venv_dir_fixed_witness :
  let h := demo_host all_succeed in
  PosixPath.isabs (tool_file h) = true
  /\ PosixPath.normpath (tool_file h) = tool_file h
  /\ VENV_DIR h = PosixPath.join (project_root h) [".venv"].
Proof.
  intros h.
  assert (Habs : PosixPath.isabs (tool_file h) = true) by (vm_compute; reflexivity).
  assert (Hnorm : PosixPath.normpath (tool_file h) = tool_file h)
    by (vm_compute; reflexivity).
  split; [done|]. split; [done|].
  destruct (venv_dir_fixed h Habs Hnorm) as [Hvenv _].
  exact Hvenv.
Defined.

(** * Further properties of the code *)

(** ** More on the command execution helper *)

Lemma written_app path (l1 l2 : list Event) :
  written path (l1 ++ l2) = written path l1 +:+ written path l2.
Proof.
  induction l1 as [|ev l1 IH]; [done|]. simpl. rewrite IH.
  destruct ev; try done. case_bool_decide; [by rewrite append_assoc | done].
Qed.

Lemma written_cons path data (l : list Event) :
  written path (EvWrite path data :: l) = data +:+ written path l.
Proof. simpl. by rewrite bool_decide_true. Qed.

Lemma written_script_writes path commands source_sh shell :
  written path (script_writes path commands source_sh shell)
  = script_text commands source_sh shell.
Proof.
  unfold script_writes, script_text. rewrite !written_app. f_equal; [|f_equal].
  - destruct (Str.truthy shell); [|done].
    rewrite !written_cons. simpl. by rewrite append_nil_r.
  - destruct source_sh as [src|]; [|done]. destruct (Str.truthy src); [|done].
    rewrite !written_cons. simpl. by rewrite append_nil_r.
  - rewrite written_cons. change (written path []) with "". rewrite append_nil_r.
    induction commands as [|c l IH]; [done|].
    cbn [flat_map app foldr]. rewrite !written_cons, !append_assoc.
    by rewrite IH.
Qed.

Lemma written_child_verdict h path script stdout os :
  written path (emitted (child_verdict h path script stdout os)) = "".
Proof.
  unfold child_verdict. destruct (child _ _ _); [done|]. by case_bool_decide.
Qed.

(** X1: what is written is what is run, and what is logged is what is
    read back.  When the script can be written, the strings
    [run_shell_command] writes to its temporary file are, put together,
    the shebang line, the [source] line if a script to source is given, and
    the tokens each followed by a space, closed by a newline; the child is
    started on this text, and the log line shows it as text mode reads it,
    which is the same text when it has no carriage return.  The order is:
    log, [chmod 0o755], start. *)
Theorem script_written_logged_run h commands source_sh stdout shell os :
  let path := fresh_tmp ".sh" (files os) in
  let r := run_shell_command h commands source_sh stdout shell os in
  let script :=
    (if Str.truthy shell then "#!" +:+ shell +:+ nl else "")
    +:+ match source_sh with
        | Some src => if Str.truthy src then "source " +:+ src +:+ nl else ""
        | None => ""
        end
    +:+ foldr (fun c rest => c +:+ " " +:+ rest) nl commands in
  let shown := executing_line (Str.universal_newlines script) in
  writable h script = true ->
  written path (emitted r) = script
  /\ logged (emitted r) = [shown]
  /\ spawned_scripts (emitted r) = [script]
  /\ (has_char "013"%char script = false -> shown = executing_line script)
  /\ exists before after,
       emitted r = before ++ [EvLog shown; EvChmod path 493; EvSpawn [path] script]
                   ++ after
       /\ Forall (fun ev => ev = EvMkstemp path \/ exists data, ev = EvWrite path data)
                 before.
Proof.
  intros path r script shown Hw. subst r shown.
  change script with (script_text commands source_sh shell) in *. clear script.
  pose proof (run_shell_command_logged h commands source_sh stdout shell os) as Hl.
  pose proof (run_shell_command_spawned h commands source_sh stdout shell os) as Hs.
  cbv zeta in Hl, Hs. rewrite Hw in Hl, Hs.
  split; [|split; [exact Hl|split; [exact Hs|split]]].
  - rewrite run_shell_command_ok by done. fold path. cbn [emitted].
    change (EvMkstemp ?p :: ?l) with ([EvMkstemp p] ++ l).
    rewrite !written_app, written_script_writes, written_child_verdict.
    simpl. by rewrite append_nil_r.
  - intros Hcr. by rewrite universal_newlines_plain.
  - rewrite run_shell_command_ok by done. fold path. cbn [emitted].
    set (script := script_text commands source_sh shell).
    assert (Hv : exists rest, emitted (child_verdict h path script stdout
                                         (exec_state path script os))
                              = [EvChmod path 493; EvSpawn [path] script] ++ rest).
    { unfold child_verdict. destruct (child _ _ _); [by exists []|].
      case_bool_decide; [eauto | by exists []]. }
    destruct Hv as [rest ->].
    exists (EvMkstemp path :: script_writes path commands source_sh shell),
           (rest ++ [EvUnlink path]).
    split; [simpl; f_equal; by rewrite <- !app_assoc|].
    constructor; [by left|].
    rewrite <- script_pieces_writes.
    apply Forall_forall. intros ev (piece & -> & _)%list_elem_of_fmap. eauto.
Qed.

Lemma script_written_logged_run_witness :
  let h := demo_host all_succeed in
  let commands := ["printf"; String "013" ""] in
  let script := script_text commands None "/bin/bash" in
  writable h script = true
  /\ spawned_scripts (emitted (run_shell_command h commands None Inherit "/bin/bash"
                                 demo_os))
     = ["#!/bin/bash" +:+ nl +:+ "printf " +:+ String "013" " " +:+ nl]
  /\ logged (emitted (run_shell_command h commands None Inherit "/bin/bash" demo_os))
     = [executing_line ("#!/bin/bash" +:+ nl +:+ "printf " +:+ nl +:+ " " +:+ nl)].
Proof.
  intros h commands script.
  assert (Hw : writable h script = true) by reflexivity.
  split; [exact Hw|].
  destruct (script_written_logged_run h commands None Inherit "/bin/bash" demo_os Hw)
    as (_ & Hl & Hs & _).
  split; [exact Hs | exact Hl].
Defined.

(** X2: when the script has been written and cannot be executed, [Popen]
    raises [OSError] and [run_shell_command] lets it through: the child
    was started on the script, nothing is printed, and the temporary file
    is deleted all the same. *)
Theorem run_shell_command_exec_failure h commands source_sh stdout shell os errno :
  let path := fresh_tmp ".sh" (files os) in
  let script := script_text commands source_sh shell in
  let r := run_shell_command h commands source_sh stdout shell os in
  writable h script = true ->
  child h (exec_state path script os) [path] = ExecFailed errno ->
  outcome r = inl (OSError errno path)
  /\ spawned_scripts (emitted r) = [script]
  /\ printed (emitted r) = []
  /\ unlinked (emitted r) = [path]
  /\ files (final r) = files os.
Proof.
  intros path script r Hw Hc. subst r.
  rewrite run_shell_command_ok by done. fold path script.
  unfold child_verdict. rewrite Hc. cbn [outcome emitted final].
  change (EvMkstemp ?p :: ?l) with ([EvMkstemp p] ++ l).
  rewrite !spawned_scripts_app, !printed_app, !unlinked_app.
  rewrite spawned_scripts_writes, printed_writes, unlinked_writes.
  done.
Qed.

Lemma run_shell_command_exec_failure_witness :
  let h := demo_host (fun _ => ExecFailed 8) in
  let path := fresh_tmp ".sh" (files demo_os) in
  writable h (script_text ["true"] None "") = true
  /\ child h (exec_state path (script_text ["true"] None "") demo_os) [path]
     = ExecFailed 8
  /\ outcome (run_shell_command h ["true"] None Inherit "" demo_os)
     = inl (OSError 8 path).
Proof.
  intros h path. split; [reflexivity|]. split; [reflexivity|].
  destruct (run_shell_command_exec_failure h ["true"] None Inherit "" demo_os 8
              eq_refl eq_refl) as [Ho _].
  exact Ho.
Defined.

Lemma script_text_tokens (pre post : list string) (a b : string) source_sh shell :
  script_text (pre ++ (a +:+ " " +:+ b) :: post) source_sh shell
  = script_text (pre ++ a :: b :: post) source_sh shell.
Proof.
  unfold script_text. do 2 f_equal.
  induction pre as [|c pre IH]; simpl; [by rewrite !append_assoc | by rewrite IH].
Qed.

(** X3: the tokens of a command are put in the script as they are, with a
    space after each: nothing quotes them.  A token with a space in it
    gives the script of the two tokens it is made of, and so the same
    children; and when the script can be written, the same result and the
    same final state. *)
Theorem tokens_are_not_quoted h pre a b post source_sh stdout shell os :
  let one := pre ++ (a +:+ " " +:+ b) :: post in
  let two := pre ++ a :: b :: post in
  let joined := run_shell_command h one source_sh stdout shell os in
  let apart := run_shell_command h two source_sh stdout shell os in
  script_text one source_sh shell = script_text two source_sh shell
  /\ spawned_scripts (emitted joined) = spawned_scripts (emitted apart)
  /\ (writable h (script_text one source_sh shell) = true ->
      outcome joined = outcome apart /\ final joined = final apart).
Proof.
  intros one two joined apart. subst one two joined apart.
  split; [apply script_text_tokens|].
  rewrite !run_shell_command_spawned. cbv zeta. rewrite script_text_tokens.
  split; [done|]. intros Hw.
  rewrite !run_shell_command_ok; rewrite ?script_text_tokens; done.
Qed.

Lemma tokens_are_not_quoted_witness :
  let h := demo_host all_succeed in
  writable h (script_text (["echo"] ++ ("a" +:+ " " +:+ "b") :: []) None "/bin/bash") = true
  /\ outcome (run_shell_command h ["echo"; "a b"] None PIPE "/bin/bash" demo_os)
     = outcome (run_shell_command h ["echo"; "a"; "b"] None PIPE "/bin/bash" demo_os).
Proof.
  intros h.
  assert (Hw : writable h (script_text (["echo"] ++ ("a" +:+ " " +:+ "b") :: [])
                             None "/bin/bash") = true) by reflexivity.
  split; [exact Hw|].
  destruct (tokens_are_not_quoted h ["echo"] "a" "b" [] None PIPE "/bin/bash" demo_os)
    as (_ & _ & H).
  destruct (H Hw) as [Ho _]. exact Ho.
Defined.

(** X4: the lines [run_shell_command] returns are lines: none of them has a
    line feed or a carriage return in it. *)
Theorem returned_lines_have_no_break h commands source_sh stdout shell os lines :
  outcome (run_shell_command h commands source_sh stdout shell os) = inr (Some lines) ->
  Forall one_line lines.
Proof.
  intros Ho. destruct (run_shell_command_returned _ _ _ _ _ _ _ Ho) as [Hw _].
  revert Ho. rewrite run_shell_command_ok by done. cbn [outcome]. unfold child_verdict.
  destruct (child _ _ _) as [errno|rc out]; [done|].
  case_bool_decide; [done|]. cbn [outcome].
  destruct stdout; [done|]. intros [= <-].
  apply (splitlines_go_one_line (String.length out)); [lia | |]; intros Hin; inversion Hin.
Qed.

Lemma returned_lines_have_no_break_witness :
  outcome (run_shell_command (demo_host all_succeed) ["echo"] None PIPE "/bin/bash"
                             demo_os) = inr (Some ["ok"; "done"])
  /\ Forall one_line ["ok"; "done"].
Proof.
  assert (Ho : outcome (run_shell_command (demo_host all_succeed) ["echo"] None PIPE
                          "/bin/bash" demo_os) = inr (Some ["ok"; "done"]))
    by (vm_compute; reflexivity).
  split; [exact Ho|].
  exact (returned_lines_have_no_break _ _ _ _ _ _ _ Ho).
Defined.

(** ** More on helper-file generation *)

Lemma join2_plain a b :
  Str.starts_with_char PosixPath.sep b = false ->
  PosixPath.join2 a b
  = (if negb (Str.truthy a) || Str.ends_with_char PosixPath.sep a
     then a else a +:+ "/") +:+ b.
Proof.
  intros Hb. unfold PosixPath.join2. rewrite Hb.
  destruct (_ || _); [done|]. by rewrite append_assoc.
Qed.

Lemma helper_paths_differ h : env_sh_path h ≠ python_sh_path h.
Proof.
  unfold env_sh_path, python_sh_path, PosixPath.join. cbn [foldl].
  rewrite !join2_plain by done. intros H.
  apply (inj (String.append _)) in H. discriminate.
Qed.

(** The files after either function has returned; one that has raised
    has left the state as it was. *)
Lemma create_env_file_files h os :
  let r := create_env_file h os in
  match outcome r with
  | inr _ =>
      files (final r)
      = <[env_sh_path h :=
            default (mkFile (Str.strip env_sh_literal) (N.ldiff 438 (umask os)))
                    (files os !! env_sh_path h)]> (files os)
  | inl _ => final r = os /\ files os !! env_sh_path h = None
  end.
Proof.
  destruct (exists_in (files os) (env_sh_path h)) eqn:Hex.
  - rewrite create_env_file_present by done. cbn [outcome final].
    destruct (exists_in_true _ _ Hex) as [f Hf]. rewrite Hf. cbn [default].
    by rewrite insert_id.
  - rewrite create_env_file_absent by done.
    apply exists_in_false in Hex; [|apply env_sh_path_truthy].
    destruct (open_error h os (env_sh_path h)); cbn [outcome final]; [done|].
    by rewrite Hex.
Qed.

Lemma create_python_wrapper_files h os :
  let r := create_python_wrapper h os in
  match outcome r with
  | inr _ =>
      files (final r)
      = <[python_sh_path h :=
            default (mkFile (Str.strip python_sh_literal) 493)
                    (files os !! python_sh_path h)]> (files os)
  | inl _ => final r = os /\ files os !! python_sh_path h = None
  end.
Proof.
  destruct (exists_in (files os) (python_sh_path h)) eqn:Hex.
  - rewrite create_python_wrapper_present by done. cbn [outcome final].
    destruct (exists_in_true _ _ Hex) as [f Hf]. rewrite Hf. cbn [default].
    by rewrite insert_id.
  - rewrite create_python_wrapper_absent by done.
    apply exists_in_false in Hex; [|apply python_sh_path_truthy].
    destruct (open_error h os (python_sh_path h)); cbn [outcome final]; [done|].
    by rewrite Hex.
Qed.

(** The files after both helper files have been generated. *)
Lemma generate_helpers_files h os :
  outcome (generate_helpers h os) = inr tt ->
  files (final (generate_helpers h os))
  = <[python_sh_path h :=
        default (mkFile (Str.strip python_sh_literal) 493)
                (files os !! python_sh_path h)]>
      (<[env_sh_path h :=
           default (mkFile (Str.strip env_sh_literal) (N.ldiff 438 (umask os)))
                   (files os !! env_sh_path h)]> (files os)).
Proof.
  intros Ho. pose proof (helper_paths_differ h) as Hne.
  destruct (generate_helpers_returned h os Ho) as (H1 & H2 & ->). cbn [final].
  pose proof (create_env_file_files h os) as Hf1.
  pose proof (create_python_wrapper_files h (final (create_env_file h os))) as Hf2.
  cbv zeta in Hf1, Hf2. rewrite H1 in Hf1. rewrite H2 in Hf2.
  rewrite Hf2, Hf1. by rewrite lookup_insert_ne.
Qed.

(** The one exception helper generation can end with. *)
Lemma helper_generation_raises_oserror h os e :
  outcome (generate_helpers h os) = inl e ->
  exists errno p, e = OSError errno p
                  /\ (p = env_sh_path h \/ p = python_sh_path h).
Proof.
  rewrite generate_helpers_eq. cbv zeta.
  destruct (outcome (create_env_file h os)) as [e1|[]] eqn:Ho1; cbn [outcome].
  - intros [= <-]. destruct (create_env_file_raises h os e1 Ho1) as (_ & _ & errno & _ & ->).
    eauto.
  - intros Ho2. destruct (create_python_wrapper_raises h _ e Ho2) as (_ & _ & errno & _ & ->).
    eauto.
Qed.



Lemma no_execute_bits (u : N) : N.land (N.ldiff 438 u) 73 = 0%N.
Proof.
  apply N.bits_inj. intros n.
  rewrite N.land_spec, N.ldiff_spec, N.bits_0.
  assert (H : N.testbit 438 n && N.testbit 73 n = false)
    by (rewrite <- N.land_spec; apply N.bits_0).
  destruct (N.testbit 438 n), (N.testbit 73 n), (N.testbit u n); done.
Qed.

(** X6: a helper file that the tool creates has the permissions of its
    use: when generation returns, an [env.sh] that was not there, which is
    sourced, has no execute bit whatever the umask is, and a [python.sh]
    that was not there, which is executed, has mode 0o755 whatever the
    umask is. *)
Theorem helper_file_modes h os :
  let fs' := files (final (generate_helpers h os)) in
  outcome (generate_helpers h os) = inr tt ->
  (files os !! env_sh_path h = None ->
   exists f, fs' !! env_sh_path h = Some f
             /\ content f = Str.strip env_sh_literal
             /\ N.land (mode f) 73 (* 0o111 *) = 0%N)
  /\ (files os !! python_sh_path h = None ->
      exists f, fs' !! python_sh_path h = Some f
                /\ content f = Str.strip python_sh_literal
                /\ mode f = 493%N (* 0o755 *)).
Proof.
  intros fs' Ho. subst fs'.
  pose proof (helper_paths_differ h) as Hne.
  rewrite generate_helpers_files by done.
  split; intros Hnone.
  - rewrite lookup_insert_ne, lookup_insert_eq, Hnone by done.
    eexists. split; [done|]. split; [done|]. apply no_execute_bits.
  - rewrite lookup_insert_eq, Hnone. eexists. done.
Qed.

Lemma helper_file_modes_witness :
  let h := demo_host all_succeed in
  outcome (generate_helpers h demo_os) = inr tt
  /\ files demo_os !! env_sh_path h = None
  /\ files demo_os !! python_sh_path h = None
  /\ (mode <$> files (final (generate_helpers h demo_os)) !! python_sh_path h)
     = Some 493%N.
Proof.
  intros h.
  assert (H0 : outcome (generate_helpers h demo_os) = inr tt) by (vm_compute; reflexivity).
  assert (H1 : files demo_os !! env_sh_path h = None) by (vm_compute; reflexivity).
  assert (H2 : files demo_os !! python_sh_path h = None) by (vm_compute; reflexivity).
  split; [done|]. split; [done|]. split; [done|].
  destruct (helper_file_modes h demo_os H0) as [_ Hpy].
  destruct (Hpy H2) as (f & -> & _ & Hm). simpl. by rewrite Hm.
Defined.

(** ** More on the orchestrator *)

Lemma tidy_prefix fs left os' (evs0 evs : list Event) :
  created evs0 = unlinked evs0 -> tidy fs left os' evs -> tidy fs left os' (evs0 ++ evs).
Proof.
  intros H0. unfold tidy. rewrite created_app, unlinked_app, H0.
  destruct left; [|by intros [-> ->]].
  intros (p & -> & Hp). exists p. by rewrite app_assoc.
Qed.


(** One run of [run_shell_command], as the script calls it (nothing
    captured): it prints [None] exactly when it raises
    [CalledProcessError], and it leaves its temporary file behind exactly
    when it raises [UnicodeEncodeError]. *)
Lemma run_shell_command_tidy h commands source_sh shell os :
  let r := run_shell_command h commands source_sh Inherit shell os in
  printed (emitted r) = printed_for (outcome r)
  /\ tidy_after (files os) r.
Proof.
  intros r. subst r. unfold tidy_after, tidy.
  destruct (writable h (script_text commands source_sh shell)) eqn:Hw.
  - rewrite run_shell_command_ok by done. cbn [emitted outcome final].
    change (EvMkstemp ?p :: ?l) with ([EvMkstemp p] ++ l).
    rewrite !created_app, !unlinked_app, !printed_app.
    rewrite created_writes, unlinked_writes, printed_writes.
    unfold child_verdict. destruct (child _ _ _) as [errno|rc out]; [done|].
    by case_bool_decide.
  - destruct (run_shell_command_rejected h commands source_sh Inherit shell os Hw)
      as (pre & bad & _ & ->). cbn [emitted outcome final encode_error].
    set (path := fresh_tmp ".sh" (files os)).
    destruct (writes_quiet path pre) as (_ & Hu & Hp & _ & Hc).
    change (EvMkstemp ?p :: ?l) with ([EvMkstemp p] ++ l).
    rewrite created_app, unlinked_app, printed_app, Hu, Hp, Hc.
    split; [done|]. exists path. split; [done|]. split; [apply fresh_tmp_None|].
    intros q Hq. unfold left_behind. cbn [files with_files]. by rewrite lookup_insert_ne.
Qed.

Lemma setup_venv_tidy h vp py os :
  let r := setup_venv h vp py os in
  printed (emitted r) = printed_for (outcome r)
  /\ tidy_after (files os) r
  /\ environ (final r) = environ os.
Proof.
  intros r. subst r. rewrite setup_venv_eq. unfold tidy_after.
  cbn [emitted outcome final].
  set (tool := resolve_virtualenv h (files os) vp py).
  destruct (run_shell_command_tidy h
              [tool; "--python=" +:+ py; "--never-download"; VENV_DIR h]
              None "/bin/bash" os) as [Hp Ht].
  unfold tidy_after in Ht.
  change (EvLog ?m :: ?l) with ([EvLog m] ++ l).
  rewrite printed_app, Hp, run_shell_command_environ.
  split; [by destruct (outcome (run_shell_command _ _ _ _ _ _)) as [[]|]|].
  split; [|done]. apply tidy_prefix; [done|].
  by destruct (outcome (run_shell_command _ _ _ _ _ _)) as [[]|].
Qed.

Lemma pip_install_tidy h url extra reqs : forall os,
  let r := pip_install h url extra (FileList reqs) os in
  printed (emitted r) = printed_for (outcome r)
  /\ tidy_after (files os) r.
Proof.
  induction reqs as [|req rest IH]; intros os; [done|]. cbv zeta.
  destruct (run_shell_command_tidy h (pip_commands h url extra ++ ["--requirement=" +:+ req])
              (Some (ENV_SH h)) "/bin/bash" os) as [Hp Ht].
  fold (install_one h url extra req os) in Hp, Ht.
  unfold tidy_after in *.
  destruct (exists_in (files os) req) eqn:Hex.
  - destruct (outcome (install_one h url extra req os)) as [e|x] eqn:Ho.
    + rewrite (pip_install_failed _ _ _ _ _ _ e) by done. cbn [emitted outcome final].
      change (EvLog ?m :: ?l) with ([EvLog m] ++ l).
      rewrite printed_app, Hp. split; [done|]. by apply tidy_prefix.
    + rewrite (pip_install_passed _ _ _ _ _ _ x) by done. cbn [emitted outcome final].
      destruct (IH (tick os)) as [IHp IHt]. destruct Ht as [Hc _].
      rewrite app_comm_cons.
      change (EvLog ?m :: ?l) with ([EvLog m] ++ l).
      rewrite !printed_app, Hp, IHp. split; [done|].
      apply tidy_prefix; [|exact IHt]. by rewrite created_app, unlinked_app, Hc.
  - by rewrite pip_install_missing.
Qed.

Lemma setup_step_tidy h args env os :
  let r := setup_step h args env os in
  printed (emitted r) = printed_for (outcome r)
  /\ tidy_after (files os) r
  /\ environ (final r) = environ os.
Proof.
  unfold setup_step. case_bool_decide; [|done].
  apply setup_venv_tidy.
Qed.

(** What [main] prints and leaves: its three later steps in a row. *)
Lemma main_tidy h args os :
  let r := main h args os in
  printed (emitted r) = printed_for (outcome r)
  /\ (level_accepted h args = true ->
      tidy_after (files (final (generate_helpers h os))) r).
Proof.
  intros r. subst r. rewrite main_result. cbv zeta.
  set (g := generate_helpers h os).
  destruct (level_accepted h args); [|done].
  destruct (generate_helpers_effect h os) as (_ & _ & Hq). fold g in Hq.
  destruct (quiet_events _ Hq) as (Hgc & Hgu & _ & Hgp & _).
  assert (Hgcu : created (emitted g) = unlinked (emitted g)) by by rewrite Hgc, Hgu.
  destruct (setup_step_tidy h args (environ os) (final g)) as (Hp2 & Ht2 & _).
  set (r2 := setup_step h args (environ os) (final g)) in *.
  destruct (pip_install_tidy h (pip_index_url args) (Some (pip_extra_index_url args))
              (requirements args) (final r2)) as [Hp3 Ht3].
  fold (install_requirements h args (final r2)) in Hp3, Ht3.
  unfold tidy_after in *.
  destruct (outcome g) as [e|[]] eqn:Hog; cbn [outcome final emitted].
  { destruct (helper_generation_raises_oserror h os e Hog) as (errno & p & -> & _).
    split; [by rewrite Hgp|]. intros _. unfold tidy. cbn [encode_error].
    by rewrite Hgc, Hgu. }
  destruct (outcome r2) as [e|[]] eqn:Ho2; cbn [outcome final emitted].
  - split; [by rewrite printed_app, Hgp, Hp2|]. intros _. by apply tidy_prefix.
  - destruct Ht2 as [Hc2 Hf2].
    split; [by rewrite !printed_app, Hgp, Hp2, Hp3|]. intros _.
    apply tidy_prefix; [done|]. apply tidy_prefix; [done|]. by rewrite <- Hf2.
Qed.



(** X8: a failed venv set-up is fatal.  Outside a virtual environment, when
    the logging level is accepted, the helper files are generated and
    [setup_venv] raises, [main] ends with that exception; the virtualenv
    command is the only child of the run, if it could be written at all:
    no manifest is installed. *)
Theorem venv_failure_stops_main h args os e :
  let os1 := final (generate_helpers h os) in
  let tool := resolve_virtualenv h (files os1) (virtualenv_path args) (python args) in
  level_accepted h args = true ->
  outcome (generate_helpers h os) = inr tt ->
  environ os !! "VIRTUAL_ENV" = None ->
  outcome (setup_venv h (virtualenv_path args) (python args) os1) = inl e ->
  outcome (main h args os) = inl e
  /\ spawned_scripts (emitted (main h args os))
     = if writable h (venv_script h tool (python args))
       then [venv_script h tool (python args)] else [].
Proof.
  intros os1 tool Hlevel Hg Henv He. rewrite main_result. cbv zeta.
  rewrite Hlevel, Hg. fold os1.
  pose proof (setup_step_spawned h args (environ os) os1) as Hs2. cbv zeta in Hs2.
  rewrite bool_decide_true in Hs2 by done. fold tool in Hs2.
  unfold setup_step in *. rewrite bool_decide_true in * by done. rewrite He.
  cbn [outcome emitted]. split; [done|].
  destruct (generate_helpers_quiet h os) as [Hs _].
  by rewrite spawned_scripts_app, Hs, Hs2.
Qed.

Lemma venv_failure_stops_main_witness :
  let h := demo_host (fun _ => Exited 2 "") in
  let args := default_args h in
  level_accepted h args = true
  /\ outcome (generate_helpers h demo_os) = inr tt
  /\ environ demo_os !! "VIRTUAL_ENV" = None
  /\ outcome (setup_venv h (virtualenv_path args) (python args)
                         (final (generate_helpers h demo_os)))
     = inl (CalledProcessError 2 (venv_script h "virtualenv" (python args)))
  /\ outcome (main h args demo_os)
     = inl (CalledProcessError 2 (venv_script h "virtualenv" (python args))).
Proof.
  intros h args.
  assert (H0 : level_accepted h args = true) by (vm_compute; reflexivity).
  assert (Hg : outcome (generate_helpers h demo_os) = inr tt) by (vm_compute; reflexivity).
  assert (H1 : environ demo_os !! "VIRTUAL_ENV" = None) by (vm_compute; reflexivity).
  assert (H2 : outcome (setup_venv h (virtualenv_path args) (python args)
                          (final (generate_helpers h demo_os)))
               = inl (CalledProcessError 2 (venv_script h "virtualenv" (python args))))
    by (vm_compute; reflexivity).
  split; [done|]. split; [done|]. split; [done|]. split; [done|].
  destruct (venv_failure_stops_main h args demo_os _ H0 Hg H1 H2) as [Ho _].
  exact Ho.
Defined.

Section AllSucceed.
Context (h : Host).
Hypothesis Hchild : forall os argv, exists out, child h os argv = Exited 0 out.

Lemma run_shell_command_succeeds commands source_sh shell os :
  writable h (script_text commands source_sh shell) = true ->
  outcome (run_shell_command h commands source_sh Inherit shell os) = inr None.
Proof.
  intros Hw. rewrite run_shell_command_ok by done. cbn [outcome]. unfold child_verdict.
  destruct (Hchild (exec_state (fresh_tmp ".sh" (files os))
                      (script_text commands source_sh shell) os)
                   [fresh_tmp ".sh" (files os)]) as [out ->].
  done.
Qed.

Lemma pip_install_succeeds url extra reqs : forall os,
  Forall (fun p => exists_in (files os) p = true
                   /\ writable h (pip_script h url extra p) = true) reqs ->
  outcome (pip_install h url extra (FileList reqs) os) = inr tt.
Proof.
  induction reqs as [|req rest IH]; intros os Hall; [done|].
  apply Forall_cons in Hall as [[Hreq Hw] Hrest].
  destruct (pip_install_cons h url extra req rest os)
    as [[Hm _]|[(_ & e & He & _)|(_ & x & _ & -> & _)]].
  - congruence.
  - unfold install_one in He. rewrite run_shell_command_succeeds in He by done. done.
  - by apply IH.
Qed.
End AllSucceed.

Lemma generate_helpers_succeeds h os :
  (forall os' p, open_error h os' p = None) ->
  outcome (generate_helpers h os) = inr tt.
Proof.
  intros Hopen. rewrite generate_helpers_eq. cbv zeta.
  destruct (outcome (create_env_file h os)) as [e|[]] eqn:H1; cbn [outcome].
  - destruct (create_env_file_raises h os e H1) as (_ & _ & errno & Herr & _).
    by rewrite Hopen in Herr.
  - destruct (outcome (create_python_wrapper h _)) as [e|[]] eqn:H2; [|done].
    destruct (create_python_wrapper_raises h _ e H2) as (_ & _ & errno & Herr & _).
    by rewrite Hopen in Herr.
Qed.

(** X9: the good run.  When the logging level is accepted, no [open]
    fails, every child process exits with status zero, every manifest
    exists and the commands can be written, [main] returns; its children
    are the virtualenv command, unless [VIRTUAL_ENV] is set, and then the
    installer of every manifest in the order of the list; nothing is
    printed, every temporary script is deleted, and the files at the end
    are those that helper generation has left. *)
Theorem main_succeeds h args os :
  let os1 := final (generate_helpers h os) in
  let tool := resolve_virtualenv h (files os1) (virtualenv_path args) (python args) in
  let script := pip_script h (pip_index_url args) (Some (pip_extra_index_url args)) in
  let r := main h args os in
  level_accepted h args = true ->
  (forall os' p, open_error h os' p = None) ->
  (forall os' argv, exists out, child h os' argv = Exited 0 out) ->
  (environ os !! "VIRTUAL_ENV" = None ->
   writable h (venv_script h tool (python args)) = true) ->
  Forall (fun p => exists_in (files os) p = true /\ writable h (script p) = true)
         (requirements args) ->
  outcome r = inr tt
  /\ spawned_scripts (emitted r)
     = (if bool_decide (environ os !! "VIRTUAL_ENV" = None)
        then [venv_script h tool (python args)] else [])
       ++ map script (requirements args)
  /\ printed (emitted r) = []
  /\ created (emitted r) = unlinked (emitted r)
  /\ files (final r) = files os1.
Proof.
  intros os1 tool script r Hlevel Hopen Hchild Hvenv Hall. subst r.
  pose proof (generate_helpers_succeeds h os Hopen) as Hg.
  destruct (main_tidy h args os) as (Hp & Ht). cbv zeta in Hp, Ht.
  specialize (Ht Hlevel). fold os1 in Ht.
  destruct (generate_helpers_quiet h os) as [Hgs _].
  pose proof (setup_step_spawned h args (environ os) os1) as Hs2. cbv zeta in Hs2.
  fold tool in Hs2.
  destruct (setup_step_tidy h args (environ os) os1) as (_ & Ht2 & _).
  set (r2 := setup_step h args (environ os) os1) in *.
  assert (Ho2 : outcome r2 = inr tt).
  { subst r2. unfold setup_step. case_bool_decide as Hv; [|done].
    rewrite setup_venv_eq. cbn [outcome].
    by rewrite run_shell_command_succeeds by (done || by apply Hvenv). }
  unfold tidy_after in Ht2. rewrite Ho2 in Ht2. destruct Ht2 as [_ Hf2].
  set (r3 := install_requirements h args (final r2)).
  assert (Ho3 : outcome r3 = inr tt).
  { apply pip_install_succeeds; [done|]. rewrite Hf2.
    eapply Forall_impl; [exact Hall|]. intros p [Hp' Hw]. split; [|done].
    unfold os1. destruct (generate_helpers_returned h os Hg) as (_ & _ & ->).
    cbn [final]. by apply create_python_wrapper_keeps, create_env_file_keeps. }
  assert (Hm : main h args os
               = mkRes (inr tt) (final r3)
                       (emitted (generate_helpers h os) ++ emitted r2 ++ emitted r3)).
  { rewrite main_result. cbv zeta. rewrite Hlevel, Hg. fold os1 r2. rewrite Ho2.
    fold r3. by rewrite Ho3. }
  rewrite Hm in Hp, Ht |- *. cbn [outcome emitted final] in *.
  unfold tidy_after in Ht. cbn [outcome emitted final encode_error tidy] in Ht.
  destruct Ht as [Hc Hf].
  split; [done|]. split; [|done].
  rewrite !spawned_scripts_app, Hgs, Hs2. cbn [app].
  assert (Hvw : (if bool_decide (environ os !! "VIRTUAL_ENV" = None)
                 then if writable h (venv_script h tool (python args))
                      then [venv_script h tool (python args)] else []
                 else [])
                = if bool_decide (environ os !! "VIRTUAL_ENV" = None)
                  then [venv_script h tool (python args)] else []).
  { case_bool_decide; [|done]. by rewrite Hvenv. }
  rewrite Hvw. f_equal. by apply pip_install_all.
Qed.

Lemma main_succeeds_witness :
  let h := demo_host all_succeed in
  let args := {| python := "/usr/bin/python3"; virtualenv_path := None;
                 pip_index_url := "https://pypi.org/simple";
                 pip_extra_index_url := "";
                 requirements := ["/proj/a.txt"; "/proj/a.txt"];
                 logging_level := "INFO" |} in
  let script := pip_script h (pip_index_url args) (Some (pip_extra_index_url args)) in
  level_accepted h args = true
  /\ (forall os' p, open_error h os' p = None)
  /\ (forall os' argv, exists out, child h os' argv = Exited 0 out)
  /\ Forall (fun p => exists_in (files demo_os) p = true /\ writable h (script p) = true)
            (requirements args)
  /\ outcome (main h args demo_os) = inr tt.
Proof.
  intros h args script.
  assert (Hl : level_accepted h args = true) by reflexivity.
  assert (Hopen : forall os' p, open_error h os' p = None) by done.
  assert (Hc : forall os' argv, exists out, child h os' argv = Exited 0 out)
    by (intros; eexists; reflexivity).
  assert (Ha : Forall (fun p => exists_in (files demo_os) p = true
                                /\ writable h (script p) = true) (requirements args))
    by (repeat constructor).
  split; [done|]. split; [done|]. split; [done|]. split; [done|].
  destruct (main_succeeds h args demo_os Hl Hopen Hc (fun _ => eq_refl) Ha) as [Ho _].
  exact Ho.
Defined.

(** ** Where the files are *)

Section Locations.
Import PosixPath PathFacts.

(** [join(d, c)] on a normal form, for a name [c]. *)
Lemma join_name_normal_form n cs c :
  n ≠ 0 -> Forall clean cs -> clean c ->
  join (normal_form n cs) [c] = normal_form n (cs ++ [c]).
Proof.
  intros Hn Hcs (Hc & Hne & _). unfold join. cbn [foldl]. unfold join2.
  rewrite has_sep_starts by done.
  rewrite normal_form_truthy, normal_form_ends by done. cbn [negb orb].
  destruct cs as [|c' cs].
  - rewrite bool_decide_true by done.
    unfold normal_form. cbn [app Str.join]. by rewrite append_nil_r.
  - rewrite bool_decide_false by done.
    unfold normal_form. rewrite join_app by done. cbn [Str.join].
    by rewrite !append_assoc.
Qed.

(** A normal form is a fixed point of [normpath]. *)
Lemma normpath_normal_form n cs :
  n = 1 \/ n = 2 -> Forall clean cs ->
  normpath (normal_form n cs) = normal_form n cs.
Proof.
  intros Hn Hcs. unfold normal_form. rewrite normpath_components; [|done| |].
  - by rewrite (foldl_norm_clean n cs []) by done.
  - by apply clean_no_sep.
  - destruct cs as [|c cs]; [done|]. by apply join_starts.
Qed.

(** [abspath(join(d, '..', c))] replaces the last component of [d] by the
    name [c]. *)
Lemma abspath_sibling_normal_form n cs c wd :
  n = 1 \/ n = 2 -> Forall clean cs -> clean c ->
  abspath wd (join (normal_form n cs) [".."; c])
  = normal_form n (removelast cs ++ [c]).
Proof.
  intros Hn Hcs Hc.
  assert (Hn0 : n ≠ 0) by (destruct Hn as [-> | ->]; done).
  assert (Hc' := Hc). destruct Hc' as (Hsep & Hne & _).
  assert (Hj : join (normal_form n cs) [".."; c] = normal_form n (cs ++ [".."; c])).
  { unfold join. cbn [foldl]. unfold join2 at 2.
    cbn [Str.starts_with_char]. rewrite bool_decide_false by done.
    rewrite normal_form_truthy, normal_form_ends by done. cbn [negb orb].
    unfold join2. rewrite has_sep_starts by done.
    destruct cs as [|c' cs].
    - rewrite bool_decide_true by done.
      rewrite truthy_app, ends_with_app. cbn [Str.truthy Str.ends_with_char].
      rewrite orb_true_r, bool_decide_false by done. cbn [negb orb].
      unfold normal_form. cbn [app Str.join]. by rewrite append_nil_r, !append_assoc.
    - rewrite bool_decide_false by done.
      rewrite truthy_app, ends_with_app. cbn [Str.truthy Str.ends_with_char].
      rewrite orb_true_r, bool_decide_false by done. cbn [negb orb].
      unfold normal_form. rewrite join_app by done. cbn [Str.join].
      by rewrite !append_assoc. }
  rewrite Hj. unfold abspath. rewrite normal_form_isabs by done.
  unfold normal_form. rewrite normpath_components; [|done| |].
  - rewrite foldl_app, (foldl_norm_clean n cs []) by done. cbn [foldl app].
    rewrite norm_step_dotdot by done.
    by rewrite (norm_step_clean_comp _ _ c) by done.
  - apply Forall_app. split; [by apply clean_no_sep | by repeat constructor].
  - destruct cs as [|c' cs]; [by cbn [app Str.join]; rewrite starts_with_app|].
    rewrite join_app, starts_with_app by (done || by apply join_truthy).
    by apply join_starts.
Qed.

Lemma removelast_snoc {A} (l : list A) x : removelast (l ++ [x]) = l.
Proof. apply removelast_last. Qed.
End Locations.

(** X11: where everything is, provided [realpath] returns what it must, an
    absolute normalised path.  The two helper files are in the directory of
    the script; the manifest [main] installs by default is
    [requirements.txt] in the parent of that directory, beside the venv
    directory; each of these paths is absolute and normalised, so none of
    them depends on the working directory. *)
Theorem default_locations h :
  PosixPath.isabs (tool_file h) = true ->
  PosixPath.normpath (tool_file h) = tool_file h ->
  let fixed p := PosixPath.isabs p = true /\ PosixPath.normpath p = p in
  PosixPath.dirname (ENV_SH h) = CURRENT_DIR h
  /\ PosixPath.dirname (python_sh_path h) = CURRENT_DIR h
  /\ requirements (default_args h)
     = [PosixPath.join (project_root h) ["requirements.txt"]]
  /\ PosixPath.dirname (VENV_DIR h) = project_root h
  /\ fixed (ENV_SH h) /\ fixed (python_sh_path h) /\ fixed (VENV_DIR h)
  /\ Forall fixed (requirements (default_args h)).
Proof.
  intros Habs Hnorm fixed.
  destruct (PathFacts.normalised_normal_form _ Habs Hnorm) as (n & rs & Hn & Hrs & Hfile).
  assert (Hn0 : n ≠ 0) by (destruct Hn as [-> | ->]; done).
  pose proof (PathFacts.removelast_clean _ Hrs) as Hcs.
  pose proof (PathFacts.removelast_clean _ Hcs) as Hps.
  assert (Hdir : CURRENT_DIR h = normal_form n (removelast rs)).
  { unfold CURRENT_DIR. fold (tool_file h). rewrite Hfile.
    by apply PathFacts.dirname_normal_form. }
  assert (Hroot : project_root h = normal_form n (removelast (removelast rs))).
  { unfold project_root. rewrite Hdir. by apply PathFacts.dirname_normal_form. }
  assert (Hname : forall c, c ≠ "" -> c ≠ "." -> c ≠ ".." -> has_sep c = false -> clean c)
    by (intros c; by repeat split).
  assert (Henv : clean "env.sh") by (apply Hname; done).
  assert (Hpy : clean "python.sh") by (apply Hname; done).
  assert (Hreq : clean "requirements.txt") by (apply Hname; done).
  assert (Hvenv : clean ".venv") by (apply Hname; done).
  assert (Hfixed : forall cs, Forall clean cs -> fixed (normal_form n cs)).
  { intros cs Hc. split; [by apply PathFacts.normal_form_isabs|].
    by apply normpath_normal_form. }
  assert (Hsnoc : forall cs c, Forall clean cs -> clean c -> Forall clean (cs ++ [c])).
  { intros cs c H1 H2. apply Forall_app. split; [done|]. by constructor. }
  assert (E1 : ENV_SH h = normal_form n (removelast rs ++ ["env.sh"])).
  { unfold ENV_SH. rewrite Hdir. by apply join_name_normal_form. }
  assert (E2 : python_sh_path h = normal_form n (removelast rs ++ ["python.sh"])).
  { unfold python_sh_path. rewrite Hdir. by apply join_name_normal_form. }
  assert (E3 : requirements (default_args h)
               = [normal_form n (removelast (removelast rs) ++ ["requirements.txt"])]).
  { unfold default_args. cbn [requirements]. rewrite Hdir.
    by rewrite abspath_sibling_normal_form. }
  assert (E4 : VENV_DIR h = normal_form n (removelast (removelast rs) ++ [".venv"])).
  { unfold VENV_DIR. rewrite Hdir. by rewrite abspath_sibling_normal_form. }
  rewrite E1, E2, E3, E4, Hdir, Hroot.
  rewrite !PathFacts.dirname_normal_form, !removelast_snoc by auto.
  rewrite join_name_normal_form by done.
  repeat split; try done; try (apply Hfixed; auto).
  constructor; [|done]. apply Hfixed; auto.
Qed.

Lemma default_locations_witness :
  let h := demo_host all_succeed in
  PosixPath.isabs (tool_file h) = true
  /\ PosixPath.normpath (tool_file h) = tool_file h
  /\ requirements (default_args h)
     = [PosixPath.join (project_root h) ["requirements.txt"]].
Proof.
  intros h.
  assert (Habs : PosixPath.isabs (tool_file h) = true) by (vm_compute; reflexivity).
  assert (Hnorm : PosixPath.normpath (tool_file h) = tool_file h)
    by (vm_compute; reflexivity).
  split; [done|]. split; [done|].
  destruct (default_locations h Habs Hnorm) as (_ & _ & Hreq & _).
  exact Hreq.
Defined.
